(** * Loggy web backend ([loggy/lib/server_backend.py]): a shallow embedding

    The Python module wraps an external analyzer script behind a small HTTP
    server.  This development embeds its pure parts (text normalisation,
    result extraction, log search, signature loading) as Rocq functions and
    its effectful parts (the session dictionary, the file system, the child
    processes) by explicit state passing over an abstract operating-system
    interface, and proves properties of these definitions.

    Text model.  A Python [str] is embedded as a list of characters, one
    [ascii] per character, so the embedding covers the code points 0..255
    (ASCII and Latin-1).  On that range the character classes of the [re]
    module ([\d], [\s], [\S], [.]) and [str.isspace] are exactly the ones
    defined below. *)

From Stdlib Require Import ZArith NArith Ascii String DecimalString List Lia Bool.
From stdpp Require Import base option list gmap strings sorting.

Set Default Proof Using "Type".
Local Open Scope N_scope.
Local Open Scope list_scope.

(** ** Characters and strings *)

Abbreviation str := (list ascii).

(** A literal of the source, character by character. *)
Definition py (s : string) : str := list_ascii_of_string s.

Definition code (c : ascii) : N := N_of_ascii c.

Definition chr (n : N) : ascii := ascii_of_N n.

Definition in_range (lo hi : N) (c : ascii) : bool :=
  (lo <=? code c) && (code c <=? hi).

Definition NL : ascii := chr 10.
Definition TAB : ascii := chr 9.
Definition CR : ascii := chr 13.
Definition ESC : ascii := chr 27.

(** [str.isspace] for one character, which is also the class [\s] of a
    [str] pattern: TAB..CR, FS..US, space, NEL (0x85) and NBSP (0xA0). *)
Definition isspace (c : ascii) : bool :=
  in_range 9 13 c || in_range 28 32 c || (code c =? 133) || (code c =? 160).

(** [\d]: the decimal digits (below 256 these are 0..9 only). *)
Definition isdigit (c : ascii) : bool := in_range 48 57 c.

Definition ascii_eqb (a b : ascii) : bool := code a =? code b.

(** ** Regular expressions of the [re] module

    Only the constructs the module's patterns use.  The matcher is a
    backtracking matcher in continuation-passing style: alternatives are
    tried left to right, [*] and [+] take the longest repetition first,
    [*?] and [+?] the shortest, as in [re]. *)

Inductive atom : Type :=
  | Lit (c : ascii)                 (* the character itself *)
  | Dot                             (* .  : anything but a newline *)
  | Digit                           (* \d *)
  | Space                           (* \s *)
  | NonSpace                        (* \S *)
  | Class (ranges : list (N * N))   (* [...] as inclusive code ranges *)
  | NotClass (ranges : list (N * N)). (* [^...] *)

Definition in_ranges (rs : list (N * N)) (c : ascii) : bool :=
  existsb (fun r => in_range (fst r) (snd r) c) rs.

Definition atom_ok (a : atom) (c : ascii) : bool :=
  match a with
  | Lit d => ascii_eqb d c
  | Dot => negb (ascii_eqb c NL)
  | Digit => isdigit c
  | Space => isspace c
  | NonSpace => negb (isspace c)
  | Class rs => in_ranges rs c
  | NotClass rs => negb (in_ranges rs c)
  end.

Inductive regex : Type :=
  | Atom (a : atom)
  | Eps
  | Cat (r1 r2 : regex)
  | Alt (r1 r2 : regex)
  | Star (r : regex)                (* r*  *)
  | LazyStar (r : regex)            (* r*? *)
  | Group (n : nat) (r : regex)     (* the n-th capturing group *)
  | NoGroup (r : regex)             (* (?:r) *)
  | EndAnchor.                      (* $ without MULTILINE *)

Definition Plus (r : regex) : regex := Cat r (Star r).
Definition LazyPlus (r : regex) : regex := Cat r (LazyStar r).

(** The characters of a literal, in sequence. *)
Fixpoint Str (s : str) : regex :=
  match s with
  | [] => Eps
  | [c] => Atom (Lit c)
  | c :: s' => Cat (Atom (Lit c)) (Str s')
  end.

Fixpoint Seq (rs : list regex) : regex :=
  match rs with
  | [] => Eps
  | [r] => r
  | r :: rs' => Cat r (Seq rs')
  end.

(** The text captured by each group, most recent capture first. *)
Definition groups := list (nat * str).

Fixpoint group (g : groups) (n : nat) : option str :=
  match g with
  | [] => None
  | (m, s) :: g' => if Nat.eqb m n then Some s else group g' n
  end.

Definition or_else {R} (a b : option R) : option R :=
  match a with Some x => Some x | None => b end.

(** [rmatch r s g k]: match [r] at the start of [s]; on success hand the
    rest of the input and the groups to the continuation [k]; when [k]
    fails, backtrack.  A repetition only iterates when its body consumed
    input, so the remaining length bounds the number of iterations. *)
Fixpoint rmatch {R : Type} (r : regex) (s : str) (g : groups)
    (k : str -> groups -> option R) {struct r} : option R :=
  match r with
  | Atom a =>
      match s with
      | c :: s' => if atom_ok a c then k s' g else None
      | [] => None
      end
  | Eps => k s g
  | Cat r1 r2 => rmatch r1 s g (fun s' g' => rmatch r2 s' g' k)
  | Alt r1 r2 => or_else (rmatch r1 s g k) (rmatch r2 s g k)
  | Star r1 =>
      (fix loop (fuel : nat) (s : str) (g : groups) {struct fuel} : option R :=
         match fuel with
         | O => k s g
         | S fuel' =>
             or_else
               (rmatch r1 s g (fun s' g' =>
                  if (length s' <? length s)%nat then loop fuel' s' g' else None))
               (k s g)
         end) (length s) s g
  | LazyStar r1 =>
      (fix loop (fuel : nat) (s : str) (g : groups) {struct fuel} : option R :=
         match fuel with
         | O => k s g
         | S fuel' =>
             or_else
               (k s g)
               (rmatch r1 s g (fun s' g' =>
                  if (length s' <? length s)%nat then loop fuel' s' g' else None))
         end) (length s) s g
  | Group n r1 =>
      rmatch r1 s g (fun s' g' =>
        k s' ((n, take (length s - length s')%nat s) :: g'))
  | NoGroup r1 => rmatch r1 s g k
  | EndAnchor =>
      match s with
      | [] => k s g
      | [c] => if ascii_eqb c NL then k s g else None
      | _ => None
      end
  end.

(** A match object: where the match ended and what the groups hold. *)
Record rmatch_obj : Type := MatchObj { m_rest : str; m_groups : groups }.

(** [pattern.match] at the start of [s]. *)
Definition match_here (r : regex) (s : str) : option rmatch_obj :=
  rmatch r s [] (fun s' g => Some (MatchObj s' g)).

(** [m.group(n)]; a group that did not take part in the match is the empty
    text here (the patterns below only read groups that always take part). *)
Definition m_group (m : rmatch_obj) (n : nat) : str :=
  default [] (group (m_groups m) n).

(** The number of characters a match at the start of [s] spans. *)
Definition m_span (s : str) (m : rmatch_obj) : nat :=
  (length s - length (m_rest m))%nat.

(** [re.search]: the leftmost position at which the pattern matches. *)
Fixpoint re_search (r : regex) (s : str) : option rmatch_obj :=
  match match_here r s with
  | Some m => Some m
  | None =>
      match s with
      | [] => None
      | _ :: s' => re_search r s'
      end
  end.

(** [re.finditer]: successive non-overlapping matches, left to right.
    [skip] counts the characters of the current match still to step over.
    (After an empty match the scan moves on by one character; no pattern of
    this module matches the empty text.) *)
Fixpoint finditer_from (r : regex) (s : str) (skip : nat) : list rmatch_obj :=
  match s with
  | [] =>
      match skip with
      | O => match match_here r [] with Some m => [m] | None => [] end
      | S _ => []
      end
  | _ :: s' =>
      match skip with
      | S n => finditer_from r s' n
      | O =>
          match match_here r s with
          | Some m => m :: finditer_from r s' (m_span s m - 1)
          | None => finditer_from r s' 0
          end
      end
  end.

Definition re_finditer (r : regex) (s : str) : list rmatch_obj :=
  finditer_from r s 0.

(** [re.sub(r, '', s)]: the text with every match deleted. *)
Fixpoint sub_from (r : regex) (s : str) (skip : nat) : str :=
  match s with
  | [] => []
  | c :: s' =>
      match skip with
      | S n => sub_from r s' n
      | O =>
          match match_here r s with
          | Some m =>
              match m_span s m with
              | O => c :: sub_from r s' 0
              | S n => sub_from r s' n
              end
          | None => c :: sub_from r s' 0
          end
      end
  end.

Definition re_sub_empty (r : regex) (s : str) : str := sub_from r s 0.

(** ** [strip_ansi] *)

(** [\x1b\[[0-9;]*[a-zA-Z]] *)
Definition ansi_re : regex :=
  Seq [ Atom (Lit ESC); Atom (Lit "["%char);
        Star (Atom (Class [(48, 57); (59, 59)]));
        Atom (Class [(97, 122); (65, 90)]) ].

(** [[\x00-\x08\x0b\x0c\x0e-\x1f\x7f]] *)
Definition ctrl_re : regex :=
  Atom (Class [(0, 8); (11, 11); (12, 12); (14, 31); (127, 127)]).

Definition strip_ansi (s : str) : str :=
  let s := re_sub_empty ansi_re s in
  let s := re_sub_empty ctrl_re s in
  s.

(** The control characters [strip_ansi] deletes, and the characters it keeps. *)
Definition ctrl_removed (c : ascii) : bool :=
  in_ranges [(0, 8); (11, 11); (12, 12); (14, 31); (127, 127)] c.

Definition kept (c : ascii) : bool := negb (ctrl_removed c).

(** An ASCII control character: 0x00..0x1F or DEL. *)
Definition is_control (c : ascii) : bool := (code c <? 32) || (code c =? 127).

Definition is_param (c : ascii) : bool := in_ranges [(48, 57); (59, 59)] c.
Definition is_letter (c : ascii) : bool := in_ranges [(97, 122); (65, 90)] c.

(** The text starts with an escape sequence [ESC [ parameters letter]. *)
Definition starts_with_csi (s : str) : Prop :=
  exists ps l rest,
    s = ESC :: "["%char :: ps ++ l :: rest
    /\ Forall (fun c => is_param c = true) ps /\ is_letter l = true.

(** ** [str] methods and [os.path] helpers *)

Fixpoint lstrip (s : str) : str :=
  match s with
  | c :: s' => if isspace c then lstrip s' else s
  | [] => []
  end.

Definition rstrip (s : str) : str := rev (lstrip (rev s)).

(** [s.strip()] *)
Definition strip (s : str) : str := rstrip (lstrip s).

(** [s.split(sep)] for a one-character separator: never an empty list. *)
Fixpoint split (sep : ascii) (s : str) : list str :=
  match s with
  | [] => [[]]
  | c :: s' =>
      if ascii_eqb c sep then [] :: split sep s'
      else match split sep s' with
           | p :: ps => (c :: p) :: ps
           | [] => [[c]]
           end
  end.

(** [s.startswith(p)] *)
Fixpoint startswith (s p : str) {struct p} : bool :=
  match p with
  | [] => true
  | a :: p' =>
      match s with
      | b :: s' => ascii_eqb a b && startswith s' p'
      | [] => false
      end
  end.

(** [sub in s] *)
Fixpoint contains (sub s : str) : bool :=
  startswith s sub ||
  match s with
  | [] => false
  | _ :: s' => contains sub s'
  end.

Definition str_eqb (a b : str) : bool := bool_decide (a = b).

(** [s.lower()], character by character: A..Z and the accented capitals
    0xC0..0xDE (but the multiplication sign 0xD7) move up by 32. *)
Definition lower_char (c : ascii) : ascii :=
  if in_range 65 90 c || (in_range 192 222 c && negb (code c =? 215))
  then chr (code c + 32) else c.

Definition lower (s : str) : str := map lower_char s.

(** [s.upper()], as code points: upper-casing leaves the range of [ascii]
    for the sharp s (two letters), the micro sign and y with diaeresis. *)
Definition upper_char (c : ascii) : list N :=
  if in_range 97 122 c || (in_range 224 254 c && negb (code c =? 247))
  then [code c - 32]
  else if code c =? 223 then [83; 83]
  else if code c =? 181 then [924]
  else if code c =? 255 then [376]
  else [code c].

Definition upper (s : str) : list N := flat_map upper_char s.

(** [s.replace(old, "")] for a non-empty [old]. *)
Fixpoint remove_all_from (old s : str) (skip : nat) : str :=
  match s with
  | [] => []
  | c :: s' =>
      match skip with
      | S n => remove_all_from old s' n
      | O => if startswith s old
             then remove_all_from old s' (length old - 1)
             else c :: remove_all_from old s' 0
      end
  end.

Definition remove_all (old s : str) : str := remove_all_from old s 0.

(** [os.path.basename]: what follows the last slash. *)
Definition basename (p : str) : str := List.last (split "/"%char p) [].

(** [os.path.join(a, b)] *)
Definition path_join (a b : str) : str :=
  if startswith b (py "/") then b
  else match List.last (map Some a) None with
       | None => b
       | Some c => if ascii_eqb c "/"%char then a ++ b else a ++ py "/" ++ b
       end.

(** The decimal numeral of an integer, as [str(n)] and ["{}".format(n)] give it. *)
Definition str_of_Z (n : Z) : str :=
  py (DecimalString.NilZero.string_of_int (Z.to_int n)).

Definition digit_val (c : ascii) : Z := Z.of_N (code c - 48).

(** The digits of a numeral read by [int]: digits, single underscores only
    between digits. *)
Fixpoint int_digits (s : str) (acc : Z) (after_digit : bool) : option Z :=
  match s with
  | [] => if after_digit then Some acc else None
  | c :: s' =>
      if isdigit c then int_digits s' (10 * acc + digit_val c)%Z true
      else if ascii_eqb c "_"%char && after_digit then int_digits s' acc false
      else None
  end.

(** The white space [int] skips around a numeral: the ASCII white space
    [\t\n\v\f\r] and the blank, and the white space above 0x7F (0x85 and
    0xA0); the separators 0x1C..0x1F are not skipped. *)
Definition int_space (c : ascii) : bool :=
  in_range 9 13 c || (code c =? 32) || (code c =? 133) || (code c =? 160).

Fixpoint int_lstrip (s : str) : str :=
  match s with
  | c :: s' => if int_space c then int_lstrip s' else s
  | [] => []
  end.

Definition int_strip (s : str) : str := rev (int_lstrip (rev (int_lstrip s))).

(** [sys.get_int_max_str_digits()], which the module leaves at its default. *)
Definition int_max_str_digits : nat := 4300.

(** The digits of a numeral, the underscores between them left out. *)
Definition count_digits (s : str) : nat := length (List.filter isdigit s).

(** [int(s)] on text: surrounding white space and a sign are allowed, and a
    numeral of more than [int_max_str_digits] digits is refused; [None]
    stands for [ValueError]. *)
Definition py_int (s : str) : option Z :=
  match int_strip s with
  | c :: s' =>
      let body := if ascii_eqb c "-"%char || ascii_eqb c "+"%char then s' else c :: s' in
      if (int_max_str_digits <? count_digits body)%nat then None
      else if ascii_eqb c "-"%char then Z.opp <$> int_digits s' 0%Z false
      else if ascii_eqb c "+"%char then int_digits s' 0%Z false
      else int_digits (c :: s') 0%Z false
  | [] => None
  end.

(** ** Python values that cross the HTTP boundary *)

(** What [json.loads] yields and [json.dumps] writes.  A dictionary keeps
    its keys in insertion order. *)
#[local] Unset Elimination Schemes.
Inductive json : Type :=
  | JNull
  | JBool (b : bool)
  | JNum (n : Z)
  | JStr (s : str)
  | JList (l : list json)
  | JDict (kv : list (str * json)).
#[local] Set Elimination Schemes.

(** Truth value of a Python object in an [if]. *)
Definition truthy (j : json) : bool :=
  match j with
  | JNull => false
  | JBool b => b
  | JNum n => negb (n =? 0)%Z
  | JStr s => match s with [] => false | _ => true end
  | JList l => match l with [] => false | _ => true end
  | JDict kv => match kv with [] => false | _ => true end
  end.

(** An insertion-ordered dictionary with [str] keys, as Python's [dict]. *)
Definition dict (V : Type) : Type := list (str * V).

Fixpoint dict_get {V} (d : dict V) (k : str) : option V :=
  match d with
  | [] => None
  | (k', v) :: d' => if str_eqb k' k then Some v else dict_get d' k
  end.

(** [d[k] = v]: replaces in place, or appends a new key. *)
Fixpoint dict_set {V} (d : dict V) (k : str) (v : V) : dict V :=
  match d with
  | [] => [(k, v)]
  | (k', v') :: d' =>
      if str_eqb k' k then (k', v) :: d' else (k', v') :: dict_set d' k v
  end.

Definition dict_values {V} (d : dict V) : list V := map snd d.

(** Exceptions the embedded code can raise. *)
Inductive exn : Type :=
  | ValueError (msg : str)
  | TypeError (msg : str)
  | AttributeError (msg : str)
  | JSONDecodeError (msg : str)
  | OSError (msg : str).

Inductive result (A : Type) : Type :=
  | Ok (a : A)
  | Raise (e : exn).
Arguments Ok {A} a.
Arguments Raise {A} e.

(** ** The host: configuration, file system and child processes

    Everything the module reads from its environment.  [W] is the state of
    the world outside the Python process; reading it is a function of the
    world, changing it yields a new world. *)

(** How [subprocess.run] ends: the child exits, the timeout expires, or any
    other exception [e] is raised ([msg] is [str(e)]). *)
Inductive proc_outcome : Type :=
  | Completed (returncode : Z) (out err : str)
  | TimeoutExpired
  | ProcError (msg : str).

(** The module-level constants computed at import time. *)
Record config : Type := Config {
  ANALYZER : str;
  FRONTEND : str;
  ANALYZER_DIR : str;
  UPLOAD_DIR : str;
  SESSION_DIR : str;
  SIGNATURES_FILE : str;
  REGISTRY_FILE : str
}.

Class Host (W : Type) : Type := {
  (** [os.path.isdir], [os.path.isfile] *)
  os_isdir : W -> str -> bool;
  os_isfile : W -> str -> bool;
  (** [glob.glob(pattern)], in the order the directory yields the names *)
  os_glob : W -> str -> list str;
  (** [os.path.getsize] of a listed file; [OSError] when it cannot be read *)
  os_getsize : W -> str -> result Z;
  (** [os.makedirs(path, exist_ok=True)] *)
  os_makedirs : W -> str -> W;
  (** [open(path)] read line by line, each line with its line end *)
  read_lines : W -> str -> result (list str);
  (** [open(path, "rb").read()] *)
  read_bytes : W -> str -> result str;
  (** [subprocess.run(cmd, capture_output=True, timeout=t, cwd=..., env=...)]
      of the analyzer, output already decoded; the child may write files *)
  run_bash : W -> list json -> Z -> proc_outcome * W;
  (** [subprocess.run(["grep", "-i", "-n", pattern, file], ..., timeout=10)]:
      the text of [p.stdout], or [None] when the call raises *)
  run_grep : W -> str -> str -> option str;
  (** [uuid.uuid4().hex] *)
  uuid4_hex : W -> str * W;
  (** [mimetypes.guess_type(path)[0]] *)
  guess_type : str -> option str;
  (** [json.loads] of a request body *)
  json_loads : str -> result json
}.

(** ** Session store *)

Record session : Type := Session {
  sid : str;
  input_path : str;
  work_dir : str;
  reports_dir : str;
  state : str;
  device_id : str;
  analysis_mode : json;
  stdout : str;
  stderr : str
}.

Definition set_state (v : str) (s : session) : session :=
  Session (sid s) (input_path s) (work_dir s) (reports_dir s) v
          (device_id s) (analysis_mode s) (stdout s) (stderr s).
Definition set_device_id (v : str) (s : session) : session :=
  Session (sid s) (input_path s) (work_dir s) (reports_dir s) (state s)
          v (analysis_mode s) (stdout s) (stderr s).
Definition set_analysis_mode (v : json) (s : session) : session :=
  Session (sid s) (input_path s) (work_dir s) (reports_dir s) (state s)
          (device_id s) v (stdout s) (stderr s).
Definition set_stdout (v : str) (s : session) : session :=
  Session (sid s) (input_path s) (work_dir s) (reports_dir s) (state s)
          (device_id s) (analysis_mode s) v (stderr s).
Definition set_stderr (v : str) (s : session) : session :=
  Session (sid s) (input_path s) (work_dir s) (reports_dir s) (state s)
          (device_id s) (analysis_mode s) (stdout s) v.

(** ** Result records *)

Record finding : Type := Finding { severity : str; title : str }.
Record health_rec : Type := Health { score : Z; grade : str }.
Record report : Type := Report { name : str; path : str; size : Z }.

(** The dictionary [parse_session_results] returns.  Its keys [metrics],
    [status], [timeline], [deep] and [signatures] are always empty and only
    appear in the JSON form.  [health] and [device_info] are the empty
    dictionary ([None]) until a pattern matches. *)
Record results : Type := Results {
  issues : list finding;
  health : option health_rec;
  reports : list report;
  device_info : option str
}.

(** A search hit; the placeholder has no ["file"] key. *)
Record hit : Type := Hit { file : option str; line : str }.

(** ** The patterns of the module *)

Definition severity_alt : regex :=
  Alt (Str (py "CRITICAL")) (Alt (Str (py "HIGH"))
    (Alt (Str (py "MEDIUM")) (Str (py "LOW")))).

(** [(?:\n|$)] *)
Definition line_end : regex := NoGroup (Alt (Atom (Lit NL)) EndAnchor).

(** [#\d+\s+(CRITICAL|HIGH|MEDIUM|LOW)\s+(.+?)(?:\n|$)] *)
Definition issue_re : regex :=
  Seq [ Atom (Lit "#"%char); Plus (Atom Digit); Plus (Atom Space);
        Group 1 severity_alt; Plus (Atom Space);
        Group 2 (LazyPlus (Atom Dot)); line_end ].

(** [\[(CRITICAL|HIGH|MEDIUM|LOW)\]\s+(.+?)(?:\n|$)] *)
Definition bracket_re : regex :=
  Seq [ Atom (Lit "["%char); Group 1 severity_alt; Atom (Lit "]"%char);
        Plus (Atom Space); Group 2 (LazyPlus (Atom Dot)); line_end ].

(** [[A-F]] *)
Definition grade_class : atom := Class [(65, 70)].

(** [Health Score:\s*(\d+)\s*/\s*100\s*Grade:\s*([A-F])] *)
Definition health_re1 : regex :=
  Seq [ Str (py "Health Score:"); Star (Atom Space);
        Group 1 (Plus (Atom Digit)); Star (Atom Space);
        Atom (Lit "/"%char); Star (Atom Space); Str (py "100");
        Star (Atom Space); Str (py "Grade:"); Star (Atom Space);
        Group 2 (Atom grade_class) ].

(** [Health Score:\s*(\d+)/100\s*\(([A-F])\)] *)
Definition health_re2 : regex :=
  Seq [ Str (py "Health Score:"); Star (Atom Space);
        Group 1 (Plus (Atom Digit)); Str (py "/100"); Star (Atom Space);
        Atom (Lit "("%char); Group 2 (Atom grade_class); Atom (Lit ")"%char) ].

(** [Device.*?:\s*(\S+)] *)
Definition device_re : regex :=
  Seq [ Str (py "Device"); LazyStar (Atom Dot); Atom (Lit ":"%char);
        Star (Atom Space); Group 1 (Plus (Atom NonSpace)) ].

(** Lexicographic order of [str] by code point, the order of [sorted]. *)
Fixpoint str_leb (a b : str) : bool :=
  match a, b with
  | [], _ => true
  | _ :: _, [] => false
  | x :: a', y :: b' =>
      if code x <? code y then true
      else if code y <? code x then false
      else str_leb a' b'
  end.

Definition str_le (a b : str) : Prop := str_leb a b = true.

#[global] Instance str_le_dec a b : Decision (str_le a b).
Proof. unfold str_le. apply _. Defined.

(** [sorted(paths)] *)
Definition sorted (l : list str) : list str := merge_sort str_le l.

(** ** The functions of the module *)

Section backend.
Context {W : Type} `{!Host W} (cfg : config).

(** The module-level [sessions] dictionary. *)
Definition sessions_t : Type := dict session.

(** [new_session(input_path)] *)
Definition new_session (w : W) (sessions : sessions_t) (input : str)
    : str * sessions_t * W :=
  let '(hex, w) := uuid4_hex w in
  let sid := take 12 hex in
  let sdir := path_join (SESSION_DIR cfg) sid in
  let rdir := path_join sdir (py "reports") in
  let w := os_makedirs w rdir in
  let sessions :=
    dict_set sessions sid
      (Session sid input sdir rdir (py "loaded") [] (JStr []) [] []) in
  (sid, sessions, w).

(** [run_analyzer(args, timeout)] *)
Definition run_analyzer (w : W) (args : list json) (timeout : Z)
    : (Z * str * str) * W :=
  let cmd := [JStr (py "bash"); JStr (ANALYZER cfg)] ++ args in
  let '(p, w) := run_bash w cmd timeout in
  match p with
  | Completed returncode out err => ((returncode, out, err), w)
  | TimeoutExpired =>
      ((124%Z, [], py "Timeout after " ++ str_of_Z timeout ++ py "s"), w)
  | ProcError msg => ((1%Z, [], msg), w)
  end.

Definition finding_of (m : rmatch_obj) : finding :=
  Finding (m_group m 1) (strip (m_group m 2)).

(** The two loops that fill [result["issues"]]. *)
Definition extract_issues (out : str) : list finding :=
  let issues := [] in
  let issues :=
    foldl (fun acc m => acc ++ [finding_of m]) issues (re_finditer issue_re out) in
  match issues with
  | [] => foldl (fun acc m => acc ++ [finding_of m]) issues (re_finditer bracket_re out)
  | _ :: _ => issues
  end.

(** The health record; [int(m.group(1))] may raise [ValueError]. *)
Definition extract_health (out : str) : result (option health_rec) :=
  let m := re_search health_re1 out in
  let m := match m with
           | None => re_search health_re2 out
           | Some _ => m
           end in
  match m with
  | Some m =>
      match py_int (m_group m 1) with
      | Some n => Ok (Some (Health n (m_group m 2)))
      | None => Raise (ValueError (m_group m 1))
      end
  | None => Ok None
  end.

Definition extract_device (out : str) : option str :=
  match re_search device_re out with
  | Some m => Some (m_group m 1)
  | None => None
  end.

(** The loop that fills [result["reports"]]; [os.path.getsize] may raise
    [OSError], which ends the loop and the call. *)
Fixpoint list_reports (w : W) (files : list str) (reports : list report)
    : result (list report) :=
  match files with
  | [] => Ok reports
  | f :: files' =>
      let bn := basename f in
      match os_getsize w f with
      | Raise e => Raise e
      | Ok size => list_reports w files' (reports ++ [Report bn f size])
      end
  end.

(** [parse_session_results(sid)]: [Ok None] is the [return None] of an
    unknown session. *)
Definition parse_session_results (w : W) (sessions : sessions_t) (id : str)
    : result (option results) :=
  match dict_get sessions id with
  | None => Ok None
  | Some s =>
      let rdir := reports_dir s in
      match list_reports w (sorted (os_glob w (path_join rdir (py "*")))) [] with
      | Raise e => Raise e
      | Ok reports =>
          let out := stdout s in
          let issues := extract_issues out in
          match extract_health out with
          | Raise e => Raise e
          | Ok health =>
              Ok (Some (Results issues health reports (extract_device out)))
          end
      end
  end.

(** [sev_map], keyed by the code points of the upper-cased argument. *)
Definition sev_map : list (list N * str) :=
  [ (map code (py "E"), py "|E|"); (map code (py "W"), py "|W|");
    (map code (py "I"), py "|I|"); (map code (py "C"), py "|C|");
    (map code (py "N"), py "|N|") ].

Fixpoint sev_map_get (m : list (list N * str)) (k : list N) (dflt : str) : str :=
  match m with
  | [] => dflt
  | (k', v) :: m' => if bool_decide (k' = k) then v else sev_map_get m' k dflt
  end.

Definition nonempty (s : str) : bool := match s with [] => false | _ => true end.

(** The dash of the source text lies outside the range of [ascii]; the
    literal holds it by its UTF-8 bytes. *)
Definition placeholder : str :=
  py "Logs not parsed yet — run analysis first".

(** The inner loop of [search_logs] over the output lines of one [grep];
    the flag tells that [return results] was executed. *)
Fixpoint scan_lines (severity sev_str component fname : str) (max_results : Z)
    (lines : list str) (results : list hit) : list hit * bool :=
  match lines with
  | [] => (results, false)
  | line :: lines' =>
      if negb (nonempty line) then
        scan_lines severity sev_str component fname max_results lines' results
      else if nonempty severity && nonempty sev_str && negb (contains sev_str line) then
        scan_lines severity sev_str component fname max_results lines' results
      else if nonempty component && negb (contains (lower component) (lower line)) then
        scan_lines severity sev_str component fname max_results lines' results
      else
        let results := results ++ [Hit (Some fname) (take 300 line)] in
        if (max_results <=? Z.of_nat (length results))%Z then (results, true)
        else scan_lines severity sev_str component fname max_results lines' results
  end.

(** The outer loop over the files; a [grep] that raises is skipped. *)
Fixpoint scan_files (w : W) (pattern severity sev_str component : str)
    (max_results : Z) (files : list str) (results : list hit) : list hit :=
  match files with
  | [] => results
  | f :: files' =>
      match run_grep w pattern f with
      | None =>
          scan_files w pattern severity sev_str component max_results files' results
      | Some out =>
          let '(results, returned) :=
            scan_lines severity sev_str component (basename f) max_results
                       (split NL (strip out)) results in
          if returned then results
          else scan_files w pattern severity sev_str component max_results
                          files' results
      end
  end.

(** [search_logs(sid, pattern, severity, component, after, before, max_results)] *)
Definition search_logs (w : W) (sessions : sessions_t) (id pattern : str)
    (severity component after before : str) (max_results : Z) : list hit :=
  match dict_get sessions id with
  | None => []
  | Some s =>
      let work := work_dir s in
      let parsed_dir := path_join work (py "parsed") in
      if negb (os_isdir w parsed_dir) then [Hit None placeholder]
      else
        let results := [] in
        let sev_str := [] in
        let sev_str :=
          if nonempty severity then sev_map_get sev_map (upper severity) []
          else sev_str in
        scan_files w pattern severity sev_str component max_results
          (sorted (os_glob w (path_join parsed_dir (py "*.parsed")))) results
  end.

(** Per-component counters of [list_components]. *)
Record comp_stats : Type := CompStats { total : Z; errors : Z; warnings : Z }.

Definition count (p : str -> bool) (lines : list str) : Z :=
  Z.of_nat (length (List.filter p lines)).

(** [list_components(sid)]; an unknown session gives the empty list. *)
Definition list_components (w : W) (sessions : sessions_t) (id : str)
    : dict comp_stats :=
  match dict_get sessions id with
  | None => []
  | Some s =>
      let parsed_dir := path_join (work_dir s) (py "parsed") in
      let comps := [] in
      if os_isdir w parsed_dir then
        foldl (fun comps f =>
                 let name := remove_all (py ".parsed") (basename f) in
                 match read_lines w f with
                 | Ok lines =>
                     dict_set comps name
                       (CompStats
                          (Z.of_nat (length lines))
                          (count (fun l => contains (py "|E|") l || contains (py "|C|") l) lines)
                          (count (fun l => contains (py "|W|") l) lines))
                 | Raise _ => dict_set comps name (CompStats 0 0 0)
                 end)
              comps (os_glob w (path_join parsed_dir (py "*.parsed")))
      else comps
  end.
End backend.

(** ** Signature catalog *)

(** A catalog entry: the dictionary literal, keys in the order written. *)
Definition entry : Type := list (str * str).

(** [parts[i]]; only used below the length of [parts]. *)
Definition item (parts : list str) (i : nat) : str := nth i parts [].

Definition is_skipped (line : str) : bool :=
  negb (nonempty line) || startswith line (py "#").

(** One iteration of the loop over [known_signatures.tsv]. *)
Definition signature_step (sigs : list entry) (line : str) : list entry :=
  let line := strip line in
  if is_skipped line then sigs
  else
    let parts := split TAB line in
    if (6 <=? length parts)%nat then
      sigs ++ [[ (py "pattern", item parts 0); (py "component", item parts 1);
                 (py "severity", item parts 2); (py "title", item parts 3);
                 (py "root_cause", item parts 4); (py "fix", item parts 5);
                 (py "kb_url", if (6 <? length parts)%nat then item parts 6 else []);
                 (py "source", py "signatures") ]]
    else sigs.

(** [{name.strip(): idx for idx, name in enumerate(parts)}]: a later
    column of the same name replaces an earlier one. *)
Definition make_col_map (parts : list str) : gmap str nat :=
  foldl (fun m '(idx, name) => <[strip name := idx]> m) ∅
        (imap (fun idx name => (idx, name)) parts).

(** The local function [col(name, default)]. *)
Definition col (col_map : gmap str nat) (parts : list str) (name dflt : str) : str :=
  match col_map !! name with
  | Some idx => if (idx <? length parts)%nat then item parts idx else dflt
  | None => dflt
  end.

Definition registry_entry (col_map : gmap str nat) (parts : list str) : entry :=
  [ (py "pattern", col col_map parts (py "name") []);
    (py "component", col col_map parts (py "module") []);
    (py "severity", col col_map parts (py "severity") (py "MEDIUM"));
    (py "title", col col_map parts (py "description") []);
    (py "root_cause", col col_map parts (py "description") []);
    (py "fix", col col_map parts (py "troubleshootingSteps") []);
    (py "kb_url", []);
    (py "source", py "registry");
    (py "module", col col_map parts (py "module") []);
    (py "errorType", col col_map parts (py "errorType") []);
    (py "onSiteRequired", col col_map parts (py "onSiteServiceRequired") (py "false")) ].

(** One iteration of the loop over [error_registry.tsv]: the state is
    [col_map] and [sigs]. *)
Definition registry_step (st : gmap str nat * list entry) (line : str)
    : gmap str nat * list entry :=
  let '(col_map, sigs) := st in
  let line := strip line in
  if is_skipped line then (col_map, sigs)
  else
    let parts := split TAB line in
    if decide (col_map = ∅) then (make_col_map parts, sigs)
    else if (4 <=? length parts)%nat
         then (col_map, sigs ++ [registry_entry col_map parts])
         else (col_map, sigs).

(** The registry loop on its own, from an empty [col_map]. *)
Definition load_registry (sigs : list entry) (lines : list str) : list entry :=
  snd (foldl registry_step (∅, sigs) lines).

Section catalog.
Context {W : Type} `{!Host W} (cfg : config).

(** [load_signatures()]; [open] may raise. *)
Definition load_signatures (w : W) : result (list entry) :=
  let sigs := [] in
  let r :=
    if os_isfile w (SIGNATURES_FILE cfg) then
      match read_lines w (SIGNATURES_FILE cfg) with
      | Ok lines => Ok (foldl signature_step sigs lines)
      | Raise e => Raise e
      end
    else Ok sigs in
  match r with
  | Raise e => Raise e
  | Ok sigs =>
      if os_isfile w (REGISTRY_FILE cfg) then
        match read_lines w (REGISTRY_FILE cfg) with
        | Ok lines => Ok (load_registry sigs lines)
        | Raise e => Raise e
        end
      else Ok sigs
  end.
End catalog.

(** ** HTTP handler *)

(** What a handler writes: [_json(data, code)] or the file body of [_file]. *)
Inductive response : Type :=
  | JsonResponse (code : Z) (data : json)
  | FileResponse (content_type : str) (data : str) (attachment : option str).

(** A GET request after [urlparse] and [dict(parse_qsl(query))]. *)
Record get_request : Type := GetRequest {
  get_path : str;
  get_params : gmap str str
}.

(** A POST request: the path, the two headers read, and the body. *)
Record post_request : Type := PostRequest {
  post_path : str;
  content_length : option str;
  content_type_hdr : option str;
  post_body : str
}.

(** [body.get(key, default)]; a body that is no dictionary has no [get]. *)
Definition json_get (body : json) (key : str) (dflt : json) : result json :=
  match body with
  | JDict kv => Ok (default dflt (dict_get kv key))
  | _ => Raise (AttributeError (py "get"))
  end.

Definition error_json (msg : str) : json := JDict [(py "error", JStr msg)].

Definition finding_json (f : finding) : json :=
  JDict [(py "severity", JStr (severity f)); (py "title", JStr (title f))].

Definition report_json (r : report) : json :=
  JDict [(py "name", JStr (name r)); (py "path", JStr (path r));
         (py "size", JNum (size r))].

Definition health_json (h : option health_rec) : json :=
  match h with
  | Some h => JDict [(py "score", JNum (score h)); (py "grade", JStr (grade h))]
  | None => JDict []
  end.

Definition device_info_json (d : option str) : json :=
  match d with
  | Some d => JDict [(py "device_id", JStr d)]
  | None => JDict []
  end.

Definition results_json (r : results) (raw_output : str) : json :=
  JDict [ (py "issues", JList (map finding_json (issues r)));
          (py "metrics", JDict []); (py "status", JDict []);
          (py "timeline", JList []); (py "health", health_json (health r));
          (py "deep", JDict []); (py "signatures", JList []);
          (py "reports", JList (map report_json (reports r)));
          (py "device_info", device_info_json (device_info r));
          (py "raw_output", JStr raw_output) ].

Definition hit_json (h : hit) : json :=
  match file h with
  | Some f => JDict [(py "file", JStr f); (py "line", JStr (line h))]
  | None => JDict [(py "line", JStr (line h))]
  end.

Definition entry_json (e : entry) : json :=
  JDict (map (fun kv => (fst kv, JStr (snd kv))) e).

Definition session_summary (s : session) : list (str * json) :=
  [ (py "id", JStr (sid s)); (py "state", JStr (state s));
    (py "device_id", JStr (device_id s));
    (py "input", JStr (basename (input_path s)));
    (py "mode", analysis_mode s) ].

(** [rfile.read(n)] on a body that is wholly there. *)
Definition read_body (n : Z) (body : str) : str :=
  if (n <? 0)%Z then body else take (Z.to_nat n) body.

Section handler.
Context {W : Type} `{!Host W} (cfg : config).

(** The state a request runs in: the [sessions] dictionary and the world. *)
Definition hstate : Type := sessions_t * W.

(** The routes that are not embedded: their handlers are parameters. *)
Variable post_upload post_compare post_fleet :
  post_request -> Z -> hstate -> result response * hstate.

(** [Handler._file(path, content_type)] *)
Definition send_file (w : W) (p : str) (ctype : option str) : result response :=
  if negb (os_isfile w p) then Ok (JsonResponse 404 (error_json (py "Not found")))
  else
    let given := match ctype with Some c => if nonempty c then Some c else None
                                | None => None end in
    let guessed := match guess_type p with Some c => if nonempty c then Some c else None
                                         | None => None end in
    let ct := default (default (py "application/octet-stream") guessed) given in
    match read_bytes w p with
    | Raise e => Raise e
    | Ok data =>
        Ok (FileResponse ct data
              (if str_eqb ct (py "application/octet-stream")
               then Some (basename p) else None))
    end.

(** The branch of [do_GET] under [/api/session/]. *)
Definition get_session (rq : get_request) (st : hstate) : result response * hstate :=
  let '(sessions, w) := st in
  let path := get_path rq in
  let params := get_params rq in
  let parts := split "/"%char path in
  if (length parts <? 4)%nat
  then (Ok (JsonResponse 400 (error_json (py "Missing session ID"))), st)
  else
    let id := item parts 3 in
    let action := if (4 <? length parts)%nat then item parts 4 else py "info" in
    match dict_get sessions id with
    | None => (Ok (JsonResponse 404 (error_json (py "Session not found"))), st)
    | Some s =>
        if str_eqb action (py "info") then
          (Ok (JsonResponse 200 (JDict [(py "session", JDict
             [ (py "id", JStr id); (py "state", JStr (state s));
               (py "device_id", JStr (device_id s));
               (py "input", JStr (basename (input_path s)));
               (py "mode", analysis_mode s);
               (py "reports",
                 JList (map (fun f => JStr (basename f))
                            (os_glob w (path_join (reports_dir s) (py "*"))))) ])])),
           st)
        else if str_eqb action (py "results") then
          match parse_session_results w sessions id with
          | Raise e => (Raise e, st)
          | Ok None => (Raise (TypeError (py "NoneType")), st)
          | Ok (Some r) => (Ok (JsonResponse 200 (results_json r (stdout s))), st)
          end
        else if str_eqb action (py "search") then
          let max := match params !! py "max" with
                     | None => Some 50%Z
                     | Some v => py_int v
                     end in
          match max with
          | None => (Raise (ValueError (default [] (params !! py "max"))), st)
          | Some max =>
              let results :=
                search_logs w sessions id
                  (default [] (params !! py "q"))
                  (default [] (params !! py "severity"))
                  (default [] (params !! py "component"))
                  (default [] (params !! py "after"))
                  (default [] (params !! py "before")) max in
              (Ok (JsonResponse 200
                     (JDict [ (py "results", JList (map hit_json results));
                              (py "count", JNum (Z.of_nat (length results))) ])),
               st)
          end
        else if str_eqb action (py "components") then
          (Ok (JsonResponse 200 (JDict [(py "components",
             JDict (map (fun kv =>
                      (fst kv, JDict [ (py "total", JNum (total (snd kv)));
                                       (py "errors", JNum (errors (snd kv)));
                                       (py "warnings", JNum (warnings (snd kv))) ]))
                    (list_components w sessions id)))])), st)
        else if str_eqb action (py "report") then
          let fname := default [] (params !! py "file") in
          if negb (nonempty fname)
          then (Ok (JsonResponse 400 (error_json (py "Missing file param"))), st)
          else (send_file w (path_join (reports_dir s) (basename fname)) None, st)
        else
          (Ok (JsonResponse 404 (error_json (py "Unknown action: " ++ action))), st)
    end.

(** [Handler.do_GET] *)
Definition do_GET (rq : get_request) (st : hstate) : result response * hstate :=
  let '(sessions, w) := st in
  let path := get_path rq in
  if str_eqb path (py "/") || str_eqb path (py "/index.html") then
    (send_file w (FRONTEND cfg) (Some (py "text/html")), st)
  else if str_eqb path (py "/api/status") then
    (Ok (JsonResponse 200
           (JDict [ (py "ok", JBool true); (py "version", JStr (py "1.0"));
                    (py "sessions", JNum (Z.of_nat (length sessions)));
                    (py "analyzer", JStr (ANALYZER cfg)) ])), st)
  else if str_eqb path (py "/api/sessions") then
    (Ok (JsonResponse 200
           (JDict [(py "sessions",
              JList (map (fun s => JDict (session_summary s))
                         (dict_values sessions)))])), st)
  else if str_eqb path (py "/api/check") then
    let '((rc, out, err), w) := run_analyzer cfg w [JStr (py "--check")] 15 in
    (Ok (JsonResponse 200
           (JDict [ (py "ok", JBool (rc =? 0)%Z);
                    (py "output", JStr (strip_ansi (out ++ err))) ])),
     (sessions, w))
  else if str_eqb path (py "/api/signatures") then
    match load_signatures cfg w with
    | Raise e => (Raise e, st)
    | Ok sigs =>
        (Ok (JsonResponse 200
               (JDict [(py "signatures", JList (map entry_json sigs))])), st)
    end
  else if startswith path (py "/api/session/") then get_session rq st
  else (Ok (JsonResponse 404 (error_json (py "Not found"))), st).

(** [sid not in sessions], then [sessions[sid]]: a list or a dictionary
    cannot be hashed; any other value that is no text is no key. *)
Definition lookup_session (sessions : sessions_t) (id : json)
    : result (option (str * session)) :=
  match id with
  | JStr k => Ok (match dict_get sessions k with
                  | Some s => Some (k, s)
                  | None => None
                  end)
  | JList _ | JDict _ => Raise (TypeError (py "unhashable type"))
  | _ => Ok None
  end.

(** The branch of [do_POST] for [/api/analyze]. *)
Definition post_analyze (rq : post_request) (content_length : Z) (st : hstate)
    : result response * hstate :=
  let '(sessions, w) := st in
  match json_loads (read_body content_length (post_body rq)) with
  | Raise e => (Raise e, st)
  | Ok body =>
  match json_get body (py "session_id") (JStr []) with
  | Raise e => (Raise e, st)
  | Ok id =>
  match json_get body (py "mode") (JStr (py "standard")) with
  | Raise e => (Raise e, st)
  | Ok mode =>
  match json_get body (py "web") (JBool false) with
  | Raise e => (Raise e, st)
  | Ok web =>
  match json_get body (py "mail") (JBool false) with
  | Raise e => (Raise e, st)
  | Ok mail =>
  match json_get body (py "tickets") (JBool false) with
  | Raise e => (Raise e, st)
  | Ok tickets =>
  match lookup_session sessions id with
  | Raise e => (Raise e, st)
  | Ok None => (Ok (JsonResponse 404 (error_json (py "Session not found"))), st)
  | Ok (Some (k, s)) =>
      let args := [ JStr (py "-q"); JStr (py "--no-color"); JStr (py "--mode");
                    mode; JStr (py "-o"); JStr (reports_dir s) ] in
      let args := if truthy web then args ++ [JStr (py "--web")] else args in
      let args := if truthy mail then args ++ [JStr (py "--mail")] else args in
      let args := if truthy tickets then args ++ [JStr (py "--tickets")] else args in
      let args := args ++ [JStr (input_path s)] in
      let s := set_state (py "analyzing") s in
      let s := set_analysis_mode mode s in
      let '((rc, out, err), w) := run_analyzer cfg w args 180 in
      let out := strip_ansi out in
      let err := strip_ansi err in
      let s := set_stdout out s in
      let s := set_stderr err s in
      let s := set_state (if (rc =? 0)%Z then py "done" else py "error") s in
      let s := match re_search device_re out with
               | Some m => set_device_id (m_group m 1) s
               | None => s
               end in
      let reports :=
        map basename (os_glob w (path_join (reports_dir s) (py "*"))) in
      let ok := (0 <? length reports)%nat in
      let s := if ok then set_state (py "done") s else s in
      (Ok (JsonResponse 200
             (JDict [ (py "ok", JBool ok); (py "exit_code", JNum rc);
                      (py "output", JStr out); (py "errors", JStr err);
                      (py "reports", JList (map JStr reports));
                      (py "session_id", id) ])),
       (dict_set sessions k s, w))
  end end end end end end end.

(** [Handler.do_POST]; [int] of the [Content-Length] header comes first. *)
Definition do_POST (rq : post_request) (st : hstate) : result response * hstate :=
  let path := post_path rq in
  let n := match content_length rq with
           | None => Some 0%Z
           | Some v => py_int v
           end in
  match n with
  | None => (Raise (ValueError (default [] (content_length rq))), st)
  | Some n =>
      if str_eqb path (py "/api/upload") then post_upload rq n st
      else if str_eqb path (py "/api/analyze") then post_analyze rq n st
      else if str_eqb path (py "/api/compare") then post_compare rq n st
      else if str_eqb path (py "/api/fleet") then post_fleet rq n st
      else (Ok (JsonResponse 404 (error_json (py "Not found"))), st)
  end.
End handler.

(** ** A small concrete host, to run the functions on examples

    The world is a table: the directories that exist, what each glob
    pattern lists, what [grep] prints for each file, how the analyzer ends
    and which report files it leaves behind. *)

Record sim : Type := Sim {
  sim_dirs : list str;
  sim_glob : dict (list str);
  sim_grep : dict str;
  sim_lines : dict (list str);
  sim_proc : proc_outcome;
  sim_glob_after : dict (list str)
}.

Definition quoted (s : string) : str := chr 34 :: py s ++ [chr 34].

(** The one request body the example host can parse:
    an object with the key [session_id] and the value [0123456789ab]. *)
Definition sim_body : str :=
  py "{" ++ quoted "session_id" ++ py ": " ++ quoted "0123456789ab" ++ py "}".

#[global] Instance sim_host : Host sim := {|
  os_isdir w p := bool_decide (p ∈ sim_dirs w);
  os_isfile w p := match dict_get (sim_lines w) p with Some _ => true | None => false end;
  os_glob w pat := default [] (dict_get (sim_glob w) pat);
  os_getsize w p := Ok 0%Z;
  os_makedirs w p := Sim (p :: sim_dirs w) (sim_glob w) (sim_grep w) (sim_lines w)
                         (sim_proc w) (sim_glob_after w);
  read_lines w p := match dict_get (sim_lines w) p with
                    | Some l => Ok l
                    | None => Raise (OSError p)
                    end;
  read_bytes w p := match dict_get (sim_lines w) p with
                    | Some l => Ok (concat l)
                    | None => Raise (OSError p)
                    end;
  run_bash w cmd t := (sim_proc w,
                       Sim (sim_dirs w) (sim_glob_after w) (sim_grep w) (sim_lines w)
                           (sim_proc w) (sim_glob_after w));
  run_grep w pat f := dict_get (sim_grep w) f;
  uuid4_hex w := (py "0123456789abcdef0123456789abcdef", w);
  guess_type p := None;
  json_loads body :=
    if str_eqb body sim_body
    then Ok (JDict [(py "session_id", JStr (py "0123456789ab"))])
    else Raise (JSONDecodeError body)
|}.

Definition sim_cfg : config :=
  Config (py "./analyzer.sh") (py "index.html") (py "/srv/loggy") (py "/srv/loggy/lib/uploads")
         (py "/srv/loggy/lib/sessions") (py "/srv/loggy/signatures/known_signatures.tsv")
         (py "/srv/loggy/signatures/error_registry.tsv").

(** ** Vocabulary of the statements below *)

(** The number a string of decimal digits denotes. *)
Definition Z_of_digits (ds : str) : Z :=
  foldl (fun acc c => (10 * acc + digit_val c)%Z) 0%Z ds.

Definition is_grade (c : ascii) : bool := in_range 65 70 c.

(** The two layouts of the health line, followed by the rest of the text. *)
Definition layout1 (ds : str) (g : ascii) (post : str) : str :=
  py "Health Score: " ++ ds ++ py "/100 Grade: " ++ g :: post.

Definition layout2 (ds : str) (g : ascii) (post : str) : str :=
  py "Health Score: " ++ ds ++ py "/100 (" ++ g :: ")"%char :: post.

(** No match of [r] starts at one of the first [n] positions of [s]. *)
Definition no_match_before (r : regex) (n : nat) (s : str) : Prop :=
  forall i, (i < n)%nat -> match_here r (drop i s) = None.

(** Sessions for the examples: one per analyzer output. *)
Definition sim_session (out : str) : session :=
  Session (py "0123456789ab") (py "/tmp/bundle.tgz")
          (py "/srv/loggy/lib/sessions/0123456789ab")
          (py "/srv/loggy/lib/sessions/0123456789ab/reports")
          (py "done") [] (JStr (py "standard")) out [].

Definition sim_sessions (out : str) : dict session :=
  [(py "0123456789ab", sim_session out)].

(** A world with nothing in it but an analyzer that ends as [p]. *)
Definition sim_empty (p : proc_outcome) : sim := Sim [] [] [] [] p [].

(** Analyzer outputs for the examples. *)
Definition out_mixed : str :=
  py "Summary" ++ NL :: py "#1 CRITICAL Disk full" ++ NL :: py "[LOW] Clock skew" ++ NL ::
  py "#2 HIGH Memory leak" ++ NL :: py "Health Score: 87/100 Grade: B" ++ [NL].

Definition out_bracketed : str :=
  py "[LOW] Clock skew" ++ NL :: py "Health Score: 87/100 (B)" ++ [NL].

(** The marker a severity argument selects: the [sev_str] of [search_logs]. *)
Definition sev_token (severity : str) : str :=
  if nonempty severity then sev_map_get sev_map (upper severity) [] else [].

(** The keys of [sev_map]. *)
Definition sev_keys : list (list N) := map fst sev_map.

(** A line of [grep] output passes the filters of [search_logs]. *)
Definition passes (severity sev_str component line : str) : bool :=
  nonempty line
  && negb (nonempty severity && nonempty sev_str && negb (contains sev_str line))
  && negb (nonempty component && negb (contains (lower component) (lower line))).

(** The hits of one file, and of a list of files in turn, when nothing
    cuts the search short. *)
Definition line_hits (severity sev_str component fname : str) (lines : list str)
    : list hit :=
  map (fun l => Hit (Some fname) (take 300 l))
      (List.filter (passes severity sev_str component) lines).

Definition file_hits {W : Type} `{!Host W} (w : W)
    (pattern severity sev_str component f : str) : list hit :=
  match run_grep w pattern f with
  | None => []
  | Some out =>
      line_hits severity sev_str component (basename f) (split NL (strip out))
  end.

Definition all_hits {W : Type} `{!Host W} (w : W)
    (pattern severity sev_str component : str) (files : list str) : list hit :=
  flat_map (file_hits w pattern severity sev_str component) files.

(** A world with two parsed logs, listed in the order [b], [a]. *)
Definition sim_parsed : sim :=
  Sim [py "/srv/loggy/lib/sessions/0123456789ab/parsed"]
      [(py "/srv/loggy/lib/sessions/0123456789ab/parsed/*.parsed",
        [py "/srv/loggy/lib/sessions/0123456789ab/parsed/b.parsed";
         py "/srv/loggy/lib/sessions/0123456789ab/parsed/a.parsed"])]
      [(py "/srv/loggy/lib/sessions/0123456789ab/parsed/a.parsed",
        py "3:t1|net|E|link down" ++ NL :: py "7:t2|net|W|link flaps" ++ [NL]);
       (py "/srv/loggy/lib/sessions/0123456789ab/parsed/b.parsed",
        py "1:t0|disk|E|link to disk lost" ++ [NL])]
      [] TimeoutExpired [].

(** A named column cannot be read from a row: the header does not have
    it, or the row ends before it. *)
Definition missing (col_map : gmap str nat) (parts : list str) (name : str) : Prop :=
  col_map !! name = None
  \/ exists idx, col_map !! name = Some idx /\ (length parts <= idx)%nat.

(** The lines read so far hold a header: a line that is neither empty nor
    a comment. *)
Definition header_seen (lines : list str) : Prop :=
  exists l, l ∈ lines /\ is_skipped (strip l) = false.

(** The lines of a registry file: comment, header, a full row, a row of
    three columns, a full row without the severity column filled. *)
Definition sim_registry : list str :=
  [ py "# error registry" ++ [NL];
    py "name" ++ TAB :: py "module" ++ TAB :: py "description" ++ TAB ::
      py "errorType" ++ TAB :: py "severity" ++ [NL];
    py "E42" ++ TAB :: py "net" ++ TAB :: py "Link down" ++ TAB ::
      py "fault" ++ TAB :: py "HIGH" ++ [NL];
    py "E43" ++ TAB :: py "net" ++ TAB :: py "too short" ++ [NL];
    py "E44" ++ TAB :: py "disk" ++ TAB :: py "Disk full" ++ TAB :: py "fault" ++ [NL] ].

(** The world of an analysis that fails with exit code 2 and still leaves
    one report behind. *)
Definition sim_failed_run : sim :=
  Sim [] [] [] []
      (Completed 2 (py "Device ID: EVSE-7" ++ [NL]) (ESC :: py "[31mparse error" ++ ESC :: py "[0m"))
      [(py "/srv/loggy/lib/sessions/0123456789ab/reports/*",
        [py "/srv/loggy/lib/sessions/0123456789ab/reports/analysis.md"])].

(** The routes that are not embedded, for the examples. *)
Definition sim_route (rq : post_request) (n : Z) (st : dict session * sim)
    : result response * (dict session * sim) :=
  (Ok (JsonResponse 400 (error_json [])), st).

(** Requests for the examples. *)
Definition sim_search_request : get_request :=
  GetRequest (py "/api/session/0123456789ab/search")
             (<[py "max" := py "abc"]> (<[py "q" := py "link"]> ∅)).

Definition sim_analyze_request : post_request :=
  PostRequest (py "/api/analyze") (Some (py "30")) (Some (py "application/json")) sim_body.

(** The four severity keywords of a finding. *)
Definition severity_levels : list str :=
  [py "CRITICAL"; py "HIGH"; py "MEDIUM"; py "LOW"].

(** The text neither starts nor ends with white space. *)
Definition trimmed (s : str) : Prop :=
  (forall c s', s = c :: s' -> isspace c = false)
  /\ (forall c s', s = s' ++ [c] -> isspace c = false).

(** A world whose reports directory lists two files, the later name first. *)
Definition sim_reports : sim :=
  Sim [] [(py "/srv/loggy/lib/sessions/0123456789ab/reports/*",
           [py "/srv/loggy/lib/sessions/0123456789ab/reports/summary.md";
            py "/srv/loggy/lib/sessions/0123456789ab/reports/analysis.md"])]
      [] [] TimeoutExpired [].

(** An output with a device line and a score above 100. *)
Definition out_device : str :=
  py "Device ID: EVSE-7 rev2" ++ NL :: py "#7 LOW   spaced  title  " ++ NL ::
  py "Health Score: 250/100 Grade: A" ++ [NL].

(** A session is filed under its own identifier, with its working
    directory under [SESSION_DIR] and its reports directory inside that. *)
Definition session_ok (cfg : config) (k : str) (s : session) : Prop :=
  sid s = k
  /\ work_dir s = path_join (SESSION_DIR cfg) k
  /\ reports_dir s = path_join (work_dir s) (py "reports").

Definition store_ok (cfg : config) (sessions : dict session) : Prop :=
  forall k s, dict_get sessions k = Some s -> session_ok cfg k s.

(** Two sessions differ at most in what an analysis writes. *)
Definition same_files (s s' : session) : Prop :=
  sid s' = sid s /\ input_path s' = input_path s
  /\ work_dir s' = work_dir s /\ reports_dir s' = reports_dir s.

(** The counters of a component are consistent with its number of lines. *)
Definition stats_ok (st : comp_stats) : Prop :=
  (0 <= errors st <= total st)%Z /\ (0 <= warnings st <= total st)%Z.

(** The keys every catalog entry carries. *)
Definition common_keys : list str :=
  [py "pattern"; py "component"; py "severity"; py "title"; py "root_cause";
   py "fix"; py "kb_url"; py "source"].

Definition has_common_keys (e : entry) : Prop :=
  forall k, k ∈ common_keys -> is_Some (dict_get e k).

(** A world with two parsed logs of the same component name, one of them
    unreadable. *)
Definition sim_components : sim :=
  Sim [py "/srv/loggy/lib/sessions/0123456789ab/parsed"]
      [(py "/srv/loggy/lib/sessions/0123456789ab/parsed/*.parsed",
        [py "/srv/loggy/lib/sessions/0123456789ab/parsed/net.parsed";
         py "/srv/loggy/lib/sessions/0123456789ab/parsed/disk.parsed"])]
      []
      [(py "/srv/loggy/lib/sessions/0123456789ab/parsed/net.parsed",
        [py "t1|net|E|link down |W| too" ++ [NL]; py "t2|net|W|link flaps" ++ [NL];
         py "t3|net|I|link up" ++ [NL]])]
      TimeoutExpired [].

(** The lines of a signatures file: a comment, a full row, a short row. *)
Definition sim_signatures : list str :=
  [ py "# pattern component severity title cause fix" ++ [NL];
    py "link down" ++ TAB :: py "net" ++ TAB :: py "HIGH" ++ TAB :: py "Link lost" ++ TAB ::
      py "cable" ++ TAB :: py "replug" ++ [NL];
    py "only" ++ TAB :: py "three" ++ TAB :: py "columns" ++ [NL] ].

Definition sim_catalog : sim :=
  Sim [] [] []
      [(py "/srv/loggy/signatures/known_signatures.tsv", sim_signatures);
       (py "/srv/loggy/signatures/error_registry.tsv", sim_registry)]
      TimeoutExpired [].

(** ** The remaining POST routes: multipart upload, compare, fleet *)

(** What [part.get("Content-Disposition", "")] gives for a header that is
    there: its text, or a [Header] object when the header line holds bytes
    outside ASCII. *)
Inductive header_value : Type :=
  | HText (s : str)
  | HObject.

(** What these routes need from Python and the system besides [Host]. *)
Class Runtime (W : Type) : Type := {
  (** [os.path.exists] and [os.path.abspath] of a text *)
  os_exists : W -> str -> bool;
  os_abspath : W -> str -> str;
  (** [os.path.isdir] and [os.path.exists] of an integer, which these
      functions take for an open file descriptor *)
  fd_isdir : W -> Z -> bool;
  fd_exists : W -> Z -> bool;
  (** ["{}".format(v)] for a value that is no text *)
  format_value : json -> str;
  (** [open(path, "wb")] and [f.write(data)] *)
  write_bytes : W -> str -> str -> result W;
  (** [email.message_from_bytes(data).walk()]: for each part its
      [Content-Disposition] header, if it has one, and
      [get_payload(decode=True)] *)
  message_parts : str -> list (option header_value * option str)
}.

(** [s.encode()] (UTF-8) of a text of the embedded range. *)
Definition utf8_encode (s : str) : str :=
  flat_map (fun c => if code c <? 128 then [c]
                     else [chr (192 + code c / 64); chr (128 + code c mod 64)]) s.

(** [s.strip(c)] for the one character [c]. *)
Fixpoint lstrip_char (c : ascii) (s : str) : str :=
  match s with
  | d :: s' => if ascii_eqb d c then lstrip_char c s' else s
  | [] => []
  end.

Definition strip_char (c : ascii) (s : str) : str :=
  rev (lstrip_char c (rev (lstrip_char c s))).

Definition DQ : ascii := chr 34.

(** [[^\s;]]: neither white space nor a semicolon. *)
Definition boundary_class : atom :=
  NotClass [(9, 13); (28, 32); (133, 133); (160, 160); (59, 59)].

(** [boundary=([^\s;]+)] *)
Definition boundary_re : regex :=
  Seq [ Str (py "boundary="); Group 1 (Plus (Atom boundary_class)) ].

(** [name=Q([^Q]+)Q], with Q the double quote *)
Definition name_re : regex :=
  Seq [ Str (py "name=" ++ [DQ]); Group 1 (Plus (Atom (NotClass [(34, 34)])));
        Atom (Lit DQ) ].

(** [filename=Q(...)Q], with Q the double quote and the group a possibly
    empty run of characters other than Q *)
Definition filename_re : regex :=
  Seq [ Str (py "filename=" ++ [DQ]); Group 1 (Star (Atom (NotClass [(34, 34)])));
        Atom (Lit DQ) ].

(** A decoded form field. *)
Record field : Type := Field { filename : option str; data : str }.

(** One iteration of the loop over [msg.walk()]: a part without the header
    has the empty text for [cd]; a [Header] object is true in [if not cd]
    and no argument for [re.search], which raises [TypeError]. *)
Definition multipart_step (res : dict field) (part : option header_value * option str)
    : result (dict field) :=
  match part.1 with
  | None => Ok res
  | Some HObject => Raise (TypeError (py "expected string or bytes-like object"))
  | Some (HText cd) =>
      if negb (nonempty cd) then Ok res
      else
        match re_search name_re cd with
        | None => Ok res
        | Some nm =>
            let name := m_group nm 1 in
            let fn := re_search filename_re cd in
            let filename := match fn with
                            | Some fn => Some (m_group fn 1)
                            | None => None
                            end in
            let data := part.2 in
            let data := match data with Some d => d | None => [] end in
            Ok (dict_set res name (Field filename data))
        end
  end.

(** The loop over [msg.walk()]; an exception ends it. *)
Fixpoint walk_parts (res : dict field) (parts : list (option header_value * option str))
    : result (dict field) :=
  match parts with
  | [] => Ok res
  | part :: parts' =>
      match multipart_step res part with
      | Raise e => Raise e
      | Ok res' => walk_parts res' parts'
      end
  end.

Section multipart.
Context {W : Type} `{!Runtime W}.

(** The message handed to the [email] parser. *)
Definition fake_msg (boundary raw : str) : str :=
  utf8_encode (py "Content-Type: multipart/form-data; boundary=" ++ [DQ] ++ boundary
               ++ [DQ] ++ [CR; NL; CR; NL]) ++ raw.

(** [parse_multipart(rfile, content_type, content_length)] *)
Definition parse_multipart (body : str) (content_type : str) (content_length : Z)
    : result (dict field) :=
  match re_search boundary_re content_type with
  | None => Ok []
  | Some m =>
      let boundary := strip_char DQ (m_group m 1) in
      let raw := read_body content_length body in
      let msg := message_parts (W:=W) (fake_msg boundary raw) in
      walk_parts [] msg
  end.
End multipart.

Section post_routes.
Context {W : Type} `{!Host W} `{!Runtime W} (cfg : config).

(** [sessions[v]["input_path"] if v in sessions else v] *)
Definition resolve_input (sessions : dict session) (v : json) : result json :=
  match v with
  | JStr k => Ok (match dict_get sessions k with
                  | Some s => JStr (input_path s)
                  | None => v
                  end)
  | JList _ | JDict _ => Raise (TypeError (py "unhashable type"))
  | _ => Ok v
  end.

(** ["{}".format(v)] *)
Definition format_json (v : json) : str :=
  match v with
  | JStr s => s
  | _ => format_value (W:=W) v
  end.

(** The branch of [do_POST] for [/api/compare]. *)
Definition post_compare (rq : post_request) (content_length : Z)
    (st : dict session * W) : result response * (dict session * W) :=
  let '(sessions, w) := st in
  match json_loads (read_body content_length (post_body rq)) with
  | Raise e => (Raise e, st)
  | Ok body =>
  match json_get body (py "baseline") (JStr []) with
  | Raise e => (Raise e, st)
  | Ok base =>
  match json_get body (py "target") (JStr []) with
  | Raise e => (Raise e, st)
  | Ok target =>
      if negb (truthy base) || negb (truthy target)
      then (Ok (JsonResponse 400 (error_json (py "Need baseline and target"))), st)
      else
        match resolve_input sessions base with
        | Raise e => (Raise e, st)
        | Ok base_path =>
        match resolve_input sessions target with
        | Raise e => (Raise e, st)
        | Ok target_path =>
            let '(hex, w) := uuid4_hex w in
            let outdir := path_join (SESSION_DIR cfg) (py "compare_" ++ take 8 hex) in
            let w := os_makedirs w outdir in
            let args := [ JStr (py "-q"); JStr (py "--no-color"); JStr (py "-o");
                          JStr outdir; JStr (py "--compare"); base_path; target_path ] in
            let '((rc, out, err), w) := run_analyzer cfg w args 180 in
            let reports := map basename (os_glob w (path_join outdir (py "*"))) in
            (Ok (JsonResponse 200
                   (JDict [ (py "ok", JBool (rc =? 0)%Z);
                            (py "output", JStr (strip_ansi out));
                            (py "errors", JStr (strip_ansi err));
                            (py "reports", JList (map JStr reports));
                            (py "reports_dir", JStr outdir) ])),
             (sessions, w))
        end end
  end end end.

(** [os.path.isdir(v)] for a request value. *)
Definition isdir_value (w : W) (v : json) : result bool :=
  match v with
  | JStr d => Ok (os_isdir w d)
  | JNum n => Ok (fd_isdir w n)
  | JBool b => Ok (fd_isdir w (if b then 1 else 0)%Z)
  | _ => Raise (TypeError (py "stat"))
  end.

(** The branch of [do_POST] for [/api/fleet]. *)
Definition post_fleet (rq : post_request) (content_length : Z)
    (st : dict session * W) : result response * (dict session * W) :=
  let '(sessions, w) := st in
  match json_loads (read_body content_length (post_body rq)) with
  | Raise e => (Raise e, st)
  | Ok body =>
  match json_get body (py "directory") (JStr []) with
  | Raise e => (Raise e, st)
  | Ok directory =>
      let not_found :=
        (Ok (JsonResponse 400
               (error_json (py "Directory not found: " ++ format_json directory))), st) in
      if negb (truthy directory) then not_found
      else
        match isdir_value w directory with
        | Raise e => (Raise e, st)
        | Ok false => not_found
        | Ok true =>
            let '(hex, w) := uuid4_hex w in
            let outdir := path_join (SESSION_DIR cfg) (py "fleet_" ++ take 8 hex) in
            let w := os_makedirs w outdir in
            let args := [ JStr (py "-q"); JStr (py "--no-color"); JStr (py "-o");
                          JStr outdir; JStr (py "--fleet"); directory ] in
            let '((rc, out, err), w) := run_analyzer cfg w args 300 in
            let reports := map basename (os_glob w (path_join outdir (py "*"))) in
            (Ok (JsonResponse 200
                   (JDict [ (py "ok", JBool (rc =? 0)%Z);
                            (py "output", JStr (strip_ansi out));
                            (py "errors", JStr (strip_ansi err));
                            (py "reports", JList (map JStr reports));
                            (py "reports_dir", JStr outdir) ])),
             (sessions, w))
        end
  end end.

(** [os.path.exists(v)] for a request value. *)
Definition exists_value (w : W) (v : json) : result bool :=
  match v with
  | JStr p => Ok (os_exists w p)
  | JNum n => Ok (fd_exists w n)
  | JBool b => Ok (fd_exists w (if b then 1 else 0)%Z)
  | _ => Raise (TypeError (py "stat"))
  end.

(** The branch of [do_POST] for [/api/upload]. *)
Definition post_upload (rq : post_request) (content_length : Z)
    (st : dict session * W) : result response * (dict session * W) :=
  let '(sessions, w) := st in
  let ct := default [] (content_type_hdr rq) in
  if contains (py "multipart") ct then
    match parse_multipart (W:=W) (post_body rq) ct content_length with
    | Raise e => (Raise e, st)
    | Ok fields =>
    let fileinfo := dict_get fields (py "file") in
    match fileinfo with
    | Some (Field (Some fname) data) =>
        if nonempty fname then
          let safe_name := basename fname in
          let '(hex, w) := uuid4_hex w in
          let dest := path_join (UPLOAD_DIR cfg) (take 8 hex ++ py "_" ++ safe_name) in
          match write_bytes w dest data with
          | Raise e => (Raise e, (sessions, w))
          | Ok w =>
              let '(id, sessions, w) := new_session cfg w sessions dest in
              (Ok (JsonResponse 200
                     (JDict [ (py "ok", JBool true); (py "session_id", JStr id);
                              (py "file", JStr safe_name) ])),
               (sessions, w))
          end
        else (Ok (JsonResponse 400 (error_json (py "No file"))), st)
    | _ => (Ok (JsonResponse 400 (error_json (py "No file"))), st)
    end
    end
  else
    match json_loads (read_body content_length (post_body rq)) with
    | Raise e => (Raise e, st)
    | Ok body =>
    match json_get body (py "path") (JStr []) with
    | Raise e => (Raise e, st)
    | Ok p =>
        let not_found :=
          (Ok (JsonResponse 400 (error_json (py "Path not found: " ++ format_json p))), st) in
        if negb (truthy p) then not_found
        else
          match exists_value w p with
          | Raise e => (Raise e, st)
          | Ok false => not_found
          | Ok true =>
              match p with
              | JStr p =>
                  let '(id, sessions, w) := new_session cfg w sessions (os_abspath w p) in
                  (Ok (JsonResponse 200
                         (JDict [ (py "ok", JBool true); (py "session_id", JStr id);
                                  (py "file", JStr (basename p)) ])),
                   (sessions, w))
              | _ => (Raise (TypeError (py "abspath")), st)
              end
          end
    end end.

(** [Handler.do_POST] with all its routes. *)
Definition do_POST_all (rq : post_request) (st : dict session * W)
    : result response * (dict session * W) :=
  do_POST cfg post_upload post_compare post_fleet rq st.
End post_routes.

(** The example host for the remaining routes: every message holds the
    container part and one file part named [file] with the file name
    [logs/bundle.tgz]; writing a file always succeeds. *)
#[global] Instance sim_runtime : Runtime sim := {|
  os_exists w p := bool_decide (p ∈ sim_dirs w);
  os_abspath w p := p;
  fd_isdir w n := false;
  fd_exists w n := false;
  format_value v := py "<value>";
  write_bytes w p d := Ok w;
  message_parts msg :=
    [ (None, None);
      (Some (HText (py "form-data; name=" ++ quoted "file" ++ py "; filename="
                    ++ quoted "logs/bundle.tgz")),
       Some (py "BUNDLE")) ]
|}.

Definition sim_upload_request : post_request :=
  PostRequest (py "/api/upload") (Some (py "6"))
              (Some (py "multipart/form-data; boundary=----x")) (py "BUNDLE").

(** A compare request naming the known session and a raw path. *)
Definition sim_compare_body : json :=
  JDict [(py "baseline", JStr (py "0123456789ab")); (py "target", JStr (py "/tmp/other.tgz"))].

(** The example host, but parsing the one body [text] as [body]. *)
Definition sim_with_body (text : str) (body : json) : Host sim := {|
  os_isdir := os_isdir (Host:=sim_host);
  os_isfile := os_isfile (Host:=sim_host);
  os_glob := os_glob (Host:=sim_host);
  os_getsize := os_getsize (Host:=sim_host);
  os_makedirs := os_makedirs (Host:=sim_host);
  read_lines := read_lines (Host:=sim_host);
  read_bytes := read_bytes (Host:=sim_host);
  run_bash := run_bash (Host:=sim_host);
  run_grep := run_grep (Host:=sim_host);
  uuid4_hex := uuid4_hex (Host:=sim_host);
  guess_type := guess_type (Host:=sim_host);
  json_loads b := if str_eqb b text then Ok body else Raise (JSONDecodeError b)
|}.

Definition sim_compare_text : str :=
  py "{" ++ quoted "baseline" ++ py ": " ++ quoted "0123456789ab" ++ py ", "
  ++ quoted "target" ++ py ": " ++ quoted "/tmp/other.tgz" ++ py "}".

Definition sim_compare_request : post_request :=
  PostRequest (py "/api/compare") (Some (py "56")) (Some (py "application/json"))
              sim_compare_text.

Definition sim_fleet_text : str :=
  py "{" ++ quoted "directory" ++ py ": " ++ quoted "/data/fleet" ++ py "}".

Definition sim_fleet_body : json := JDict [(py "directory", JStr (py "/data/fleet"))].

Definition sim_fleet_request : post_request :=
  PostRequest (py "/api/fleet") (Some (py "28")) (Some (py "application/json"))
              sim_fleet_text.

(** A world with the fleet directory and an analyzer that ends with code 1. *)
Definition sim_fleet : sim :=
  Sim [py "/data/fleet"] [] [] [] (Completed 1 (py "fleet done") []) [].

(** A world with one report file. *)
Definition sim_report_file : sim :=
  Sim [] [] []
      [(py "/srv/loggy/lib/sessions/0123456789ab/reports/analysis.md",
        [py "# Analysis" ++ [NL]])]
      TimeoutExpired [].

(** An output whose health score has one digit more than [int] accepts. *)
Definition out_long_score : str :=
  layout1 (replicate (S int_max_str_digits) "9"%char) "A"%char [].

(** * Properties *)

(** ** Properties of the matcher used below *)

Section matcher_equations.
Context {R : Type}.
Implicit Types (k : str -> groups -> option R).

(** One unfolding of a greedy repetition of a single-character atom. *)
Lemma rmatch_star_cons a c s g k :
  rmatch (Star (Atom a)) (c :: s) g k
  = or_else (if atom_ok a c then rmatch (Star (Atom a)) s g k else None)
            (k (c :: s) g).
Proof.
  cbn [rmatch length].
  destruct (atom_ok a c); [|reflexivity].
  replace (length s <? S (length s))%nat with true; [reflexivity|].
  symmetry. apply Nat.ltb_lt. lia.
Qed.

Lemma rmatch_star_nil a g k : rmatch (Star (Atom a)) [] g k = k [] g.
Proof. reflexivity. Qed.

(** A greedy repetition over a run of accepted characters: when the
    continuation accepts what follows the run, that is the match. *)
Lemma rmatch_star_run a run rest g k x :
  Forall (fun c => atom_ok a c = true) run ->
  k rest g = Some x ->
  match rest with [] => True | c :: _ => atom_ok a c = false end ->
  rmatch (Star (Atom a)) (run ++ rest) g k = Some x.
Proof.
  intros Hrun Hk Hrest. induction Hrun as [|c run Hc _ IH].
  - cbn [app]. destruct rest as [|c rest].
    + rewrite rmatch_star_nil. exact Hk.
    + rewrite rmatch_star_cons, Hrest. exact Hk.
  - cbn [app]. rewrite rmatch_star_cons, Hc, IH. reflexivity.
Qed.
End matcher_equations.

(** Deleting matches only deletes: the result is a subsequence. *)
Lemma sub_from_sublist r s skip : sublist (sub_from r s skip) s.
Proof.
  revert skip. induction s as [|c s IH]; intros skip; cbn [sub_from].
  - constructor.
  - destruct skip as [|n].
    + destruct (match_here r (c :: s)) as [m|].
      * destruct (m_span (c :: s) m).
        -- by constructor.
        -- by apply sublist_cons.
      * by constructor.
    + by apply sublist_cons.
Qed.

(** Stepping over a matched span. *)
Lemma sub_from_skip r x s : sub_from r (x ++ s) (length x) = sub_from r s 0.
Proof.
  induction x as [|c x IH]; [reflexivity|]. cbn [app length sub_from]. exact IH.
Qed.

Lemma sub_from_hit r c s m n :
  match_here r (c :: s) = Some m -> m_span (c :: s) m = S n ->
  sub_from r (c :: s) 0 = sub_from r s n.
Proof. intros Hm Hn. cbn [sub_from]. by rewrite Hm, Hn. Qed.

Lemma sub_from_miss r c s :
  match_here r (c :: s) = None -> sub_from r (c :: s) 0 = c :: sub_from r s 0.
Proof. intros Hm. cbn [sub_from]. by rewrite Hm. Qed.

(** Deleting the matches of a one-character class is a filter. *)
Lemma sub_class rs s :
  re_sub_empty (Atom (Class rs)) s = List.filter (fun c => negb (in_ranges rs c)) s.
Proof.
  unfold re_sub_empty. induction s as [|c s IH]; [reflexivity|].
  cbn [sub_from List.filter]. unfold match_here. cbn [rmatch atom_ok].
  destruct (in_ranges rs c); cbn [negb].
  - unfold m_span. cbn [m_rest length].
    replace (S (length s) - length s)%nat with 1%nat by lia. exact IH.
  - by rewrite IH.
Qed.

Lemma code_inj c n : code c = n -> c = chr n.
Proof. intros <-. unfold chr, code. by rewrite ascii_N_embedding. Qed.

Lemma strip_ansi_filter s : strip_ansi s = List.filter kept (re_sub_empty ansi_re s).
Proof. unfold strip_ansi. apply sub_class. Qed.

Lemma kept_control c :
  kept c = true -> is_control c = true -> c = NL \/ c = TAB \/ c = CR.
Proof.
  unfold kept, ctrl_removed, is_control, in_ranges, in_range. cbn [existsb fst snd].
  intros Hk Hc.
  assert (code c = 10 \/ code c = 9 \/ code c = 13) as [H|[H|H]].
  { apply negb_true_iff in Hk.
    repeat (apply orb_false_iff in Hk; destruct Hk as [? Hk]).
    repeat match goal with
           | H : _ && _ = false |- _ => apply andb_false_iff in H
           | H : _ || _ = true |- _ => apply orb_true_iff in H
           end.
    rewrite ?N.leb_gt, ?N.ltb_lt, ?N.eqb_eq in *. lia. }
  all: apply code_inj in H; auto.
Qed.

(** No ANSI sequence starts at a character other than ESC. *)
Lemma ansi_no_match c s : c <> ESC -> match_here ansi_re (c :: s) = None.
Proof.
  intros Hc. unfold match_here, ansi_re. cbn [Seq rmatch atom_ok].
  destruct (ascii_eqb ESC c) eqn:E; [|reflexivity].
  exfalso. apply Hc. unfold ascii_eqb in E. apply N.eqb_eq in E.
  symmetry in E. by apply code_inj in E.
Qed.

Lemma ansi_sub_no_esc s :
  ESC ∉ s -> re_sub_empty ansi_re s = s.
Proof.
  unfold re_sub_empty. induction s as [|c s IH]; [reflexivity|].
  intros Hn. apply not_elem_of_cons in Hn as [Hc Hs].
  cbn [sub_from]. rewrite ansi_no_match by congruence. by rewrite IH.
Qed.

(** An escape sequence [ESC [ params letter] is matched as a whole. *)
Lemma ansi_match ps l post :
  Forall (fun c => is_param c = true) ps -> is_letter l = true ->
  match_here ansi_re (ESC :: "["%char :: ps ++ l :: post) = Some (MatchObj post []).
Proof.
  intros Hps Hl. unfold match_here, ansi_re. cbn [Seq].
  cbn [rmatch]. change (atom_ok (Lit ESC) ESC) with true.
  change (atom_ok (Lit "["%char) "["%char) with true. cbv iota.
  apply rmatch_star_run.
  - exact Hps.
  - cbn [rmatch atom_ok]. fold (is_letter l). by rewrite Hl.
  - cbn [atom_ok]. fold (is_param l).
    revert Hl. unfold is_letter, is_param, in_ranges, in_range. cbn [existsb fst snd].
    intros Hl. apply not_true_is_false. intros Hp.
    repeat match goal with
           | H : _ || _ = true |- _ => apply orb_true_iff in H; destruct H
           | H : _ && _ = true |- _ => apply andb_true_iff in H; destruct H
           end; rewrite ?N.leb_le in *; try discriminate; lia.
Qed.

Lemma ansi_sub_sequence pre ps l post :
  ESC ∉ pre ->
  Forall (fun c => is_param c = true) ps -> is_letter l = true ->
  re_sub_empty ansi_re (pre ++ ESC :: "["%char :: ps ++ l :: post)
  = pre ++ re_sub_empty ansi_re post.
Proof.
  intros Hpre Hps Hl. unfold re_sub_empty.
  induction pre as [|c pre IH].
  - cbn [app].
    rewrite (sub_from_hit _ _ _ _ (length ("["%char :: ps ++ [l]))
               (ansi_match ps l post Hps Hl)).
    + replace ("["%char :: ps ++ l :: post) with (("["%char :: ps ++ [l]) ++ post).
      * apply sub_from_skip.
      * cbn [app]. by rewrite <- app_assoc.
    + unfold m_span. cbn [m_rest length]. rewrite !length_app. cbn [length]. lia.
  - apply not_elem_of_cons in Hpre as [Hc Hpre].
    cbn [app]. rewrite sub_from_miss by (apply ansi_no_match; congruence).
    by rewrite IH.
Qed.

Example strip_ansi_colour :
  strip_ansi (ESC :: py "[1;31mred" ++ ESC :: py "[0m" ++ [chr 7; TAB; NL])
  = py "red" ++ [TAB; NL].
Proof. vm_compute. reflexivity. Qed.

(** ** Matches of the matcher: what a successful match looks like *)

Lemma ascii_eqb_refl c : ascii_eqb c c = true.
Proof. apply N.eqb_refl. Qed.

Lemma ascii_eqb_eq a b : ascii_eqb a b = true -> a = b.
Proof.
  unfold ascii_eqb, code. intros H%N.eqb_eq.
  rewrite <- (ascii_N_embedding a), <- (ascii_N_embedding b). by rewrite H.
Qed.

Lemma take_consumed {A} (x y : list A) :
  take (length (x ++ y) - length y) (x ++ y) = x.
Proof.
  rewrite length_app. replace (length x + length y - length y)%nat with (length x) by lia.
  by rewrite take_app_length.
Qed.

Section matcher_inversion.
Context {R : Type}.
Implicit Types (k : str -> groups -> option R).

Lemma rmatch_cat r1 r2 s g k :
  rmatch (Cat r1 r2) s g k = rmatch r1 s g (fun s' g' => rmatch r2 s' g' k).
Proof. reflexivity. Qed.

Lemma rmatch_group n r s g k :
  rmatch (Group n r) s g k
  = rmatch r s g (fun s' g' => k s' ((n, take (length s - length s')%nat s) :: g')).
Proof. reflexivity. Qed.

Lemma rmatch_atom_ok a c s g k :
  atom_ok a c = true -> rmatch (Atom a) (c :: s) g k = k s g.
Proof. intros H. cbn [rmatch]. by rewrite H. Qed.

Lemma rmatch_atom_inv a s g k x :
  rmatch (Atom a) s g k = Some x ->
  exists c rest, s = c :: rest /\ atom_ok a c = true /\ k rest g = Some x.
Proof.
  destruct s as [|c s]; cbn [rmatch]; [discriminate|].
  destruct (atom_ok a c) eqn:E; [|discriminate]. eauto.
Qed.

Lemma rmatch_lit_inv c s g k x :
  rmatch (Atom (Lit c)) s g k = Some x ->
  exists rest, s = c :: rest /\ k rest g = Some x.
Proof.
  intros (d & rest & -> & Hd & Hk)%rmatch_atom_inv.
  apply ascii_eqb_eq in Hd as <-. eauto.
Qed.

Lemma rmatch_str lit s g k : rmatch (Str lit) (lit ++ s) g k = k s g.
Proof.
  induction lit as [|c lit IH]; [reflexivity|].
  destruct lit as [|d lit].
  - cbn [Str app]. apply rmatch_atom_ok, ascii_eqb_refl.
  - change (Str (c :: d :: lit)) with (Cat (Atom (Lit c)) (Str (d :: lit))).
    rewrite rmatch_cat. cbn [app].
    rewrite rmatch_atom_ok by apply ascii_eqb_refl. exact IH.
Qed.

Lemma rmatch_str_inv lit s g k x :
  rmatch (Str lit) s g k = Some x ->
  exists rest, s = lit ++ rest /\ k rest g = Some x.
Proof.
  revert s. induction lit as [|c lit IH]; intros s H.
  - exists s. by split.
  - destruct lit as [|d lit].
    + cbn [Str] in H. apply rmatch_lit_inv in H as (rest & -> & H). eauto.
    + change (Str (c :: d :: lit)) with (Cat (Atom (Lit c)) (Str (d :: lit))) in H.
      rewrite rmatch_cat in H. apply rmatch_lit_inv in H as (rest & -> & H).
      apply IH in H as (rest' & -> & H). eauto.
Qed.

Lemma rmatch_star_inv a s g k x :
  rmatch (Star (Atom a)) s g k = Some x ->
  exists run rest, s = run ++ rest /\ Forall (fun c => atom_ok a c = true) run
                   /\ k rest g = Some x.
Proof.
  induction s as [|c s IH].
  - rewrite rmatch_star_nil. intros H. exists [], []. by repeat split.
  - rewrite rmatch_star_cons.
    destruct (atom_ok a c) eqn:E; cbn [or_else].
    + destruct (rmatch (Star (Atom a)) s g k) as [y|] eqn:Es; cbn [or_else].
      * intros [= <-]. destruct (IH eq_refl) as (run & rest & -> & Hrun & Hk).
        exists (c :: run), rest. repeat split; [by constructor|done].
      * intros H. exists [], (c :: s). by repeat split.
    + intros H. exists [], (c :: s). by repeat split.
Qed.

Lemma rmatch_plus_inv a s g k x :
  rmatch (Plus (Atom a)) s g k = Some x ->
  exists c run rest, s = c :: run ++ rest /\ atom_ok a c = true
                     /\ Forall (fun c => atom_ok a c = true) run
                     /\ k rest g = Some x.
Proof.
  unfold Plus. rewrite rmatch_cat.
  intros (c & s' & -> & Hc & H)%rmatch_atom_inv.
  apply rmatch_star_inv in H as (run & rest & -> & Hrun & H).
  by exists c, run, rest.
Qed.

Lemma rmatch_plus_run a c run rest g k x :
  atom_ok a c = true ->
  Forall (fun c => atom_ok a c = true) run ->
  k rest g = Some x ->
  match rest with [] => True | d :: _ => atom_ok a d = false end ->
  rmatch (Plus (Atom a)) (c :: run ++ rest) g k = Some x.
Proof.
  intros Hc Hrun Hk Hrest. unfold Plus. rewrite rmatch_cat.
  rewrite rmatch_atom_ok by done. by apply rmatch_star_run.
Qed.
End matcher_inversion.

(** A match of the escape-sequence pattern spans an escape sequence. *)
Lemma ansi_match_inv s m :
  match_here ansi_re s = Some m -> starts_with_csi s.
Proof.
  unfold match_here, ansi_re. cbn [Seq]. intros H.
  rewrite rmatch_cat in H. apply rmatch_lit_inv in H as (s1 & -> & H).
  rewrite rmatch_cat in H. apply rmatch_lit_inv in H as (s2 & -> & H).
  rewrite rmatch_cat in H. apply rmatch_star_inv in H as (ps & s3 & -> & Hps & H).
  apply rmatch_atom_inv in H as (l & rest & -> & Hl & _).
  by exists ps, l, rest.
Qed.

Lemma ansi_sub_lone_esc pre c post :
  ESC ∉ pre -> ~ starts_with_csi (c :: post) ->
  re_sub_empty ansi_re (pre ++ c :: post) = pre ++ c :: re_sub_empty ansi_re post.
Proof.
  intros Hpre Hno. unfold re_sub_empty. induction pre as [|d pre IH].
  - cbn [app]. apply sub_from_miss.
    destruct (match_here ansi_re (c :: post)) as [m|] eqn:E; [|done].
    by apply ansi_match_inv in E.
  - apply not_elem_of_cons in Hpre as [Hd Hpre].
    cbn [app]. rewrite sub_from_miss by (apply ansi_no_match; congruence).
    by rewrite IH.
Qed.

(** ** Text normalisation *)

Lemma kept_filter_control s c :
  c ∈ List.filter kept s -> is_control c = true -> c = NL \/ c = TAB \/ c = CR.
Proof.
  rewrite list_elem_of_In, filter_In. intros [_ Hk]. by apply kept_control.
Qed.

Lemma filter_sublist {A} (p : A -> bool) (l : list A) : sublist (List.filter p l) l.
Proof.
  induction l as [|x l IH]; cbn [List.filter]; [constructor|].
  destruct (p x); by constructor.
Qed.

(** C3, as the code has it.  For every input text, [strip_ansi] deletes the
    escape sequences [ESC [ parameters letter] and every ASCII control
    character except newline, tab and carriage return, and keeps every
    other character, in order:
    - a control character left in the output is a newline, a tab or a
      carriage return, and no ESC is left;
    - the output is a subsequence of the input;
    - a text without ESC only loses the deleted control characters;
    - a text up to its first escape sequence loses that sequence as a
      whole, the control characters before it, and nothing else;
    - an ESC that starts no escape sequence is deleted on its own, as the
      control character it is. *)
Theorem strip_ansi_spec (s : str) :
  (forall c, (c ∈ strip_ansi s) -> is_control c = true -> c = NL \/ c = TAB \/ c = CR)
  /\ (ESC ∉ strip_ansi s)
  /\ sublist (strip_ansi s) s
  /\ (ESC ∉ s -> strip_ansi s = List.filter kept s)
  /\ (forall pre ps l post,
        s = pre ++ ESC :: "["%char :: ps ++ l :: post ->
        ESC ∉ pre -> Forall (fun c => is_param c = true) ps -> is_letter l = true ->
        strip_ansi s = List.filter kept pre ++ strip_ansi post)
  /\ (forall pre post,
        s = pre ++ ESC :: post -> ESC ∉ pre -> ~ starts_with_csi (ESC :: post) ->
        strip_ansi s = List.filter kept pre ++ strip_ansi post).
Proof.
  repeat split.
  - intros c. rewrite strip_ansi_filter. apply kept_filter_control.
  - rewrite strip_ansi_filter, list_elem_of_In, filter_In. by intros [_ Hk].
  - rewrite strip_ansi_filter. etrans; [apply filter_sublist|apply sub_from_sublist].
  - intros Hs. by rewrite strip_ansi_filter, ansi_sub_no_esc.
  - intros pre ps l post -> Hpre Hps Hl.
    rewrite !strip_ansi_filter, ansi_sub_sequence by assumption.
    apply List.filter_app.
  - intros pre post -> Hpre Hno.
    rewrite !strip_ansi_filter, ansi_sub_lone_esc by assumption.
    by rewrite List.filter_app.
Qed.

(** The hypotheses of [strip_ansi_spec] hold of a coloured line. *)
Lemma strip_ansi_spec_witness :
  strip_ansi (py "ok " ++ ESC :: "["%char :: py "1;31" ++ "m"%char :: py "red")
  = List.filter kept (py "ok ") ++ strip_ansi (py "red")
  /\ strip_ansi (py "plain" ++ [chr 7; CR; NL]) = List.filter kept (py "plain" ++ [chr 7; CR; NL])
  /\ strip_ansi (py "a" ++ ESC :: py "x") = List.filter kept (py "a") ++ strip_ansi (py "x").
Proof.
  split; [|split].
  - apply (proj1 (proj2 (proj2 (proj2 (proj2 (strip_ansi_spec _)))))
             (py "ok ") (py "1;31") "m"%char (py "red")).
    + reflexivity.
    + vm_compute. intros H. apply list_elem_of_In in H. simpl in H. intuition discriminate.
    + repeat constructor.
    + reflexivity.
  - apply (proj1 (proj2 (proj2 (proj2 (strip_ansi_spec _))))).
    vm_compute. intros H. apply list_elem_of_In in H. simpl in H. intuition discriminate.
  - apply (proj2 (proj2 (proj2 (proj2 (proj2 (strip_ansi_spec _))))) (py "a") (py "x")).
    + reflexivity.
    + vm_compute. intros H. apply list_elem_of_In in H. simpl in H. intuition discriminate.
    + intros (ps & l & rest & E & _). discriminate E.
Defined.

(** C3 as stated fails: a carriage return is a control character other
    than newline and tab, and [strip_ansi] keeps it. *)
Lemma strip_ansi_keeps_cr :
  strip_ansi [CR] = [CR] /\ is_control CR = true /\ CR <> NL /\ CR <> TAB.
Proof. repeat split; (reflexivity || discriminate). Qed.

Example strip_ansi_nested :
  strip_ansi (ESC :: "["%char :: ESC :: py "[0m0m") = py "[0m".
Proof. vm_compute. reflexivity. Qed.

(** [re.search] finds a match where one starts, and skips a prefix in
    which none starts. *)
Lemma re_search_here r s m : match_here r s = Some m -> re_search r s = Some m.
Proof. intros H. destruct s; cbn [re_search]; by rewrite H. Qed.

Lemma re_search_skip r pre s :
  (forall i, (i < length pre)%nat -> match_here r (drop i (pre ++ s)) = None) ->
  re_search r (pre ++ s) = re_search r s.
Proof.
  induction pre as [|c pre IH]; intros H; [reflexivity|].
  cbn [app re_search]. pose proof (H 0%nat ltac:(cbn; lia)) as H0.
  cbn [drop app] in H0. rewrite H0.
  apply IH. intros i Hi. apply (H (S i)). cbn. lia.
Qed.

Lemma re_search_inv r s m :
  re_search r s = Some m -> exists i, match_here r (drop i s) = Some m.
Proof.
  induction s as [|c s IH]; cbn [re_search].
  - destruct (match_here r []) eqn:E; [|discriminate]. intros [= <-]. by exists 0%nat.
  - destruct (match_here r (c :: s)) eqn:E.
    + intros [= <-]. by exists 0%nat.
    + intros [i Hi]%IH. by exists (S i).
Qed.

Lemma re_search_none r s :
  re_search r s = None -> forall i, match_here r (drop i s) = None.
Proof.
  induction s as [|c s IH]; cbn [re_search].
  - destruct (match_here r []) eqn:E; [discriminate|]. intros _ [|i]; exact E.
  - destruct (match_here r (c :: s)) eqn:E; [discriminate|].
    intros H [|i]; [exact E|]. by apply IH.
Qed.

Section matcher_groups.
Context {R : Type}.
Implicit Types (k : str -> groups -> option R).

Lemma rmatch_group_plus_run n a c run rest g k x :
  atom_ok a c = true ->
  Forall (fun c => atom_ok a c = true) run ->
  k rest ((n, c :: run) :: g) = Some x ->
  match rest with [] => True | d :: _ => atom_ok a d = false end ->
  rmatch (Group n (Plus (Atom a))) (c :: run ++ rest) g k = Some x.
Proof.
  intros Hc Hrun Hk Hrest. rewrite rmatch_group.
  apply rmatch_plus_run; try done.
  change (c :: run ++ rest) with ((c :: run) ++ rest). by rewrite take_consumed.
Qed.

Lemma rmatch_group_plus_inv n a s g k x :
  rmatch (Group n (Plus (Atom a))) s g k = Some x ->
  exists c run rest, s = c :: run ++ rest /\ atom_ok a c = true
                     /\ Forall (fun c => atom_ok a c = true) run
                     /\ k rest ((n, c :: run) :: g) = Some x.
Proof.
  rewrite rmatch_group. intros (c & run & rest & -> & Hc & Hrun & H)%rmatch_plus_inv.
  change (c :: run ++ rest) with ((c :: run) ++ rest) in H.
  rewrite take_consumed in H. by exists c, run, rest.
Qed.

Lemma rmatch_group_atom n a c rest g k :
  atom_ok a c = true ->
  rmatch (Group n (Atom a)) (c :: rest) g k = k rest ((n, [c]) :: g).
Proof.
  intros Hc. rewrite rmatch_group, rmatch_atom_ok by done.
  change (c :: rest) with ([c] ++ rest). by rewrite take_consumed.
Qed.

Lemma rmatch_group_atom_inv n a s g k x :
  rmatch (Group n (Atom a)) s g k = Some x ->
  exists c rest, s = c :: rest /\ atom_ok a c = true
                 /\ k rest ((n, [c]) :: g) = Some x.
Proof.
  rewrite rmatch_group. intros (c & rest & -> & Hc & H)%rmatch_atom_inv.
  change (c :: rest) with ([c] ++ rest) in H. rewrite take_consumed in H.
  by exists c, rest.
Qed.
Lemma rmatch_str_eq lit s rest g k :
  s = lit ++ rest -> rmatch (Str lit) s g k = k rest g.
Proof. intros ->. apply rmatch_str. Qed.

Lemma rmatch_star_run_eq a run rest s g k x :
  s = run ++ rest ->
  Forall (fun c => atom_ok a c = true) run ->
  k rest g = Some x ->
  match rest with [] => True | c :: _ => atom_ok a c = false end ->
  rmatch (Star (Atom a)) s g k = Some x.
Proof. intros ->. apply rmatch_star_run. Qed.
End matcher_groups.

(** Steps of a match along a text that is known: a literal, and a
    repetition that takes the run [run]. *)
Ltac lit_step :=
  rewrite rmatch_cat; erewrite rmatch_str_eq by reflexivity.
Ltac star_step run :=
  rewrite rmatch_cat;
  eapply (rmatch_star_run_eq _ run);
  [reflexivity | by repeat constructor | cbv beta | ].

(** ** [int] on what [\d+] captures *)

Lemma isdigit_not_space c : isdigit c = true -> isspace c = false.
Proof.
  unfold isdigit, isspace, in_range. intros H.
  apply andb_true_iff in H as [H1%N.leb_le H2%N.leb_le].
  repeat (apply orb_false_iff; split);
    rewrite ?andb_false_iff, ?N.leb_gt, ?N.eqb_neq; lia.
Qed.

Lemma isdigit_not_char c d : isdigit c = true -> isdigit d = false -> ascii_eqb c d = false.
Proof.
  intros Hc Hd. apply not_true_is_false. intros ->%ascii_eqb_eq. congruence.
Qed.

Lemma int_digits_all ds acc b :
  Forall (fun c => isdigit c = true) ds -> (b = true \/ ds <> []) ->
  int_digits ds acc b
  = Some (foldl (fun acc c => (10 * acc + digit_val c)%Z) acc ds).
Proof.
  intros Hds. revert acc b. induction Hds as [|c ds Hc _ IH]; intros acc b Hb.
  - destruct Hb as [->|]; done.
  - cbn [int_digits foldl]. rewrite Hc. apply IH. by left.
Qed.

Lemma isdigit_not_int_space c : isdigit c = true -> int_space c = false.
Proof.
  unfold isdigit, int_space, in_range. intros H.
  apply andb_true_iff in H as [H1%N.leb_le H2%N.leb_le].
  repeat (apply orb_false_iff; split);
    rewrite ?andb_false_iff, ?N.leb_gt, ?N.eqb_neq; lia.
Qed.

Lemma int_lstrip_digits ds :
  Forall (fun c => isdigit c = true) ds -> int_lstrip ds = ds.
Proof.
  intros [|c l Hc _]; [reflexivity|]. cbn [int_lstrip]. by rewrite isdigit_not_int_space.
Qed.

Lemma int_strip_digits ds :
  Forall (fun c => isdigit c = true) ds -> int_strip ds = ds.
Proof.
  intros H. unfold int_strip. rewrite (int_lstrip_digits ds H).
  rewrite int_lstrip_digits; [apply rev_involutive|]. by apply List.Forall_rev.
Qed.

Lemma count_digits_all ds :
  Forall (fun c => isdigit c = true) ds -> count_digits ds = length ds.
Proof.
  unfold count_digits. induction 1 as [|c ds Hc _ IH]; [done|].
  cbn [List.filter]. rewrite Hc. cbn [length]. by rewrite IH.
Qed.

(** [int] on a run of digits: the number it denotes, unless the run is
    longer than the limit. *)
Lemma py_int_digits_cases ds :
  ds <> [] -> Forall (fun c => isdigit c = true) ds ->
  py_int ds = if (length ds <=? int_max_str_digits)%nat
              then Some (Z_of_digits ds) else None.
Proof.
  intros Hne Hds. unfold py_int. rewrite int_strip_digits by done.
  destruct ds as [|c ds]; [done|].
  pose proof (Forall_inv Hds) as Hc.
  rewrite !(isdigit_not_char c) by done. cbn [orb].
  rewrite count_digits_all by done. rewrite Nat.ltb_antisym.
  destruct (length (c :: ds) <=? int_max_str_digits)%nat; cbn [negb]; [|done].
  apply int_digits_all; [done|by right].
Qed.

Lemma py_int_digits ds :
  ds <> [] -> Forall (fun c => isdigit c = true) ds ->
  (length ds <= int_max_str_digits)%nat ->
  py_int ds = Some (Z_of_digits ds).
Proof.
  intros Hne Hds Hlen. rewrite py_int_digits_cases by done.
  by rewrite (proj2 (Nat.leb_le _ _) Hlen).
Qed.

Lemma py_int_too_long ds :
  ds <> [] -> Forall (fun c => isdigit c = true) ds ->
  (int_max_str_digits < length ds)%nat ->
  py_int ds = None.
Proof.
  intros Hne Hds Hlen. rewrite py_int_digits_cases by done.
  by rewrite (proj2 (Nat.leb_gt _ _) Hlen).
Qed.

(** ** The health patterns *)

Lemma grade_class_ok g : atom_ok grade_class g = is_grade g.
Proof. unfold is_grade. cbn. apply orb_false_r. Qed.

(** Any match of the first layout's pattern captured a digit string and a
    grade letter. *)
Lemma health_re1_inv s m :
  match_here health_re1 s = Some m ->
  exists ds g, m_groups m = [(2%nat, [g]); (1%nat, ds)] /\ ds <> []
               /\ Forall (fun c => isdigit c = true) ds /\ is_grade g = true.
Proof.
  unfold match_here, health_re1. cbn [Seq]. intros H.
  rewrite rmatch_cat in H. apply rmatch_str_inv in H as (s1 & -> & H).
  rewrite rmatch_cat in H. apply rmatch_star_inv in H as (? & s2 & -> & _ & H).
  rewrite rmatch_cat in H.
  apply rmatch_group_plus_inv in H as (d & ds & s3 & -> & Hd & Hds & H).
  rewrite rmatch_cat in H. apply rmatch_star_inv in H as (? & s4 & -> & _ & H).
  rewrite rmatch_cat in H. apply rmatch_lit_inv in H as (s5 & -> & H).
  rewrite rmatch_cat in H. apply rmatch_star_inv in H as (? & s6 & -> & _ & H).
  rewrite rmatch_cat in H. apply rmatch_str_inv in H as (s7 & -> & H).
  rewrite rmatch_cat in H. apply rmatch_star_inv in H as (? & s8 & -> & _ & H).
  rewrite rmatch_cat in H. apply rmatch_str_inv in H as (s9 & -> & H).
  rewrite rmatch_cat in H. apply rmatch_star_inv in H as (? & s10 & -> & _ & H).
  apply rmatch_group_atom_inv in H as (g & s11 & -> & Hg & H).
  injection H as <-. exists (d :: ds), g. cbn [m_groups].
  repeat split; [done|by constructor|by rewrite <- grade_class_ok].
Qed.

Lemma health_re2_inv s m :
  match_here health_re2 s = Some m ->
  exists ds g, m_groups m = [(2%nat, [g]); (1%nat, ds)] /\ ds <> []
               /\ Forall (fun c => isdigit c = true) ds /\ is_grade g = true.
Proof.
  unfold match_here, health_re2. cbn [Seq]. intros H.
  rewrite rmatch_cat in H. apply rmatch_str_inv in H as (s1 & -> & H).
  rewrite rmatch_cat in H. apply rmatch_star_inv in H as (? & s2 & -> & _ & H).
  rewrite rmatch_cat in H.
  apply rmatch_group_plus_inv in H as (d & ds & s3 & -> & Hd & Hds & H).
  rewrite rmatch_cat in H. apply rmatch_str_inv in H as (s4 & -> & H).
  rewrite rmatch_cat in H. apply rmatch_star_inv in H as (? & s5 & -> & _ & H).
  rewrite rmatch_cat in H. apply rmatch_lit_inv in H as (s6 & -> & H).
  rewrite rmatch_cat in H.
  apply rmatch_group_atom_inv in H as (g & s7 & -> & Hg & H).
  apply rmatch_lit_inv in H as (s8 & -> & H).
  injection H as <-. exists (d :: ds), g. cbn [m_groups].
  repeat split; [done|by constructor|by rewrite <- grade_class_ok].
Qed.

(** The first layout, as written, is matched where it stands. *)
Lemma grade_not_space g : is_grade g = true -> isspace g = false.
Proof.
  unfold is_grade, isspace, in_range.
  intros [H1%N.leb_le H2%N.leb_le]%andb_true_iff.
  repeat (apply orb_false_iff; split);
    rewrite ?andb_false_iff, ?N.leb_gt, ?N.eqb_neq; lia.
Qed.

Lemma health_re1_layout ds g post :
  ds <> [] -> Forall (fun c => isdigit c = true) ds -> is_grade g = true ->
  match_here health_re1 (layout1 ds g post)
  = Some (MatchObj post [(2%nat, [g]); (1%nat, ds)]).
Proof.
  intros Hne Hds Hg. destruct ds as [|d ds]; [done|].
  apply Forall_cons in Hds as [Hd Hds].
  unfold match_here, health_re1, layout1. cbn [Seq].
  lit_step.
  star_step [" "%char]; [|cbn [atom_ok]; by apply isdigit_not_space].
  rewrite rmatch_cat.
  apply rmatch_group_plus_run; [done|done| |reflexivity].
  star_step (@nil ascii); [|reflexivity].
  rewrite rmatch_cat, rmatch_atom_ok by reflexivity.
  star_step (@nil ascii); [|reflexivity].
  lit_step.
  star_step [" "%char]; [|reflexivity].
  lit_step.
  eapply (rmatch_star_run_eq _ [" "%char]);
    [reflexivity|by repeat constructor| |cbn [atom_ok]; by apply grade_not_space].
  cbv beta iota. rewrite grade_class_ok, Hg.
  change (g :: post) with ([g] ++ post). by rewrite take_consumed.
Qed.

Lemma health_re2_layout ds g post :
  ds <> [] -> Forall (fun c => isdigit c = true) ds -> is_grade g = true ->
  match_here health_re2 (layout2 ds g post)
  = Some (MatchObj post [(2%nat, [g]); (1%nat, ds)]).
Proof.
  intros Hne Hds Hg. destruct ds as [|d ds]; [done|].
  apply Forall_cons in Hds as [Hd Hds].
  unfold match_here, health_re2, layout2. cbn [Seq].
  lit_step.
  star_step [" "%char]; [|cbn [atom_ok]; by apply isdigit_not_space].
  rewrite rmatch_cat.
  apply rmatch_group_plus_run; [done|done| |reflexivity].
  lit_step.
  star_step [" "%char]; [|reflexivity].
  rewrite rmatch_cat, rmatch_atom_ok by reflexivity.
  rewrite rmatch_cat, rmatch_group_atom by (by rewrite grade_class_ok).
  by rewrite rmatch_atom_ok.
Qed.

(** ** Result extraction *)

Lemma search_groups_digits r out m :
  (forall s m, match_here r s = Some m ->
     exists ds g, m_groups m = [(2%nat, [g]); (1%nat, ds)] /\ ds <> []
                  /\ Forall (fun c => isdigit c = true) ds /\ is_grade g = true) ->
  re_search r out = Some m ->
  py_int (m_group m 1)
  = if (length (m_group m 1) <=? int_max_str_digits)%nat
    then Some (Z_of_digits (m_group m 1)) else None.
Proof.
  intros Hinv [i Hm]%re_search_inv.
  destruct (Hinv _ _ Hm) as (ds & g & Hg & Hne & Hds & _).
  unfold m_group. rewrite Hg. cbn [group Nat.eqb default from_option id].
  by apply py_int_digits_cases.
Qed.

(** What [extract_health] returns, by cases on the two searches: it raises
    exactly when the number matched is too long for [int]. *)
Lemma extract_health_cases out :
  extract_health out
  = match (match re_search health_re1 out with
           | Some m => Some m
           | None => re_search health_re2 out
           end) with
    | Some m =>
        if (length (m_group m 1) <=? int_max_str_digits)%nat
        then Ok (Some (Health (Z_of_digits (m_group m 1)) (m_group m 2)))
        else Raise (ValueError (m_group m 1))
    | None => Ok None
    end.
Proof.
  unfold extract_health.
  destruct (re_search health_re1 out) as [m|] eqn:E1.
  - rewrite (search_groups_digits _ _ _ health_re1_inv E1).
    by destruct (length (m_group m 1) <=? int_max_str_digits)%nat.
  - destruct (re_search health_re2 out) as [m|] eqn:E2; [|done].
    rewrite (search_groups_digits _ _ _ health_re2_inv E2).
    by destruct (length (m_group m 1) <=? int_max_str_digits)%nat.
Qed.

Lemma no_match_before_search r pre s :
  no_match_before r (length pre) (pre ++ s) ->
  re_search r (pre ++ s) = re_search r s.
Proof. apply re_search_skip. Qed.

(** The health line in its first layout, where the first pattern first
    matches: the record, or [ValueError] for a number that is too long. *)
Lemma extract_health_layout1 pre ds g post :
  ds <> [] -> Forall (fun c => isdigit c = true) ds -> is_grade g = true ->
  no_match_before health_re1 (length pre) (pre ++ layout1 ds g post) ->
  extract_health (pre ++ layout1 ds g post)
  = if (length ds <=? int_max_str_digits)%nat
    then Ok (Some (Health (Z_of_digits ds) [g])) else Raise (ValueError ds).
Proof.
  intros Hne Hds Hg Hpre. rewrite extract_health_cases.
  rewrite no_match_before_search by done.
  by rewrite (re_search_here _ _ _ (health_re1_layout ds g post Hne Hds Hg)).
Qed.

Lemma extract_health_layout2 pre ds g post :
  ds <> [] -> Forall (fun c => isdigit c = true) ds -> is_grade g = true ->
  re_search health_re1 (pre ++ layout2 ds g post) = None ->
  no_match_before health_re2 (length pre) (pre ++ layout2 ds g post) ->
  extract_health (pre ++ layout2 ds g post)
  = if (length ds <=? int_max_str_digits)%nat
    then Ok (Some (Health (Z_of_digits ds) [g])) else Raise (ValueError ds).
Proof.
  intros Hne Hds Hg H1 Hpre. rewrite extract_health_cases, H1.
  rewrite no_match_before_search by done.
  by rewrite (re_search_here _ _ _ (health_re2_layout ds g post Hne Hds Hg)).
Qed.

Lemma foldl_snoc_map {A B} (f : A -> B) (l : list A) (acc : list B) :
  foldl (fun acc x => acc ++ [f x]) acc l = acc ++ map f l.
Proof.
  revert acc. induction l as [|x l IH]; intros acc; cbn [foldl map].
  - by rewrite app_nil_r.
  - rewrite IH. by rewrite <- app_assoc.
Qed.

Lemma extract_issues_cases out :
  extract_issues out
  = match re_finditer issue_re out with
    | [] => map finding_of (re_finditer bracket_re out)
    | ms => map finding_of ms
    end.
Proof.
  unfold extract_issues. rewrite !foldl_snoc_map. cbn [app].
  by destruct (re_finditer issue_re out).
Qed.

Section extractor.
Context {W : Type} `{!Host W}.

(** The reports loop, when it ends without an error: one report per file,
    in the order of the files, each with the size the host gives. *)
Lemma list_reports_inv (w : W) files acc reps :
  list_reports w files acc = Ok reps ->
  exists new, reps = acc ++ new
    /\ map path new = files
    /\ map name new = map basename files
    /\ Forall (fun rep => os_getsize w (path rep) = Ok (size rep)) new.
Proof.
  revert acc. induction files as [|f files IH]; intros acc; cbn [list_reports].
  - intros [= <-]. exists []. by rewrite app_nil_r.
  - destruct (os_getsize w f) as [n|e] eqn:E; [|discriminate].
    intros (new & -> & Hp & Hn & Hs)%IH.
    exists (Report (basename f) f n :: new). rewrite <- app_assoc.
    split; [done|]. cbn [map path name]. rewrite Hp, Hn.
    split; [done|]. split; [done|]. by constructor.
Qed.

(** A known session gets a result dictionary when the size of every
    listed report can be read and [int] accepts the health score. *)
Lemma parse_session_results_returns (w : W) sessions id s reps h :
  dict_get sessions id = Some s ->
  list_reports w (sorted (os_glob w (path_join (reports_dir s) (py "*")))) [] = Ok reps ->
  extract_health (stdout s) = Ok h ->
  parse_session_results w sessions id
  = Ok (Some (Results (extract_issues (stdout s)) h reps (extract_device (stdout s)))).
Proof. intros Hs Hr Hh. unfold parse_session_results. by rewrite Hs, Hr, Hh. Qed.

(** What a result dictionary was computed from. *)
Lemma parse_session_results_inv (w : W) sessions id r :
  parse_session_results w sessions id = Ok (Some r) ->
  exists s, dict_get sessions id = Some s
    /\ issues r = extract_issues (stdout s)
    /\ extract_health (stdout s) = Ok (health r)
    /\ device_info r = extract_device (stdout s)
    /\ map path (reports r) = sorted (os_glob w (path_join (reports_dir s) (py "*")))
    /\ map name (reports r)
       = map basename (sorted (os_glob w (path_join (reports_dir s) (py "*"))))
    /\ Forall (fun rep => os_getsize w (path rep) = Ok (size rep)) (reports r).
Proof.
  unfold parse_session_results.
  destruct (dict_get sessions id) as [s|]; [|discriminate].
  destruct (list_reports w _ []) as [reps|e] eqn:Er; [|discriminate].
  destruct (extract_health (stdout s)) as [h|e] eqn:Eh; [|discriminate].
  intros [= <-]. apply list_reports_inv in Er as (new & -> & Hp & Hn & Hs).
  exists s. cbn [issues health device_info reports app]. by repeat split.
Qed.

(** C1.  On every text the issues are the matches of the primary pattern
    [#<n> SEVERITY title], all of them and nothing else, whenever there is
    at least one; the bracketed pattern [[SEVERITY] title] only supplies
    the issues when the primary pattern matched nowhere.  The issues of
    every result dictionary [parse_session_results] returns are the
    issues of the stored output of its session. *)
Theorem issues_primary_else_bracketed (w : W) sessions id :
  (forall out,
      (re_finditer issue_re out <> [] ->
       extract_issues out = map finding_of (re_finditer issue_re out))
      /\ (re_finditer issue_re out = [] ->
          extract_issues out = map finding_of (re_finditer bracket_re out)))
  /\ (forall r, parse_session_results w sessions id = Ok (Some r) ->
       exists s, dict_get sessions id = Some s
         /\ issues r = extract_issues (stdout s)
         /\ (re_finditer issue_re (stdout s) <> [] ->
             issues r = map finding_of (re_finditer issue_re (stdout s)))
         /\ (re_finditer issue_re (stdout s) = [] ->
             issues r = map finding_of (re_finditer bracket_re (stdout s)))).
Proof.
  assert (forall out,
            (re_finditer issue_re out <> [] ->
             extract_issues out = map finding_of (re_finditer issue_re out))
            /\ (re_finditer issue_re out = [] ->
                extract_issues out = map finding_of (re_finditer bracket_re out)))
    as Hout.
  { intros out. rewrite extract_issues_cases.
    destruct (re_finditer issue_re out); by split. }
  split; [exact Hout|].
  intros r (s & Hs & Hi & _)%parse_session_results_inv.
  exists s. split; [done|]. split; [done|]. rewrite Hi. apply Hout.
Qed.

(** C6.  For every session whose report sizes can be read and whose
    output holds one of the two layouts of the health line, with [ds] a
    string of at most [int_max_str_digits] decimal digits and [g] a letter
    A..F, the result dictionary is returned and its health record is the
    number [ds] denotes and the grade [g]: the first layout wins over the
    second, the leftmost match over later ones; when neither pattern
    matches, the result is returned with the health field unset; and a
    matched number of more digits makes the call raise [ValueError]. *)
Theorem health_first_layout_first_match (w : W) sessions id s reps :
  dict_get sessions id = Some s ->
  list_reports w (sorted (os_glob w (path_join (reports_dir s) (py "*")))) [] = Ok reps ->
  (forall pre ds g post,
      stdout s = pre ++ layout1 ds g post ->
      ds <> [] -> Forall (fun c => isdigit c = true) ds -> is_grade g = true ->
      no_match_before health_re1 (length pre) (stdout s) ->
      ((length ds <= int_max_str_digits)%nat ->
       exists r, parse_session_results w sessions id = Ok (Some r)
                 /\ health r = Some (Health (Z_of_digits ds) [g]))
      /\ ((int_max_str_digits < length ds)%nat ->
          parse_session_results w sessions id = Raise (ValueError ds)))
  /\ (forall pre ds g post,
        stdout s = pre ++ layout2 ds g post ->
        ds <> [] -> Forall (fun c => isdigit c = true) ds -> is_grade g = true ->
        re_search health_re1 (stdout s) = None ->
        no_match_before health_re2 (length pre) (stdout s) ->
        ((length ds <= int_max_str_digits)%nat ->
         exists r, parse_session_results w sessions id = Ok (Some r)
                   /\ health r = Some (Health (Z_of_digits ds) [g]))
        /\ ((int_max_str_digits < length ds)%nat ->
            parse_session_results w sessions id = Raise (ValueError ds)))
  /\ (re_search health_re1 (stdout s) = None ->
      re_search health_re2 (stdout s) = None ->
      exists r, parse_session_results w sessions id = Ok (Some r) /\ health r = None).
Proof.
  intros Hs Hreps.
  assert (forall ds g,
            extract_health (stdout s)
            = (if (length ds <=? int_max_str_digits)%nat
               then Ok (Some (Health (Z_of_digits ds) [g])) else Raise (ValueError ds)) ->
            ((length ds <= int_max_str_digits)%nat ->
             exists r, parse_session_results w sessions id = Ok (Some r)
                       /\ health r = Some (Health (Z_of_digits ds) [g]))
            /\ ((int_max_str_digits < length ds)%nat ->
                parse_session_results w sessions id = Raise (ValueError ds))) as Hcase.
  { intros ds g Hh. split; intros Hlen.
    - rewrite (proj2 (Nat.leb_le _ _) Hlen) in Hh.
      rewrite (parse_session_results_returns w _ _ _ _ _ Hs Hreps Hh).
      by eexists.
    - rewrite (proj2 (Nat.leb_gt _ _) Hlen) in Hh.
      unfold parse_session_results. by rewrite Hs, Hreps, Hh. }
  split; [|split].
  - intros pre ds g post E Hne Hds Hg Hpre. apply Hcase. rewrite E in *.
    by apply extract_health_layout1.
  - intros pre ds g post E Hne Hds Hg H1 Hpre. apply Hcase. rewrite E in *.
    by apply extract_health_layout2.
  - intros H1 H2.
    assert (extract_health (stdout s) = Ok None) as Hh.
    { by rewrite extract_health_cases, H1, H2. }
    rewrite (parse_session_results_returns w _ _ _ _ _ Hs Hreps Hh). by eexists.
Qed.
End extractor.

(** On an output that mixes both conventions only the primary matches are
    issues; on one with bracketed lines only, those are. *)
Lemma issues_primary_else_bracketed_witness :
  (exists r, parse_session_results (sim_empty TimeoutExpired) (sim_sessions out_mixed)
               (py "0123456789ab") = Ok (Some r)
             /\ issues r = [ Finding (py "CRITICAL") (py "Disk full");
                             Finding (py "HIGH") (py "Memory leak") ])
  /\ (exists r, parse_session_results (sim_empty TimeoutExpired) (sim_sessions out_bracketed)
                  (py "0123456789ab") = Ok (Some r)
                /\ issues r = [ Finding (py "LOW") (py "Clock skew") ]).
Proof.
  split.
  - destruct (parse_session_results (sim_empty TimeoutExpired) (sim_sessions out_mixed)
                (py "0123456789ab")) as [[r|]|e] eqn:E;
      [|vm_compute in E; discriminate..].
    destruct (issues_primary_else_bracketed (sim_empty TimeoutExpired)
                (sim_sessions out_mixed) (py "0123456789ab")) as [_ Hret].
    destruct (Hret r E) as (s & Hs & _ & H1 & _). injection Hs as <-.
    exists r. split; [reflexivity|]. rewrite H1; [reflexivity|discriminate].
  - destruct (parse_session_results (sim_empty TimeoutExpired) (sim_sessions out_bracketed)
                (py "0123456789ab")) as [[r|]|e] eqn:E;
      [|vm_compute in E; discriminate..].
    destruct (issues_primary_else_bracketed (sim_empty TimeoutExpired)
                (sim_sessions out_bracketed) (py "0123456789ab")) as [_ Hret].
    destruct (Hret r E) as (s & Hs & _ & _ & H2). injection Hs as <-.
    exists r. split; [reflexivity|]. rewrite H2; reflexivity.
Defined.

Lemma no_match_before_intro r n s :
  forallb (fun i => match match_here r (drop i s) with None => true | Some _ => false end)
          (seq 0 n) = true ->
  no_match_before r n s.
Proof.
  intros H i Hi. rewrite forallb_forall in H.
  specialize (H i). rewrite in_seq in H.
  destruct (match_here r (drop i s)); [|done].
  discriminate H. lia.
Qed.

(** Both layouts of the health line give score 87 and grade B. *)
Lemma health_first_layout_first_match_witness :
  (exists r, parse_session_results (sim_empty TimeoutExpired) (sim_sessions out_mixed)
               (py "0123456789ab") = Ok (Some r)
             /\ health r = Some (Health 87 (py "B")))
  /\ (exists r, parse_session_results (sim_empty TimeoutExpired) (sim_sessions out_bracketed)
                  (py "0123456789ab") = Ok (Some r)
                /\ health r = Some (Health 87 (py "B")))
  /\ (exists r, parse_session_results (sim_empty TimeoutExpired) (sim_sessions (py "no score"))
                  (py "0123456789ab") = Ok (Some r)
                /\ health r = None).
Proof.
  split; [|split].
  - destruct (health_first_layout_first_match (sim_empty TimeoutExpired)
                (sim_sessions out_mixed) (py "0123456789ab") (sim_session out_mixed) []
                eq_refl)
      as (H1 & _); [vm_compute; reflexivity|].
    apply (H1 (py "Summary" ++ NL :: py "#1 CRITICAL Disk full" ++ NL ::
               py "[LOW] Clock skew" ++ NL :: py "#2 HIGH Memory leak" ++ [NL])
              (py "87") "B"%char [NL]).
    + reflexivity.
    + discriminate.
    + repeat constructor.
    + reflexivity.
    + apply no_match_before_intro. vm_compute. reflexivity.
    + apply Nat.leb_le. vm_compute. reflexivity.
  - destruct (health_first_layout_first_match (sim_empty TimeoutExpired)
                (sim_sessions out_bracketed) (py "0123456789ab") (sim_session out_bracketed) []
                eq_refl)
      as (_ & H2 & _); [vm_compute; reflexivity|].
    apply (H2 (py "[LOW] Clock skew" ++ [NL]) (py "87") "B"%char [NL]).
    + reflexivity.
    + discriminate.
    + repeat constructor.
    + reflexivity.
    + vm_compute. reflexivity.
    + apply no_match_before_intro. vm_compute. reflexivity.
    + apply Nat.leb_le. vm_compute. reflexivity.
  - destruct (health_first_layout_first_match (sim_empty TimeoutExpired)
                (sim_sessions (py "no score")) (py "0123456789ab") (sim_session (py "no score")) []
                eq_refl)
      as (_ & _ & H3); [vm_compute; reflexivity|].
    apply H3; vm_compute; reflexivity.
Defined.

(** A score of 4301 digits: the first layout is matched and [int] refuses
    the number, so no health record and no result dictionary comes back. *)
Lemma health_long_number_raises :
  (exists pre ds g post,
      out_long_score = pre ++ layout1 ds g post
      /\ ds <> [] /\ Forall (fun c => isdigit c = true) ds /\ is_grade g = true
      /\ no_match_before health_re1 (length pre) out_long_score)
  /\ parse_session_results (sim_empty TimeoutExpired) (sim_sessions out_long_score)
       (py "0123456789ab")
     = Raise (ValueError (replicate (S int_max_str_digits) "9"%char)).
Proof.
  assert (Forall (fun c => isdigit c = true) (replicate (S int_max_str_digits) "9"%char))
    as Hds by (by apply Forall_replicate).
  split.
  - exists [], (replicate (S int_max_str_digits) "9"%char), "A"%char, [].
    split; [reflexivity|]. split; [discriminate|]. split; [exact Hds|].
    split; [reflexivity|]. intros i Hi. cbn in Hi. lia.
  - unfold parse_session_results.
    change (dict_get (sim_sessions out_long_score) (py "0123456789ab"))
      with (Some (sim_session out_long_score)).
    cbv beta iota zeta.
    change (stdout (sim_session out_long_score)) with out_long_score.
    replace (list_reports (sim_empty TimeoutExpired) _ []) with (Ok ([] : list report))
      by (vm_compute; reflexivity).
    unfold out_long_score.
    pose proof (extract_health_layout1 [] (replicate (S int_max_str_digits) "9"%char)
                  "A"%char []) as Hh.
    change ([] ++ ?x) with x in Hh.
    rewrite Hh; [|discriminate|exact Hds|reflexivity|intros i Hi; cbn in Hi; lia].
    rewrite length_replicate.
    by rewrite (proj2 (Nat.leb_gt (S int_max_str_digits) int_max_str_digits) (Nat.lt_succ_diag_r _)).
Qed.

(** The examples of the specification. *)
Example issues_two_primary :
  extract_issues (py "#1 CRITICAL Disk full" ++ NL :: py "#2 HIGH Memory leak")
  = [Finding (py "CRITICAL") (py "Disk full"); Finding (py "HIGH") (py "Memory leak")].
Proof. vm_compute. reflexivity. Qed.

Example issues_bracketed_only :
  extract_issues (py "[LOW] Clock skew") = [Finding (py "LOW") (py "Clock skew")].
Proof. vm_compute. reflexivity. Qed.

Example health_both_layouts :
  extract_health (py "Health Score: 87/100 Grade: B") = Ok (Some (Health 87 (py "B")))
  /\ extract_health (py "Health Score: 87/100 (B)") = Ok (Some (Health 87 (py "B"))).
Proof. split; vm_compute; reflexivity. Qed.

(** ** The order of [sorted] *)

Lemma str_leb_refl a : str_leb a a = true.
Proof.
  induction a as [|x a IH]; [reflexivity|]. cbn [str_leb].
  by rewrite N.ltb_irrefl.
Qed.

Lemma str_leb_total a b : str_leb a b = true \/ str_leb b a = true.
Proof.
  revert b. induction a as [|x a IH]; intros [|y b]; cbn [str_leb]; auto.
  destruct (N.ltb_spec (code x) (code y)), (N.ltb_spec (code y) (code x));
    auto; lia.
Qed.

Lemma str_leb_antisym a b : str_leb a b = true -> str_leb b a = true -> a = b.
Proof.
  revert b. induction a as [|x a IH]; intros [|y b]; cbn [str_leb]; try done.
  destruct (N.ltb_spec (code x) (code y)), (N.ltb_spec (code y) (code x));
    try done; try lia.
  intros Hab Hba. f_equal; [|by apply IH].
  assert (code x = code y) as E by lia.
  apply ascii_eqb_eq. unfold ascii_eqb. by apply N.eqb_eq.
Qed.

Lemma str_leb_trans a b c :
  str_leb a b = true -> str_leb b c = true -> str_leb a c = true.
Proof.
  revert b c. induction a as [|x a IH]; intros [|y b] [|z c]; cbn [str_leb]; try done.
  destruct (N.ltb_spec (code x) (code y)), (N.ltb_spec (code y) (code x)),
    (N.ltb_spec (code y) (code z)), (N.ltb_spec (code z) (code y)),
    (N.ltb_spec (code x) (code z)), (N.ltb_spec (code z) (code x));
    try done; try lia.
  apply IH.
Qed.

#[global] Instance str_le_total : Total str_le.
Proof. intros a b. apply str_leb_total. Qed.

#[global] Instance str_le_trans : Transitive str_le.
Proof. intros a b c. apply str_leb_trans. Qed.

#[global] Instance str_le_antisym : AntiSymm (=) str_le.
Proof. intros a b. apply str_leb_antisym. Qed.

Lemma sorted_Sorted l : Sorted str_le (sorted l).
Proof. apply Sorted_merge_sort, _. Qed.

(** [sorted] forgets the order in which the names were listed. *)
Lemma sorted_perm l1 l2 : l1 ≡ₚ l2 -> sorted l1 = sorted l2.
Proof.
  intros Hp. apply (Sorted_unique str_le); try apply sorted_Sorted.
  unfold sorted. by rewrite !merge_sort_Permutation.
Qed.

(** ** Log search *)

Lemma sev_map_get_notin m k d : k ∉ map fst m -> sev_map_get m k d = d.
Proof.
  induction m as [|[k' v] m IH]; [done|]. cbn [map fst sev_map_get].
  intros [Hk Hm]%not_elem_of_cons. rewrite bool_decide_false by congruence. by apply IH.
Qed.

Section search.
Context {W : Type} `{!Host W}.
Implicit Types (w : W) (results : list hit).

Lemma line_hits_cons severity sev_str component fname l lines :
  line_hits severity sev_str component fname (l :: lines)
  = if passes severity sev_str component l
    then Hit (Some fname) (take 300 l)
         :: line_hits severity sev_str component fname lines
    else line_hits severity sev_str component fname lines.
Proof.
  unfold line_hits. cbn [List.filter]. by destruct (passes _ _ _ l).
Qed.

Lemma scan_lines_cons severity sev_str component fname max l lines results :
  scan_lines severity sev_str component fname max (l :: lines) results
  = if passes severity sev_str component l
    then if (max <=? Z.of_nat (length (results ++ [Hit (Some fname) (take 300 l)])))%Z
         then (results ++ [Hit (Some fname) (take 300 l)], true)
         else scan_lines severity sev_str component fname max lines
                (results ++ [Hit (Some fname) (take 300 l)])
    else scan_lines severity sev_str component fname max lines results.
Proof.
  cbn [scan_lines]. unfold passes.
  destruct (nonempty l); cbn [negb andb]; [|done].
  destruct (nonempty severity && nonempty sev_str && negb (contains sev_str l));
    cbn [negb andb]; [done|].
  by destruct (nonempty component && negb (contains (lower component) (lower l))).
Qed.

(** The inner loop: it adds the hits of the lines in order and returns as
    soon as the cap is reached. *)
Lemma scan_lines_spec severity sev_str component fname max lines results :
  (length results < max)%nat ->
  scan_lines severity sev_str component fname (Z.of_nat max) lines results
  = let all := results ++ line_hits severity sev_str component fname lines in
    if (max <=? length all)%nat then (take max all, true) else (all, false).
Proof.
  revert results. induction lines as [|l lines IH]; intros results Hlt.
  - cbn [scan_lines line_hits List.filter map]. rewrite app_nil_r. cbv zeta.
    destruct (Nat.leb_spec max (length results)); [lia|done].
  - rewrite scan_lines_cons, line_hits_cons.
    destruct (passes severity sev_str component l); [|by apply IH].
    set (h := Hit (Some fname) (take 300 l)).
    set (hs := line_hits severity sev_str component fname lines) in *.
    cbv zeta. rewrite (cons_middle h results hs), app_assoc.
    destruct (Z.leb_spec (Z.of_nat max) (Z.of_nat (length (results ++ [h])))) as [Hle|Hgt];
      rewrite length_app in Hle || rewrite length_app in Hgt; cbn [length] in *.
    + destruct (Nat.leb_spec max (length ((results ++ [h]) ++ hs))) as [_|Hc].
      2:{ rewrite !length_app in Hc. cbn [length] in Hc. lia. }
      f_equal. rewrite take_app_le by (rewrite length_app; cbn [length]; lia).
      rewrite take_ge; [done|]. rewrite length_app. cbn [length]. lia.
    + rewrite IH by (rewrite length_app; cbn [length]; lia). done.
Qed.

(** The outer loop: the first [max] hits of the files taken in turn. *)
Lemma scan_files_spec w pattern severity sev_str component max files results :
  (length results < max)%nat ->
  scan_files w pattern severity sev_str component (Z.of_nat max) files results
  = take max (results ++ all_hits w pattern severity sev_str component files).
Proof.
  revert results. induction files as [|f files IH]; intros results Hlt.
  - cbn [scan_files all_hits flat_map]. rewrite app_nil_r, take_ge; [done|lia].
  - change (all_hits w pattern severity sev_str component (f :: files))
      with (file_hits w pattern severity sev_str component f
            ++ all_hits w pattern severity sev_str component files).
    cbn [scan_files]. unfold file_hits.
    destruct (run_grep w pattern f) as [out|]; [|by apply IH].
    rewrite scan_lines_spec by done. cbv zeta.
    set (hs := line_hits severity sev_str component (basename f) (split NL (strip out))).
    rewrite app_assoc.
    destruct (Nat.leb_spec max (length (results ++ hs))) as [Hle|Hgt].
    + symmetry. by apply take_app_le.
    + by rewrite IH.
Qed.

Lemma search_logs_known w sessions id pattern severity component after before max s :
  dict_get sessions id = Some s ->
  os_isdir w (path_join (work_dir s) (py "parsed")) = true ->
  search_logs w sessions id pattern severity component after before max
  = scan_files w pattern severity (sev_token severity) component max
      (sorted (os_glob w (path_join (path_join (work_dir s) (py "parsed"))
                                    (py "*.parsed")))) [].
Proof. intros Hs Hd. unfold search_logs. by rewrite Hs, Hd. Qed.

(** X29.  For every session, pattern, filters and for every [max_results]
    of at least 1, the search returns at most [max_results] hits; when the
    session and its parsed-logs directory exist, they are the first
    [max_results] of the hits of all [.parsed] files, the files taken in
    sorted order of their names, whatever the order in which the directory
    lists them. *)
Theorem search_logs_capped w sessions id pattern severity component after before
    (max : Z) :
  (1 <= max)%Z ->
  (Z.of_nat (length (search_logs w sessions id pattern severity component
                                 after before max)) <= max)%Z
  /\ (forall s files,
        dict_get sessions id = Some s ->
        os_isdir w (path_join (work_dir s) (py "parsed")) = true ->
        files ≡ₚ os_glob w (path_join (path_join (work_dir s) (py "parsed"))
                                      (py "*.parsed")) ->
        Sorted str_le (sorted files)
        /\ search_logs w sessions id pattern severity component after before max
           = take (Z.to_nat max)
               (all_hits w pattern severity (sev_token severity) component
                         (sorted files))).
Proof.
  intros Hmax.
  assert (forall s, dict_get sessions id = Some s ->
            os_isdir w (path_join (work_dir s) (py "parsed")) = true ->
            search_logs w sessions id pattern severity component after before max
            = take (Z.to_nat max)
                (all_hits w pattern severity (sev_token severity) component
                   (sorted (os_glob w (path_join (path_join (work_dir s) (py "parsed"))
                                                 (py "*.parsed")))))) as Hk.
  { intros s Hs Hd. rewrite (search_logs_known _ _ _ _ _ _ _ _ _ _ Hs Hd).
    rewrite <- (Z2Nat.id max) at 1 by lia.
    rewrite scan_files_spec by (cbn; lia). done. }
  split.
  - destruct (dict_get sessions id) as [s|] eqn:Hs.
    + destruct (os_isdir w (path_join (work_dir s) (py "parsed"))) eqn:Hd.
      * rewrite (Hk s eq_refl Hd), length_take. lia.
      * unfold search_logs. rewrite Hs, Hd. cbn. lia.
    + unfold search_logs. rewrite Hs. cbn. lia.
  - intros s files Hs Hd Hp. split; [apply sorted_Sorted|].
    rewrite (sorted_perm _ _ Hp). by apply Hk.
Qed.

(** C8.  For every session whose parsed-logs directory does not exist the
    search returns exactly the one placeholder hit, whatever the pattern,
    the filters and the cap. *)
Theorem search_logs_not_parsed w sessions id s pattern severity component
    after before max :
  dict_get sessions id = Some s ->
  os_isdir w (path_join (work_dir s) (py "parsed")) = false ->
  search_logs w sessions id pattern severity component after before max
  = [Hit None placeholder].
Proof. intros Hs Hd. unfold search_logs. by rewrite Hs, Hd. Qed.

Lemma scan_lines_no_token severity component fname max lines results :
  scan_lines severity [] component fname max lines results
  = scan_lines [] [] component fname max lines results.
Proof.
  revert results. induction lines as [|l lines IH]; intros results; [done|].
  cbn [scan_lines nonempty]. rewrite andb_false_r. cbn [andb].
  rewrite !IH. done.
Qed.

Lemma scan_files_no_token w pattern severity component max files results :
  scan_files w pattern severity [] component max files results
  = scan_files w pattern [] [] component max files results.
Proof.
  revert results. induction files as [|f files IH]; intros results; [done|].
  cbn [scan_files].
  destruct (run_grep w pattern f); [|apply IH].
  rewrite scan_lines_no_token.
  destruct (scan_lines _ _ _ _ _ _ _) as [r b]. destruct b; [done|apply IH].
Qed.

Lemma search_logs_take w sessions id pattern severity component after before max s :
  dict_get sessions id = Some s ->
  os_isdir w (path_join (work_dir s) (py "parsed")) = true ->
  (1 <= max)%Z ->
  search_logs w sessions id pattern severity component after before max
  = take (Z.to_nat max)
      (all_hits w pattern severity (sev_token severity) component
         (sorted (os_glob w (path_join (path_join (work_dir s) (py "parsed"))
                                       (py "*.parsed"))))).
Proof.
  intros Hs Hd Hmax. rewrite (search_logs_known _ _ _ _ _ _ _ _ _ _ Hs Hd).
  rewrite <- (Z2Nat.id max) at 1 by lia.
  rewrite scan_files_spec by (cbn; lia). done.
Qed.

Lemma all_hits_elem w pattern severity sev_str component files f out line :
  f ∈ files -> run_grep w pattern f = Some out ->
  line ∈ split NL (strip out) ->
  passes severity sev_str component line = true ->
  Hit (Some (basename f)) (take 300 line)
  ∈ all_hits w pattern severity sev_str component files.
Proof.
  intros Hf Hout Hline Hpass. unfold all_hits.
  apply list_elem_of_In, in_flat_map. exists f. split; [by apply list_elem_of_In|].
  unfold file_hits. rewrite Hout. unfold line_hits.
  apply in_map_iff. exists line. split; [done|].
  apply filter_In. split; [by apply list_elem_of_In|done].
Qed.

(** C10.  For every severity argument whose upper-cased form is not one of
    E, W, I, C, N, no severity filter is applied: a line passes exactly
    when it is not empty and meets the component check, and the search
    returns what it returns without a severity argument.  For a session
    with parsed logs and a cap of at least 1 that is the first
    [max_results] of the hits of all files; every line [grep] finds that
    is not empty and meets the component check yields a hit, so the
    result is not empty when there is such a line, and the hit itself is
    returned unless the cap cuts the list before it. *)
Theorem search_logs_unknown_severity w sessions id pattern severity component
    after before max :
  upper severity ∉ sev_keys ->
  (forall line,
      passes severity (sev_token severity) component line
      = nonempty line
        && negb (nonempty component && negb (contains (lower component) (lower line))))
  /\ search_logs w sessions id pattern severity component after before max
     = search_logs w sessions id pattern [] component after before max
  /\ (forall s, dict_get sessions id = Some s ->
       os_isdir w (path_join (work_dir s) (py "parsed")) = true ->
       (1 <= max)%Z ->
       search_logs w sessions id pattern severity component after before max
       = take (Z.to_nat max)
           (all_hits w pattern severity (sev_token severity) component
              (sorted (os_glob w (path_join (path_join (work_dir s) (py "parsed"))
                                            (py "*.parsed")))))
       /\ (forall f out line,
             f ∈ os_glob w (path_join (path_join (work_dir s) (py "parsed"))
                                      (py "*.parsed")) ->
             run_grep w pattern f = Some out ->
             line ∈ split NL (strip out) ->
             line <> [] ->
             (component = [] \/ contains (lower component) (lower line) = true) ->
             (Hit (Some (basename f)) (take 300 line)
              ∈ all_hits w pattern severity (sev_token severity) component
                  (sorted (os_glob w (path_join (path_join (work_dir s) (py "parsed"))
                                                (py "*.parsed")))))
             /\ search_logs w sessions id pattern severity component after before max
                <> []
             /\ ((length (all_hits w pattern severity (sev_token severity) component
                            (sorted (os_glob w (path_join
                                                  (path_join (work_dir s) (py "parsed"))
                                                  (py "*.parsed")))))
                  <= Z.to_nat max)%nat ->
                 Hit (Some (basename f)) (take 300 line)
                 ∈ search_logs w sessions id pattern severity component
                     after before max))).
Proof.
  intros Hk.
  assert (sev_token severity = []) as Htok.
  { unfold sev_token. rewrite sev_map_get_notin by exact Hk.
    by destruct (nonempty severity). }
  assert (forall line,
            passes severity (sev_token severity) component line
            = nonempty line
              && negb (nonempty component
                       && negb (contains (lower component) (lower line)))) as Hpass.
  { intros line. unfold passes. rewrite Htok. cbn [nonempty].
    by rewrite andb_false_r, andb_true_r. }
  split; [exact Hpass|]. split.
  - unfold search_logs.
    destruct (dict_get sessions id) as [s|]; [|done].
    destruct (os_isdir _ _); [|done]. cbn [negb nonempty].
    rewrite sev_map_get_notin by exact Hk.
    replace (if nonempty severity then [] else []) with (@nil ascii)
      by (by destruct (nonempty severity)).
    apply scan_files_no_token.
  - intros s Hs Hd Hmax.
    pose proof (search_logs_take w sessions id pattern severity component after before
                  max s Hs Hd Hmax) as Htake.
    split; [exact Htake|].
    intros f out line Hf Hout Hline Hne Hcomp.
    assert (Hit (Some (basename f)) (take 300 line)
            ∈ all_hits w pattern severity (sev_token severity) component
                (sorted (os_glob w (path_join (path_join (work_dir s) (py "parsed"))
                                              (py "*.parsed"))))) as Hin.
    { apply (all_hits_elem _ _ _ _ _ _ f out line); [|done|done|].
      - unfold sorted. by rewrite merge_sort_Permutation.
      - rewrite Hpass. destruct line as [|c line]; [done|]. cbn [nonempty andb].
        destruct Hcomp as [-> | ->]; [done|]. by rewrite andb_false_r. }
    split; [exact Hin|]. rewrite Htake. split.
    + destruct (all_hits _ _ _ _ _ _) as [|h hs]; [by apply elem_of_nil in Hin|].
      destruct (Z.to_nat max) as [|n] eqn:En; [lia|]. done.
    + intros Hlen. rewrite (take_ge (all_hits _ _ _ _ _ _)) by exact Hlen. exact Hin.
Qed.
End search.

(** With a cap of 1 the hit comes from [a.parsed], although the directory
    lists [b.parsed] first. *)
Lemma search_logs_capped_witness :
  (Z.of_nat (length (search_logs sim_parsed (sim_sessions []) (py "0123456789ab")
                       (py "link") [] [] [] [] 1)) <= 1)%Z
  /\ search_logs sim_parsed (sim_sessions []) (py "0123456789ab")
       (py "link") [] [] [] [] 1
     = [Hit (Some (py "a.parsed")) (py "3:t1|net|E|link down")].
Proof.
  destruct (search_logs_capped sim_parsed (sim_sessions []) (py "0123456789ab")
              (py "link") [] [] [] [] 1 ltac:(lia)) as [Hlen Hsorted].
  split; [exact Hlen|].
  destruct (Hsorted (sim_session [])
              [py "/srv/loggy/lib/sessions/0123456789ab/parsed/a.parsed";
               py "/srv/loggy/lib/sessions/0123456789ab/parsed/b.parsed"]
              eq_refl eq_refl (perm_swap _ _ _)) as [_ ->].
  vm_compute. reflexivity.
Defined.

(** C2 at its failing input.  With a cap of 0 the search still returns
    the first hit: the cap is only looked at after a hit was appended, so
    the list is longer than the cap allows. *)
Example search_logs_cap_zero :
  search_logs sim_parsed (sim_sessions []) (py "0123456789ab") (py "link") [] [] [] [] 0
  = [Hit (Some (py "a.parsed")) (py "3:t1|net|E|link down")]
  /\ ~ (Z.of_nat (length (search_logs sim_parsed (sim_sessions []) (py "0123456789ab")
                            (py "link") [] [] [] [] 0)) <= 0)%Z.
Proof.
  split; [vm_compute; reflexivity|].
  vm_compute. intros H. apply H. reflexivity.
Qed.

(** Without a cap in the way all three hits come back, [a.parsed] first. *)
Example search_logs_all :
  search_logs sim_parsed (sim_sessions []) (py "0123456789ab") (py "link") [] [] [] [] 50
  = [ Hit (Some (py "a.parsed")) (py "3:t1|net|E|link down");
      Hit (Some (py "a.parsed")) (py "7:t2|net|W|link flaps");
      Hit (Some (py "b.parsed")) (py "1:t0|disk|E|link to disk lost") ].
Proof. vm_compute. reflexivity. Qed.

(** A severity [e] keeps the lines with the marker [|E|] only. *)
Example search_logs_severity_e :
  search_logs sim_parsed (sim_sessions []) (py "0123456789ab") (py "link")
              (py "e") [] [] [] 50
  = [ Hit (Some (py "a.parsed")) (py "3:t1|net|E|link down");
      Hit (Some (py "b.parsed")) (py "1:t0|disk|E|link to disk lost") ].
Proof. vm_compute. reflexivity. Qed.

(** Before any analysis the session has no parsed directory. *)
Lemma search_logs_not_parsed_witness :
  search_logs (sim_empty TimeoutExpired) (sim_sessions []) (py "0123456789ab")
              (py "link") (py "E") (py "net") [] [] 0
  = [Hit None placeholder].
Proof.
  apply (search_logs_not_parsed (sim_empty TimeoutExpired) (sim_sessions [])
           (py "0123456789ab") (sim_session [])); reflexivity.
Defined.

(** The severity [X] filters nothing: the warning line of [a.parsed] is
    returned with the two error lines. *)
Lemma search_logs_unknown_severity_witness :
  search_logs sim_parsed (sim_sessions []) (py "0123456789ab") (py "link")
              (py "X") [] [] [] 50
  = search_logs sim_parsed (sim_sessions []) (py "0123456789ab") (py "link")
                [] [] [] [] 50
  /\ (Hit (Some (py "a.parsed")) (py "7:t2|net|W|link flaps")
      ∈ search_logs sim_parsed (sim_sessions []) (py "0123456789ab") (py "link")
                    (py "X") [] [] [] 50).
Proof.
  destruct (search_logs_unknown_severity sim_parsed (sim_sessions []) (py "0123456789ab")
              (py "link") (py "X") [] [] [] 50) as (_ & Heq & Hhits).
  { intros H%list_elem_of_In. vm_compute in H. intuition discriminate. }
  split; [exact Heq|].
  destruct (Hhits (sim_session []) eq_refl eq_refl ltac:(lia)) as [_ Hline].
  destruct (Hline (py "/srv/loggy/lib/sessions/0123456789ab/parsed/a.parsed")
              (py "3:t1|net|E|link down" ++ NL :: py "7:t2|net|W|link flaps" ++ [NL])
              (py "7:t2|net|W|link flaps")) as (_ & _ & Hret).
  - apply list_elem_of_In. right. left. reflexivity.
  - reflexivity.
  - apply list_elem_of_In. right. left. vm_compute. reflexivity.
  - discriminate.
  - by left.
  - apply Hret. vm_compute. lia.
Defined.

(** ** Process runner *)

Section runner.
Context {W : Type} `{!Host W} (cfg : config).

(** C4, as the code has it.  The process [run_analyzer] starts is always
    [bash] with the analyzer path and the arguments.  However that ends,
    [run_analyzer] returns a triple: on a timeout the exit code 124, an
    empty stdout and the message [Timeout after <timeout>s]; when
    [subprocess.run] raises any other exception (starting [bash] failed)
    the exit code 1, an empty stdout and the text of the exception; and
    when the [bash] process exits on its own, its exit code and output,
    unchanged, which may be any code: 124, or the code with which [bash]
    reports an analyzer script it cannot find or read.  Conversely the
    exit code 124 comes from a timeout or from the process itself, and the
    exit code 1 with the text of an exception only from [subprocess.run]
    raising or from the process itself. *)
Theorem run_analyzer_outcomes (w w' : W) args timeout p :
  run_bash w ([JStr (py "bash"); JStr (ANALYZER cfg)] ++ args) timeout = (p, w') ->
  (p = TimeoutExpired ->
   run_analyzer cfg w args timeout
   = ((124%Z, [], py "Timeout after " ++ str_of_Z timeout ++ py "s"), w'))
  /\ (forall msg, p = ProcError msg ->
      run_analyzer cfg w args timeout = ((1%Z, [], msg), w'))
  /\ (forall rc out err, p = Completed rc out err ->
      run_analyzer cfg w args timeout = ((rc, out, err), w'))
  /\ (forall rc out err w'',
        run_analyzer cfg w args timeout = ((rc, out, err), w'') ->
        w'' = w'
        /\ (p = Completed rc out err
            \/ (p = TimeoutExpired /\ rc = 124%Z /\ out = []
                /\ err = py "Timeout after " ++ str_of_Z timeout ++ py "s")
            \/ (p = ProcError err /\ rc = 1%Z /\ out = []))).
Proof.
  intros Hrun. unfold run_analyzer. rewrite Hrun.
  split; [|split; [|split]].
  - by intros ->.
  - by intros msg ->.
  - by intros rc out err ->.
  - intros rc out err w''. destruct p as [rc0 out0 err0| |msg]; intros [= <- <- <- <-].
    + split; [done|]. by left.
    + split; [done|]. right. left. by repeat split.
    + split; [done|]. right. right. by repeat split.
Qed.
End runner.

Lemma run_analyzer_outcomes_witness :
  run_analyzer sim_cfg (sim_empty TimeoutExpired) [JStr (py "--check")] 15
  = ((124%Z, [], py "Timeout after 15s"), sim_empty TimeoutExpired)
  /\ run_analyzer sim_cfg (sim_empty (ProcError (py "[Errno 2] No such file or directory: 'bash'")))
       [JStr (py "--check")] 15
     = ((1%Z, [], py "[Errno 2] No such file or directory: 'bash'"),
        sim_empty (ProcError (py "[Errno 2] No such file or directory: 'bash'"))).
Proof.
  split.
  - exact (proj1 (run_analyzer_outcomes sim_cfg (sim_empty TimeoutExpired)
                    (sim_empty TimeoutExpired) [JStr (py "--check")] 15
                    TimeoutExpired eq_refl) eq_refl).
  - exact (proj1 (proj2 (run_analyzer_outcomes sim_cfg
                    (sim_empty (ProcError (py "[Errno 2] No such file or directory: 'bash'")))
                    (sim_empty (ProcError (py "[Errno 2] No such file or directory: 'bash'")))
                    [JStr (py "--check")] 15
                    (ProcError (py "[Errno 2] No such file or directory: 'bash'")) eq_refl))
                 _ eq_refl).
Defined.

(** C4 as stated fails: the exit code of a timeout is not distinct from
    every exit code of the analyzer; an analyzer that exits with 124 gives
    the same code. *)
Lemma timeout_code_not_distinct :
  (run_analyzer sim_cfg (sim_empty (Completed 124 [] (py "killed"))) [] 120).1.1.1
  = (run_analyzer sim_cfg (sim_empty TimeoutExpired) [] 120).1.1.1.
Proof. reflexivity. Qed.

(** The process started is [bash]: when [bash] cannot find the analyzer
    script it ends on its own with the code 127, and that code and its
    message are returned as they are, not the exit code 1. *)
Example run_analyzer_missing_script :
  run_analyzer sim_cfg
    (sim_empty (Completed 127 [] (py "bash: ./analyzer.sh: No such file or directory")))
    [JStr (py "--check")] 15
  = ((127%Z, [], py "bash: ./analyzer.sh: No such file or directory"),
     sim_empty (Completed 127 [] (py "bash: ./analyzer.sh: No such file or directory"))).
Proof. reflexivity. Qed.

(** ** Signature catalog *)

Lemma split_nonempty sep s : split sep s <> [].
Proof.
  destruct s as [|c s]; cbn [split]; [done|].
  destruct (ascii_eqb c sep); [done|]. by destruct (split sep s).
Qed.

Lemma col_map_fold_nonempty (l : list (nat * str)) (m : gmap str nat) :
  m <> ∅ \/ l <> [] ->
  foldl (fun m '(idx, name) => <[strip name := idx]> m) m l <> ∅.
Proof.
  revert m. induction l as [|[idx name] l IH]; intros m [H|H]; try done.
  - cbn [foldl]. apply IH. left. apply insert_non_empty.
  - cbn [foldl]. apply IH. left. apply insert_non_empty.
Qed.

Lemma make_col_map_nonempty parts : parts <> [] -> make_col_map parts <> ∅.
Proof.
  intros H. unfold make_col_map. apply col_map_fold_nonempty. right.
  by destruct parts.
Qed.

Lemma col_missing col_map parts name dflt :
  missing col_map parts name -> col col_map parts name dflt = dflt.
Proof.
  unfold col. intros [->|(idx & -> & Hle)]; [done|].
  destruct (Nat.ltb_spec idx (length parts)); [lia|done].
Qed.

(** Once a header was read, [col_map] is set and stays as it is. *)
Lemma registry_step_header col_map sigs line :
  col_map <> ∅ -> (registry_step (col_map, sigs) line).1 = col_map.
Proof.
  intros Hne. unfold registry_step.
  destruct (is_skipped (strip line)); [done|].
  destruct (decide (col_map = ∅)); [done|].
  by destruct (4 <=? length (split TAB (strip line)))%nat.
Qed.

Lemma registry_step_content st line :
  is_skipped (strip line) = false -> (registry_step st line).1 <> ∅.
Proof.
  destruct st as [col_map sigs]. intros Hl. unfold registry_step. rewrite Hl.
  destruct (decide (col_map = ∅)) as [->|Hne].
  - cbn [fst]. apply make_col_map_nonempty, split_nonempty.
  - by destruct (4 <=? length (split TAB (strip line)))%nat.
Qed.

Lemma registry_header_kept st lines :
  st.1 <> ∅ \/ header_seen lines -> (foldl registry_step st lines).1 <> ∅.
Proof.
  revert st. induction lines as [|l lines IH]; intros st H.
  - destruct H as [H|(l & Hl & _)]; [done|]. by apply elem_of_nil in Hl.
  - cbn [foldl]. apply IH.
    destruct H as [H|(l' & Hin & Hl')].
    + left. destruct st as [cm sigs]. by rewrite registry_step_header.
    + apply elem_of_cons in Hin as [->|Hin].
      * left. by apply registry_step_content.
      * right. by exists l'.
Qed.

(** A data row with fewer than four columns changes nothing. *)
Lemma registry_step_short col_map sigs row :
  col_map <> ∅ -> (length (split TAB (strip row)) < 4)%nat ->
  registry_step (col_map, sigs) row = (col_map, sigs).
Proof.
  intros Hne Hlen. unfold registry_step.
  destruct (is_skipped (strip row)); [done|].
  destruct (decide (col_map = ∅)); [done|].
  destruct (Nat.leb_spec 4 (length (split TAB (strip row)))); [lia|done].
Qed.

(** C7.  In the header-driven file a named column that the header lacks,
    or that lies beyond the end of the row, reads as the default given for
    it: [MEDIUM] for the severity, [false] for the on-site flag, the empty
    text otherwise; nothing raises.  A data row with fewer than four
    columns is skipped: the catalog is what it is without that row.  A row
    with four columns or more adds one entry. *)
Theorem registry_defaults_and_short_rows :
  (forall col_map parts name dflt,
     missing col_map parts name -> col col_map parts name dflt = dflt)
  /\ (forall col_map parts,
        (missing col_map parts (py "severity") ->
         dict_get (registry_entry col_map parts) (py "severity") = Some (py "MEDIUM"))
        /\ (missing col_map parts (py "onSiteServiceRequired") ->
            dict_get (registry_entry col_map parts) (py "onSiteRequired")
            = Some (py "false"))
        /\ (missing col_map parts (py "troubleshootingSteps") ->
            dict_get (registry_entry col_map parts) (py "fix") = Some [])
        /\ (missing col_map parts (py "name") ->
            dict_get (registry_entry col_map parts) (py "pattern") = Some []))
  /\ (forall sigs lines1 row lines2,
        header_seen lines1 ->
        (length (split TAB (strip row)) < 4)%nat ->
        load_registry sigs (lines1 ++ row :: lines2)
        = load_registry sigs (lines1 ++ lines2))
  /\ (forall col_map sigs row,
        col_map <> ∅ -> is_skipped (strip row) = false ->
        (4 <= length (split TAB (strip row)))%nat ->
        registry_step (col_map, sigs) row
        = (col_map, sigs ++ [registry_entry col_map (split TAB (strip row))])).
Proof.
  split; [exact col_missing|]. split; [|split].
  - intros col_map parts. repeat split; intros H; unfold registry_entry;
      rewrite (col_missing _ _ _ _ H); reflexivity.
  - intros sigs lines1 row lines2 Hh Hlen. unfold load_registry.
    rewrite !foldl_app. cbn [foldl].
    destruct (foldl registry_step (∅, sigs) lines1) as [cm sg] eqn:E.
    rewrite registry_step_short; [done| |done].
    change cm with (cm, sg).1. rewrite <- E. apply registry_header_kept. by right.
  - intros col_map sigs row Hne Hrow Hlen. unfold registry_step. rewrite Hrow.
    destruct (decide (col_map = ∅)); [done|].
    destruct (Nat.leb_spec 4 (length (split TAB (strip row)))); [done|lia].
Qed.

(** On the example registry the row of three columns is skipped, and the
    row that ends before the severity column gets [MEDIUM]. *)
Lemma registry_defaults_and_short_rows_witness :
  load_registry [] (take 3 sim_registry ++
                    (py "E43" ++ TAB :: py "net" ++ TAB :: py "too short" ++ [NL])
                    :: drop 4 sim_registry)
  = load_registry [] (take 3 sim_registry ++ drop 4 sim_registry)
  /\ dict_get (registry_entry
                 (make_col_map (split TAB (py "name" ++ TAB :: py "module" ++ TAB ::
                    py "description" ++ TAB :: py "errorType" ++ TAB :: py "severity")))
                 (split TAB (py "E44" ++ TAB :: py "disk" ++ TAB :: py "Disk full" ++
                    TAB :: py "fault")))
              (py "severity")
     = Some (py "MEDIUM").
Proof.
  destruct registry_defaults_and_short_rows as (_ & Hdflt & Hshort & _).
  split.
  - apply Hshort.
    + exists (py "name" ++ TAB :: py "module" ++ TAB :: py "description" ++ TAB ::
              py "errorType" ++ TAB :: py "severity" ++ [NL]).
      split; [|reflexivity].
      apply list_elem_of_In. right. left. reflexivity.
    + vm_compute. lia.
  - apply (proj1 (Hdflt _ _)). right. exists 4%nat. split.
    + vm_compute. reflexivity.
    + vm_compute. lia.
Defined.

Example load_registry_example :
  map (fun e => (dict_get e (py "pattern"), dict_get e (py "severity")))
      (load_registry [] sim_registry)
  = [ (Some (py "E42"), Some (py "HIGH")); (Some (py "E44"), Some (py "MEDIUM")) ].
Proof. vm_compute. reflexivity. Qed.

(** ** Request handlers *)

Lemma dict_get_set {V} (d : dict V) k v : dict_get (dict_set d k v) k = Some v.
Proof.
  induction d as [|[k' v'] d IH]; cbn [dict_set dict_get].
  - unfold str_eqb. by rewrite bool_decide_true.
  - destruct (str_eqb k' k) eqn:E; cbn [dict_get]; by rewrite E.
Qed.

Lemma split_app_sep sep a rest :
  sep ∉ a -> split sep (a ++ sep :: rest) = a :: split sep rest.
Proof.
  induction a as [|c a IH]; intros Hn.
  - cbn [app split]. by rewrite ascii_eqb_refl.
  - apply not_elem_of_cons in Hn as [Hc Ha]. cbn [app split].
    destruct (ascii_eqb c sep) eqn:E.
    + apply ascii_eqb_eq in E. congruence.
    + by rewrite IH.
Qed.

Lemma search_path_parts id :
  "/"%char ∉ id ->
  split "/"%char (py "/api/session/" ++ id ++ py "/search")
  = [[]; py "api"; py "session"; id; py "search"].
Proof.
  intros Hid.
  change (py "/api/session/" ++ id ++ py "/search")
    with ([] ++ "/"%char :: (py "api" ++ "/"%char ::
            (py "session" ++ "/"%char :: (id ++ "/"%char :: py "search")))).
  rewrite (split_app_sep _ []) by apply not_elem_of_nil.
  rewrite (split_app_sep _ (py "api"))
    by (intros H%list_elem_of_In; vm_compute in H; intuition discriminate).
  rewrite (split_app_sep _ (py "session"))
    by (intros H%list_elem_of_In; vm_compute in H; intuition discriminate).
  by rewrite (split_app_sep _ id).
Qed.

Section handlers.
Context {W : Type} `{!Host W} (cfg : config).
Variable post_upload post_compare post_fleet :
  post_request -> Z -> @hstate W -> result response * @hstate W.

Lemma do_GET_search_route (rq : get_request) sessions (w : W) id s :
  get_path rq = py "/api/session/" ++ id ++ py "/search" ->
  "/"%char ∉ id ->
  dict_get sessions id = Some s ->
  do_GET cfg rq (sessions, w)
  = match (match get_params rq !! py "max" with
           | None => Some 50%Z
           | Some v => py_int v
           end) with
    | None => (Raise (ValueError (default [] (get_params rq !! py "max"))), (sessions, w))
    | Some max =>
        let results :=
          search_logs w sessions id
            (default [] (get_params rq !! py "q"))
            (default [] (get_params rq !! py "severity"))
            (default [] (get_params rq !! py "component"))
            (default [] (get_params rq !! py "after"))
            (default [] (get_params rq !! py "before")) max in
        (Ok (JsonResponse 200
               (JDict [ (py "results", JList (map hit_json results));
                        (py "count", JNum (Z.of_nat (length results))) ])),
         (sessions, w))
    end.
Proof.
  intros Hpath Hid Hs. unfold do_GET. rewrite Hpath.
  unfold str_eqb.
  rewrite !bool_decide_false by (vm_compute; discriminate).
  cbn [orb].
  replace (startswith (py "/api/session/" ++ id ++ py "/search") (py "/api/session/"))
    with true by reflexivity.
  unfold get_session. rewrite Hpath, (search_path_parts id Hid).
  cbn [length Nat.ltb Nat.leb item nth]. rewrite Hs.
  unfold str_eqb.
  rewrite !bool_decide_false by (vm_compute; discriminate).
  rewrite bool_decide_true by reflexivity.
  reflexivity.
Qed.

(** C5, as the code has it.  [do_GET] and [do_POST] have no exception
    handler of their own: an exception raised while a request is handled
    leaves the handler, and no JSON response is written for it.  So it is
    for a search whose [max] parameter is no integer numeral, for a POST
    whose [Content-Length] header is no integer numeral, and for an analyze
    request whose body [json.loads] rejects.  What is caught lies inside
    the Process Runner: however the analyzer ends, timeout and failed
    launch included, the check route answers with a JSON response. *)
Theorem handler_exceptions_escape :
  (forall (rq : get_request) sessions (w : W) id s v,
     get_path rq = py "/api/session/" ++ id ++ py "/search" ->
     "/"%char ∉ id ->
     dict_get sessions id = Some s ->
     get_params rq !! py "max" = Some v ->
     py_int v = None ->
     do_GET cfg rq (sessions, w) = (Raise (ValueError v), (sessions, w)))
  /\ (forall (rq : post_request) st v,
        content_length rq = Some v -> py_int v = None ->
        do_POST cfg post_upload post_compare post_fleet rq st
        = (Raise (ValueError v), st))
  /\ (forall (rq : post_request) st n e,
        post_path rq = py "/api/analyze" ->
        match content_length rq with None => Some 0%Z | Some v => py_int v end = Some n ->
        json_loads (read_body n (post_body rq)) = Raise e ->
        do_POST cfg post_upload post_compare post_fleet rq st = (Raise e, st))
  /\ (forall (rq : get_request) sessions (w : W),
        get_path rq = py "/api/check" ->
        exists data w',
          do_GET cfg rq (sessions, w) = (Ok (JsonResponse 200 data), (sessions, w'))).
Proof.
  repeat split.
  - intros rq sessions w id s v Hpath Hid Hs Hmax Hv.
    rewrite (do_GET_search_route rq sessions w id s Hpath Hid Hs), Hmax, Hv. done.
  - intros rq st v Hcl Hv. unfold do_POST. by rewrite Hcl, Hv.
  - intros rq [sessions w] n e Hpath Hn Hbody. unfold do_POST.
    rewrite Hn, Hpath. unfold str_eqb.
    rewrite bool_decide_false by (vm_compute; discriminate).
    rewrite bool_decide_true by reflexivity.
    unfold post_analyze. by rewrite Hbody.
  - intros rq sessions w Hpath. unfold do_GET. rewrite Hpath.
    unfold str_eqb. rewrite !bool_decide_false by (vm_compute; discriminate).
    rewrite bool_decide_true by reflexivity. cbn [orb].
    destruct (run_analyzer cfg w [JStr (py "--check")] 15) as [[[rc out] err] w'].
    by eexists _, _.
Qed.

(** C9.  For every analyze request on a known session the handler answers
    with a JSON response whose [ok] flag is true exactly when the reports
    directory lists at least one entry after the run; the exit code of the
    analyzer, returned beside it, plays no part in the flag.  When [ok] is
    true the session ends in state [done], also after a non-zero exit code;
    when it is false the state follows the exit code. *)
Theorem analyze_ok_iff_reports (rq : post_request) sessions (w : W) n kv k s :
  post_path rq = py "/api/analyze" ->
  match content_length rq with None => Some 0%Z | Some v => py_int v end = Some n ->
  json_loads (read_body n (post_body rq)) = Ok (JDict kv) ->
  dict_get kv (py "session_id") = Some (JStr k) ->
  dict_get sessions k = Some s ->
  exists args rc out err w' sessions' s' ok reports,
    run_analyzer cfg w args 180 = ((rc, out, err), w')
    /\ reports = map basename (os_glob w' (path_join (reports_dir s) (py "*")))
    /\ do_POST cfg post_upload post_compare post_fleet rq (sessions, w)
       = (Ok (JsonResponse 200
                (JDict [ (py "ok", JBool ok); (py "exit_code", JNum rc);
                         (py "output", JStr (strip_ansi out));
                         (py "errors", JStr (strip_ansi err));
                         (py "reports", JList (map JStr reports));
                         (py "session_id", JStr k) ])),
          (sessions', w'))
    /\ dict_get sessions' k = Some s'
    /\ (ok = true <-> reports <> [])
    /\ (ok = true -> state s' = py "done")
    /\ (ok = false -> state s' = if (rc =? 0)%Z then py "done" else py "error").
Proof.
  intros Hpath Hn Hbody Hid Hs. unfold do_POST.
  rewrite Hn, Hpath. unfold str_eqb.
  rewrite bool_decide_false by (vm_compute; discriminate).
  rewrite bool_decide_true by reflexivity.
  unfold post_analyze. rewrite Hbody. cbn [json_get]. rewrite Hid. cbn [default].
  change (id (JStr k)) with (JStr k). cbn [lookup_session]. rewrite Hs.
  match goal with
  | |- context [run_analyzer cfg w ?a 180] =>
      exists a; destruct (run_analyzer cfg w a 180) as [[[rc out] err] w'] eqn:Hrun
  end.
  exists rc, out, err, w'.
  set (reports := map basename (os_glob w' (path_join (reports_dir s) (py "*")))).
  assert (ok_iff : (0 <? length reports)%nat = true <-> reports <> []).
  { rewrite Nat.ltb_lt. destruct reports; cbn [length]; split; (done || lia). }
  destruct (re_search device_re (strip_ansi out)) as [m|];
    cbn [reports_dir set_state set_device_id set_stderr set_stdout set_analysis_mode];
    fold reports;
    (eexists _, _, (0 <? length reports)%nat, reports;
     split; [reflexivity|]; split; [reflexivity|];
     split; [reflexivity|]; split; [apply dict_get_set|];
     split; [exact ok_iff|]; split; intros ->; cbn [state]; reflexivity).
Qed.
End handlers.

(** A search whose [max] is [abc] on a known session: C5 as stated fails,
    the [ValueError] of [int] leaves [do_GET] and nothing is written. *)
Lemma do_GET_raises_on_bad_max :
  do_GET sim_cfg sim_search_request (sim_sessions [], sim_parsed)
  = (Raise (ValueError (py "abc")), (sim_sessions [], sim_parsed)).
Proof. vm_compute. reflexivity. Qed.

Lemma handler_exceptions_escape_witness :
  do_GET sim_cfg sim_search_request (sim_sessions [], sim_parsed)
  = (Raise (ValueError (py "abc")), (sim_sessions [], sim_parsed))
  /\ do_POST sim_cfg sim_route sim_route sim_route
       (PostRequest (py "/api/analyze") (Some (py "12 bytes")) None sim_body)
       (sim_sessions [], sim_parsed)
     = (Raise (ValueError (py "12 bytes")), (sim_sessions [], sim_parsed))
  /\ do_POST sim_cfg sim_route sim_route sim_route
       (PostRequest (py "/api/analyze") (Some (py "4")) None (py "oops"))
       (sim_sessions [], sim_parsed)
     = (Raise (JSONDecodeError (py "oops")), (sim_sessions [], sim_parsed)).
Proof.
  destruct (handler_exceptions_escape sim_cfg sim_route sim_route sim_route)
    as (Hget & Hlen & Hjson & _).
  split; [|split].
  - apply (Hget sim_search_request (sim_sessions []) sim_parsed (py "0123456789ab")
             (sim_session [])).
    + reflexivity.
    + intros H%list_elem_of_In. vm_compute in H. intuition discriminate.
    + reflexivity.
    + vm_compute. reflexivity.
    + reflexivity.
  - apply Hlen; reflexivity.
  - apply (Hjson _ _ 4%Z); reflexivity.
Defined.

(** The analyzer exits with code 2 and leaves one report: [ok] is true and
    the session is [done]. *)
Lemma analyze_ok_iff_reports_witness :
  exists sessions' s',
    do_POST sim_cfg sim_route sim_route sim_route sim_analyze_request
            (sim_sessions [], sim_failed_run)
    = (Ok (JsonResponse 200
             (JDict [ (py "ok", JBool true); (py "exit_code", JNum 2);
                      (py "output", JStr (py "Device ID: EVSE-7" ++ [NL]));
                      (py "errors", JStr (py "parse error"));
                      (py "reports", JList [JStr (py "analysis.md")]);
                      (py "session_id", JStr (py "0123456789ab")) ])),
       (sessions', (run_bash sim_failed_run [] 180).2))
    /\ dict_get sessions' (py "0123456789ab") = Some s'
    /\ state s' = py "done".
Proof.
  destruct (analyze_ok_iff_reports sim_cfg sim_route sim_route sim_route
              sim_analyze_request (sim_sessions []) sim_failed_run 30
              [(py "session_id", JStr (py "0123456789ab"))] (py "0123456789ab")
              (sim_session []) eq_refl ltac:(vm_compute; reflexivity)
              ltac:(vm_compute; reflexivity) eq_refl eq_refl)
    as (args & rc & out & err & w' & sessions' & s' & ok & reports
        & Hrun & Hrep & Hpost & Hget & Hiff & Hdone & _).
  injection Hrun as <- <- <- <-.
  assert (reports = [py "analysis.md"]) as -> by (rewrite Hrep; vm_compute; reflexivity).
  assert (ok = true) as -> by (apply Hiff; discriminate).
  exists sessions', s'. split; [|split; [exact Hget|by apply Hdone]].
  rewrite Hpost. vm_compute. reflexivity.
Defined.

(** ** More on the matcher: lazy repetition, alternatives, [finditer] *)

Section matcher_lazy.
Context {R : Type}.
Implicit Types (k : str -> groups -> option R).

Lemma rmatch_lazy_cons a c s g k :
  rmatch (LazyStar (Atom a)) (c :: s) g k
  = or_else (k (c :: s) g)
            (if atom_ok a c then rmatch (LazyStar (Atom a)) s g k else None).
Proof.
  cbn [rmatch length].
  destruct (atom_ok a c); [|reflexivity].
  replace (length s <? S (length s))%nat with true; [reflexivity|].
  symmetry. apply Nat.ltb_lt. lia.
Qed.

Lemma rmatch_lazy_nil a g k : rmatch (LazyStar (Atom a)) [] g k = k [] g.
Proof. reflexivity. Qed.

Lemma rmatch_lazy_inv a s g k x :
  rmatch (LazyStar (Atom a)) s g k = Some x ->
  exists run rest, s = run ++ rest /\ Forall (fun c => atom_ok a c = true) run
                   /\ k rest g = Some x.
Proof.
  induction s as [|c s IH].
  - rewrite rmatch_lazy_nil. intros H. exists [], []. by repeat split.
  - rewrite rmatch_lazy_cons.
    destruct (k (c :: s) g) as [y|] eqn:Ek; cbn [or_else].
    + intros [= <-]. exists [], (c :: s). by repeat split.
    + destruct (atom_ok a c) eqn:E; [|discriminate].
      intros H. destruct (IH H) as (run & rest & -> & Hrun & Hk).
      exists (c :: run), rest. repeat split; [by constructor|done].
Qed.

Lemma rmatch_alt_inv r1 r2 s g k x :
  rmatch (Alt r1 r2) s g k = Some x ->
  rmatch r1 s g k = Some x \/ rmatch r2 s g k = Some x.
Proof.
  cbn [rmatch]. destruct (rmatch r1 s g k); cbn [or_else]; auto.
Qed.

Lemma rmatch_group_lazy_plus_inv n a s g k x :
  rmatch (Group n (LazyPlus (Atom a))) s g k = Some x ->
  exists c run rest, s = c :: run ++ rest /\ atom_ok a c = true
                     /\ Forall (fun c => atom_ok a c = true) run
                     /\ k rest ((n, c :: run) :: g) = Some x.
Proof.
  rewrite rmatch_group. unfold LazyPlus. rewrite rmatch_cat.
  intros (c & s' & -> & Hc & H)%rmatch_atom_inv.
  apply rmatch_lazy_inv in H as (run & rest & -> & Hrun & H).
  change (c :: run ++ rest) with ((c :: run) ++ rest) in H.
  rewrite take_consumed in H. by exists c, run, rest.
Qed.

(** The group of the severity keywords captures one of the four. *)
Lemma rmatch_severity_inv s g k x :
  rmatch (Group 1 severity_alt) s g k = Some x ->
  exists kw rest, s = kw ++ rest /\ kw ∈ severity_levels
                  /\ k rest ((1%nat, kw) :: g) = Some x.
Proof.
  rewrite rmatch_group. unfold severity_alt. intros H.
  repeat (apply rmatch_alt_inv in H as [H|H]);
    apply rmatch_str_inv in H as (rest & -> & H); rewrite take_consumed in H;
    eexists _, rest; (split; [reflexivity|]); (split; [|exact H]);
    unfold severity_levels; set_solver.
Qed.
End matcher_lazy.

(** Every match [finditer] yields is a match of the pattern at some
    position of the text. *)
Lemma finditer_from_inv r s skip m :
  m ∈ finditer_from r s skip -> exists i, match_here r (drop i s) = Some m.
Proof.
  revert skip. induction s as [|c s IH]; intros skip; cbn [finditer_from].
  - destruct skip; [|by intros ?%elem_of_nil].
    destruct (match_here r []) as [m'|] eqn:E; [|by intros ?%elem_of_nil].
    intros ->%list_elem_of_singleton. by exists 0%nat.
  - destruct skip as [|n].
    + destruct (match_here r (c :: s)) as [m'|] eqn:E.
      * intros [->|H]%elem_of_cons; [by exists 0%nat|].
        destruct (IH _ H) as [i Hi]. by exists (S i).
      * intros H. destruct (IH _ H) as [i Hi]. by exists (S i).
    + intros H. destruct (IH _ H) as [i Hi]. by exists (S i).
Qed.

(** ** White space at the ends *)

Lemma lstrip_head s c s' : lstrip s = c :: s' -> isspace c = false.
Proof.
  induction s as [|d s IH]; cbn [lstrip]; [discriminate|].
  destruct (isspace d) eqn:E; [exact IH|]. by intros [= <- <-].
Qed.

Lemma lstrip_suffix s : exists pre, s = pre ++ lstrip s.
Proof.
  induction s as [|d s [pre IH]]; cbn [lstrip]; [by exists []|].
  destruct (isspace d); [|by exists []].
  exists (d :: pre). cbn [app]. by f_equal.
Qed.

Lemma rstrip_prefix s : exists suf, s = rstrip s ++ suf.
Proof.
  unfold rstrip. destruct (lstrip_suffix (rev s)) as [pre E].
  exists (rev pre). rewrite <- rev_app_distr, <- E. by rewrite rev_involutive.
Qed.

Lemma rstrip_last s c s' : rstrip s = s' ++ [c] -> isspace c = false.
Proof.
  unfold rstrip. intros E. apply (f_equal (@rev ascii)) in E.
  rewrite rev_involutive, rev_app_distr in E. cbn in E.
  by apply lstrip_head in E.
Qed.

Lemma strip_trimmed s : trimmed (strip s).
Proof.
  split; intros c s' E.
  - unfold strip in E. destruct (rstrip_prefix (lstrip s)) as [suf Hs].
    rewrite E in Hs. cbn [app] in Hs. by apply lstrip_head in Hs.
  - by apply rstrip_last in E.
Qed.

Lemma strip_subseteq s c : c ∈ strip s -> c ∈ s.
Proof.
  unfold strip. intros Hc.
  destruct (rstrip_prefix (lstrip s)) as [suf E1].
  destruct (lstrip_suffix s) as [pre E2].
  rewrite E2, E1. set_solver.
Qed.

(** ** What the extracted fields can hold *)

Lemma rmatch_line_end_inv {R} s g (k : str -> groups -> option R) x :
  rmatch line_end s g k = Some x -> exists rest, k rest g = Some x.
Proof.
  unfold line_end. cbn [rmatch]. intros H.
  destruct s as [|c s].
  - cbn [or_else] in H. by exists [].
  - destruct (atom_ok (Lit NL) c).
    + destruct (k s g) eqn:E; cbn [or_else] in H.
      * injection H as <-. by exists s.
      * destruct s; [|discriminate]. destruct (ascii_eqb c NL); [|discriminate].
        by exists [c].
    + cbn [or_else] in H. destruct s; [|discriminate].
      destruct (ascii_eqb c NL); [|discriminate]. by exists [c].
Qed.

Lemma title_tail_inv s g m :
  rmatch (Cat (Plus (Atom Space)) (Cat (Group 2 (LazyPlus (Atom Dot))) line_end)) s g
         (fun s' g' => Some (MatchObj s' g')) = Some m ->
  exists t, m_groups m = (2%nat, t) :: g /\ t <> [] /\ (NL ∉ t).
Proof.
  intros H.
  rewrite rmatch_cat in H. apply rmatch_plus_inv in H as (? & ? & s1 & -> & _ & _ & H).
  rewrite rmatch_cat in H.
  apply rmatch_group_lazy_plus_inv in H as (c & run & s2 & -> & Hc & Hrun & H).
  apply rmatch_line_end_inv in H as (rest & H). injection H as <-.
  exists (c :: run). cbn [m_groups]. repeat split; [done|].
  assert (Forall (fun c => atom_ok Dot c = true) (c :: run)) as Hall by by constructor.
  intros Hin. rewrite Forall_forall in Hall. specialize (Hall _ Hin).
  cbn in Hall. by rewrite ascii_eqb_refl in Hall.
Qed.

Lemma issue_re_inv s m :
  match_here issue_re s = Some m ->
  exists kw t, m_groups m = [(2%nat, t); (1%nat, kw)]
               /\ (kw ∈ severity_levels) /\ t <> [] /\ (NL ∉ t).
Proof.
  unfold match_here, issue_re. cbn [Seq]. intros H.
  rewrite rmatch_cat in H. apply rmatch_lit_inv in H as (s1 & -> & H).
  rewrite rmatch_cat in H. apply rmatch_plus_inv in H as (? & ? & s2 & -> & _ & _ & H).
  rewrite rmatch_cat in H. apply rmatch_plus_inv in H as (? & ? & s3 & -> & _ & _ & H).
  rewrite rmatch_cat in H. apply rmatch_severity_inv in H as (kw & s4 & -> & Hkw & H).
  apply title_tail_inv in H as (t & Hg & Ht & Hnl). by exists kw, t.
Qed.

Lemma bracket_re_inv s m :
  match_here bracket_re s = Some m ->
  exists kw t, m_groups m = [(2%nat, t); (1%nat, kw)]
               /\ (kw ∈ severity_levels) /\ t <> [] /\ (NL ∉ t).
Proof.
  unfold match_here, bracket_re. cbn [Seq]. intros H.
  rewrite rmatch_cat in H. apply rmatch_lit_inv in H as (s1 & -> & H).
  rewrite rmatch_cat in H. apply rmatch_severity_inv in H as (kw & s2 & -> & Hkw & H).
  rewrite rmatch_cat in H. apply rmatch_lit_inv in H as (s3 & -> & H).
  apply title_tail_inv in H as (t & Hg & Ht & Hnl). by exists kw, t.
Qed.

Lemma finding_of_well_formed m :
  (exists kw t, m_groups m = [(2%nat, t); (1%nat, kw)]
                /\ (kw ∈ severity_levels) /\ t <> [] /\ (NL ∉ t)) ->
  (severity (finding_of m) ∈ severity_levels)
  /\ (NL ∉ title (finding_of m)) /\ trimmed (title (finding_of m)).
Proof.
  intros (kw & t & Hg & Hkw & _ & Hnl).
  unfold finding_of, m_group. rewrite Hg. cbn.
  repeat split; try done.
  - intros H%strip_subseteq. by apply Hnl.
  - apply (strip_trimmed t).
  - apply (strip_trimmed t).
Qed.

Lemma extract_issues_well_formed out f :
  f ∈ extract_issues out ->
  (severity f ∈ severity_levels) /\ (NL ∉ title f) /\ trimmed (title f).
Proof.
  rewrite extract_issues_cases.
  destruct (re_finditer issue_re out) as [|m0 ms] eqn:E.
  - intros (m & -> & Hm)%list_elem_of_fmap.
    apply finditer_from_inv in Hm as [i Hi].
    by apply finding_of_well_formed, (bracket_re_inv _ _ Hi).
  - rewrite <- E. intros (m & -> & Hm)%list_elem_of_fmap.
    apply finditer_from_inv in Hm as [i Hi].
    by apply finding_of_well_formed, (issue_re_inv _ _ Hi).
Qed.

Lemma digits_fold_nonneg ds acc :
  (0 <= acc)%Z -> (0 <= foldl (fun acc c => 10 * acc + digit_val c) acc ds)%Z.
Proof.
  revert acc. induction ds as [|c ds IH]; intros acc Hacc; cbn [foldl]; [done|].
  apply IH. unfold digit_val. lia.
Qed.

Lemma Z_of_digits_nonneg ds : (0 <= Z_of_digits ds)%Z.
Proof. by apply digits_fold_nonneg. Qed.

Lemma device_re_inv s m :
  match_here device_re s = Some m ->
  exists d, m_groups m = [(1%nat, d)] /\ d <> []
            /\ Forall (fun c => isspace c = false) d.
Proof.
  unfold match_here, device_re. cbn [Seq]. intros H.
  rewrite rmatch_cat in H. apply rmatch_str_inv in H as (s1 & -> & H).
  rewrite rmatch_cat in H. apply rmatch_lazy_inv in H as (? & s2 & -> & _ & H).
  rewrite rmatch_cat in H. apply rmatch_lit_inv in H as (s3 & -> & H).
  rewrite rmatch_cat in H. apply rmatch_star_inv in H as (? & s4 & -> & _ & H).
  apply rmatch_group_plus_inv in H as (c & run & s5 & -> & Hc & Hrun & H).
  injection H as <-. exists (c :: run). cbn [m_groups]. repeat split; [done|].
  constructor.
  - cbn in Hc. by apply negb_true_iff in Hc.
  - eapply Forall_impl; [exact Hrun|]. cbn. intros y Hy. by apply negb_true_iff in Hy.
Qed.

Lemma extract_device_well_formed out d :
  extract_device out = Some d ->
  d <> [] /\ Forall (fun c => isspace c = false) d.
Proof.
  unfold extract_device.
  destruct (re_search device_re out) as [m|] eqn:E; [|discriminate].
  intros [= <-]. apply re_search_inv in E as [i Hi].
  apply device_re_inv in Hi as (d & Hg & Hne & Hd).
  unfold m_group. rewrite Hg. by cbn.
Qed.

Lemma extract_health_well_formed out h :
  extract_health out = Ok (Some h) ->
  (0 <= score h)%Z /\ exists g, grade h = [g] /\ is_grade g = true.
Proof.
  rewrite extract_health_cases. intros H.
  assert (forall r m,
            (forall s m, match_here r s = Some m ->
               exists ds g, m_groups m = [(2%nat, [g]); (1%nat, ds)] /\ ds <> []
                 /\ Forall (fun c => isdigit c = true) ds /\ is_grade g = true) ->
            re_search r out = Some m ->
            (if (length (m_group m 1) <=? int_max_str_digits)%nat
             then Ok (Some (Health (Z_of_digits (m_group m 1)) (m_group m 2)))
             else Raise (ValueError (m_group m 1))) = Ok (Some h) ->
            (0 <= score h)%Z /\ exists g, grade h = [g] /\ is_grade g = true) as Hcase.
  { intros r m Hinv [i Hi]%re_search_inv.
    destruct (length (m_group m 1) <=? int_max_str_digits)%nat; [|discriminate].
    intros [= <-].
    destruct (Hinv _ _ Hi) as (ds & g & Hg & _ & _ & Hgr).
    unfold m_group. rewrite Hg. cbn. split; [apply Z_of_digits_nonneg|by exists g]. }
  destruct (re_search health_re1 out) as [m|] eqn:E1.
  - by eapply (Hcase _ _ health_re1_inv E1).
  - destruct (re_search health_re2 out) as [m|] eqn:E2; [|discriminate].
    by eapply (Hcase _ _ health_re2_inv E2).
Qed.

Section extractor_fields.
Context {W : Type} `{!Host W}.

(** X1.  Every issue of a result dictionary has one of the four severity
    keywords, and its title holds no newline and neither starts nor ends
    with white space (it may be empty). *)
Theorem issues_well_formed (w : W) sessions id r f :
  parse_session_results w sessions id = Ok (Some r) ->
  f ∈ issues r ->
  (severity f ∈ severity_levels) /\ (NL ∉ title f) /\ trimmed (title f).
Proof.
  intros (s & _ & Hi & _)%parse_session_results_inv. rewrite Hi.
  apply extract_issues_well_formed.
Qed.

(** X2.  A health record, when there is one, has a score that is not
    negative and a grade of exactly one letter A..F; the score is not
    capped at 100. *)
Theorem health_well_formed (w : W) sessions id r h :
  parse_session_results w sessions id = Ok (Some r) ->
  health r = Some h ->
  (0 <= score h)%Z /\ exists g, grade h = [g] /\ is_grade g = true.
Proof.
  intros (s & _ & _ & Hh & _)%parse_session_results_inv Hr. rewrite Hr in Hh.
  by apply (extract_health_well_formed (stdout s)).
Qed.

(** X3.  A device identifier, when one is extracted, is not empty and
    holds no white space. *)
Theorem device_id_well_formed (w : W) sessions id r d :
  parse_session_results w sessions id = Ok (Some r) ->
  device_info r = Some d ->
  d <> [] /\ Forall (fun c => isspace c = false) d.
Proof.
  intros (s & _ & _ & _ & Hd & _)%parse_session_results_inv Hr. rewrite Hr in Hd.
  by apply (extract_device_well_formed (stdout s)).
Qed.

(** X4.  The reports of a result dictionary are the entries the reports
    directory lists, one each, in sorted order of their paths whatever the
    order of the listing, each named by the last component of its path. *)
Theorem reports_sorted_listing (w : W) sessions id s r files :
  dict_get sessions id = Some s ->
  parse_session_results w sessions id = Ok (Some r) ->
  files ≡ₚ os_glob w (path_join (reports_dir s) (py "*")) ->
  map path (reports r) = sorted files
  /\ Sorted str_le (map path (reports r))
  /\ map path (reports r) ≡ₚ files
  /\ map name (reports r) = map basename (sorted files).
Proof.
  intros Hs (s' & Hs' & _ & _ & _ & Hr & Hn & _)%parse_session_results_inv Hp.
  rewrite Hs in Hs'. injection Hs' as <-.
  rewrite Hr, Hn, <- (sorted_perm _ _ Hp).
  repeat split; [apply sorted_Sorted|].
  unfold sorted. apply merge_sort_Permutation.
Qed.
End extractor_fields.

Lemma issues_well_formed_witness :
  (py "LOW" ∈ severity_levels) /\ (NL ∉ py "spaced  title")
  /\ trimmed (py "spaced  title").
Proof.
  apply (issues_well_formed (sim_empty TimeoutExpired) (sim_sessions out_device)
           (py "0123456789ab")
           (Results [Finding (py "LOW") (py "spaced  title")]
                    (Some (Health 250 (py "A"))) [] (Some (py "EVSE-7")))
           (Finding (py "LOW") (py "spaced  title"))).
  - vm_compute. reflexivity.
  - apply list_elem_of_In. left. reflexivity.
Defined.

Lemma health_well_formed_witness :
  (0 <= 250)%Z /\ exists g, py "A" = [g] /\ is_grade g = true.
Proof.
  apply (health_well_formed (sim_empty TimeoutExpired) (sim_sessions out_device)
           (py "0123456789ab")
           (Results [Finding (py "LOW") (py "spaced  title")]
                    (Some (Health 250 (py "A"))) [] (Some (py "EVSE-7")))
           (Health 250 (py "A"))).
  - vm_compute. reflexivity.
  - reflexivity.
Defined.

Lemma device_id_well_formed_witness :
  py "EVSE-7" <> [] /\ Forall (fun c => isspace c = false) (py "EVSE-7").
Proof.
  apply (device_id_well_formed (sim_empty TimeoutExpired) (sim_sessions out_device)
           (py "0123456789ab")
           (Results [Finding (py "LOW") (py "spaced  title")]
                    (Some (Health 250 (py "A"))) [] (Some (py "EVSE-7")))).
  - vm_compute. reflexivity.
  - reflexivity.
Defined.

Lemma reports_sorted_listing_witness :
  exists r, parse_session_results sim_reports (sim_sessions []) (py "0123456789ab")
            = Ok (Some r)
    /\ map name (reports r) = [py "analysis.md"; py "summary.md"].
Proof.
  destruct (parse_session_results sim_reports (sim_sessions []) (py "0123456789ab"))
    as [[r|]|e] eqn:Hr; [|vm_compute in Hr; discriminate..].
  exists r. split; [reflexivity|].
  destruct (reports_sorted_listing sim_reports (sim_sessions []) (py "0123456789ab")
              (sim_session []) r
              [py "/srv/loggy/lib/sessions/0123456789ab/reports/analysis.md";
               py "/srv/loggy/lib/sessions/0123456789ab/reports/summary.md"]
              eq_refl Hr (perm_swap _ _ _)) as (_ & _ & _ & ->).
  vm_compute. reflexivity.
Defined.

(** ** Text normalisation, again *)

Lemma kept_esc : kept ESC = false.
Proof. reflexivity. Qed.

Lemma filter_kept_no_esc s : ESC ∉ List.filter kept s.
Proof. rewrite list_elem_of_In, filter_In. by intros [_ H]. Qed.

Lemma filter_idem {A} (p : A -> bool) (l : list A) :
  List.filter p (List.filter p l) = List.filter p l.
Proof.
  induction l as [|x l IH]; [done|]. cbn [List.filter].
  destruct (p x) eqn:E; [|done]. cbn [List.filter]. by rewrite E, IH.
Qed.

Lemma filter_all {A} (p : A -> bool) (l : list A) :
  Forall (fun x => p x = true) l -> List.filter p l = l.
Proof.
  induction 1 as [|x l Hx _ IH]; [done|]. cbn [List.filter]. by rewrite Hx, IH.
Qed.

(** X5.  Normalising twice is normalising once; and a text in which every
    character is one [strip_ansi] keeps (no ESC, no deleted control
    character) comes back unchanged. *)
Theorem strip_ansi_idempotent (s : str) :
  strip_ansi (strip_ansi s) = strip_ansi s
  /\ (Forall (fun c => kept c = true) s -> strip_ansi s = s).
Proof.
  split.
  - rewrite (strip_ansi_filter (strip_ansi s)), (strip_ansi_filter s).
    rewrite ansi_sub_no_esc by apply filter_kept_no_esc. apply filter_idem.
  - intros Hs. rewrite strip_ansi_filter, ansi_sub_no_esc.
    + by apply filter_all.
    + intros Hin. rewrite Forall_forall in Hs. specialize (Hs _ Hin). discriminate.
Qed.

Lemma strip_ansi_idempotent_witness :
  strip_ansi (py "Health Score: 87/100" ++ [TAB; CR; NL])
  = py "Health Score: 87/100" ++ [TAB; CR; NL].
Proof.
  apply (proj2 (strip_ansi_idempotent _)).
  apply Forall_forall. intros c Hc. apply list_elem_of_In in Hc.
  vm_compute in Hc. intuition (subst; reflexivity).
Defined.

(** ** Log search, again *)

Section search_hits.
Context {W : Type} `{!Host W}.
Implicit Types (w : W) (results : list hit).

Lemma scan_lines_Forall (P : hit -> Prop) severity sev_str component fname max
    lines results :
  Forall P results ->
  (forall l, l ∈ lines -> passes severity sev_str component l = true ->
             P (Hit (Some fname) (take 300 l))) ->
  Forall P (scan_lines severity sev_str component fname max lines results).1.
Proof.
  revert results. induction lines as [|l lines IH]; intros results Hres Hl; [done|].
  rewrite scan_lines_cons.
  assert (forall l', l' ∈ lines -> passes severity sev_str component l' = true ->
                     P (Hit (Some fname) (take 300 l'))) as Hl'.
  { intros l' Hin. apply Hl. by right. }
  destruct (passes severity sev_str component l) eqn:Ep; [|by apply IH].
  assert (Forall P (results ++ [Hit (Some fname) (take 300 l)])) as Hres'.
  { apply Forall_app. split; [done|]. constructor; [|done]. apply Hl; [by left|done]. }
  destruct (max <=? _)%Z; [done|by apply IH].
Qed.

Lemma scan_files_Forall (P : hit -> Prop) w pattern severity sev_str component max
    files results :
  Forall P results ->
  (forall f out l, f ∈ files -> run_grep w pattern f = Some out ->
     l ∈ split NL (strip out) -> passes severity sev_str component l = true ->
     P (Hit (Some (basename f)) (take 300 l))) ->
  Forall P (scan_files w pattern severity sev_str component max files results).
Proof.
  revert results. induction files as [|f files IH]; intros results Hres Hf; [done|].
  cbn [scan_files].
  assert (forall f' out l, f' ∈ files -> run_grep w pattern f' = Some out ->
            l ∈ split NL (strip out) -> passes severity sev_str component l = true ->
            P (Hit (Some (basename f')) (take 300 l))) as Hf'.
  { intros f' out l Hin. apply Hf. by right. }
  destruct (run_grep w pattern f) as [out|] eqn:Eg; [|by apply IH].
  pose proof (scan_lines_Forall P severity sev_str component (basename f) max
                (split NL (strip out)) results Hres) as Hlines.
  destruct (scan_lines _ _ _ _ _ _ _) as [res returned]. cbn [fst] in Hlines.
  assert (Forall P res) as Hres'.
  { apply Hlines. intros l Hl Hp. eapply Hf; [by left|done..]. }
  destruct returned; [done|by apply IH].
Qed.

Lemma passes_inv severity sev_str component l :
  passes severity sev_str component l = true ->
  l <> []
  /\ (nonempty severity = true -> nonempty sev_str = true ->
      contains sev_str l = true)
  /\ (nonempty component = true -> contains (lower component) (lower l) = true).
Proof.
  unfold passes. intros [[H1 H2]%andb_true_iff H3]%andb_true_iff.
  repeat split.
  - by destruct l.
  - intros Hs Ht. rewrite Hs, Ht in H2. cbn in H2.
    by destruct (contains sev_str l).
  - intros Hc. rewrite Hc in H3. cbn in H3.
    by destruct (contains (lower component) (lower l)).
Qed.

Lemma search_hits_Forall (P : hit -> Prop) w sessions id s pattern severity
    component after before max :
  dict_get sessions id = Some s ->
  os_isdir w (path_join (work_dir s) (py "parsed")) = true ->
  (forall f out l,
     f ∈ os_glob w (path_join (path_join (work_dir s) (py "parsed")) (py "*.parsed")) ->
     run_grep w pattern f = Some out -> l ∈ split NL (strip out) ->
     passes severity (sev_token severity) component l = true ->
     P (Hit (Some (basename f)) (take 300 l))) ->
  Forall P (search_logs w sessions id pattern severity component after before max).
Proof.
  intros Hs Hd HP. rewrite (search_logs_known _ _ _ _ _ _ _ _ _ _ Hs Hd).
  apply scan_files_Forall; [constructor|].
  intros f out l Hf. apply HP.
  unfold sorted in Hf. by rewrite merge_sort_Permutation in Hf.
Qed.

(** X6.  When the session and its parsed-logs directory exist, every hit
    of a search, whatever the cap, stems from a line of the [grep] output
    of one of the listed [.parsed] files: the hit names that file by its
    base name, and its text is the first 300 characters of a line that is
    not empty, that holds the marker of a known severity code when one was
    asked for, and that holds the component text when one was asked for,
    upper and lower case alike.  The filters see the whole line, the hit
    only keeps its first 300 characters. *)
Theorem search_hits_sound w sessions id s pattern severity component after before
    max h :
  dict_get sessions id = Some s ->
  os_isdir w (path_join (work_dir s) (py "parsed")) = true ->
  h ∈ search_logs w sessions id pattern severity component after before max ->
  exists f out l,
    f ∈ os_glob w (path_join (path_join (work_dir s) (py "parsed")) (py "*.parsed"))
    /\ run_grep w pattern f = Some out
    /\ l ∈ split NL (strip out)
    /\ h = Hit (Some (basename f)) (take 300 l)
    /\ l <> []
    /\ (sev_token severity <> [] -> contains (sev_token severity) l = true)
    /\ (component <> [] -> contains (lower component) (lower l) = true).
Proof.
  intros Hs Hd. revert h. apply Forall_forall.
  apply (search_hits_Forall _ _ _ _ _ _ _ _ _ _ _ Hs Hd).
  intros f out l Hf Hg Hl Hp. exists f, out, l.
  apply passes_inv in Hp as (Hne & Hsev & Hcomp).
  repeat split; try done.
  - intros Ht. apply Hsev.
    + unfold sev_token in Ht. by destruct (nonempty severity).
    + by destruct (sev_token severity).
  - intros Hc. apply Hcomp. by destruct component.
Qed.

(** X7.  No hit of any search carries more than 300 characters of text,
    the placeholder hit included. *)
Theorem search_hits_bounded w sessions id pattern severity component after before
    max h :
  h ∈ search_logs w sessions id pattern severity component after before max ->
  (length (line h) <= 300)%nat.
Proof.
  destruct (dict_get sessions id) as [s|] eqn:Hs.
  - destruct (os_isdir w (path_join (work_dir s) (py "parsed"))) eqn:Hd.
    + revert h. apply Forall_forall.
      apply (search_hits_Forall _ _ _ _ _ _ _ _ _ _ _ Hs Hd).
      intros f out l _ _ _ _. cbn [line]. rewrite length_take. lia.
    + unfold search_logs. rewrite Hs, Hd. cbn [negb].
      intros ->%list_elem_of_singleton. vm_compute. lia.
  - unfold search_logs. rewrite Hs. by intros ?%elem_of_nil.
Qed.
End search_hits.

Section search_cap.
Context {W : Type} `{!Host W}.

(** X8.  Raising the cap only adds hits at the end: for caps of at least
    1, the result under the smaller cap is the start of the result under
    the larger one. *)
Theorem search_logs_cap_prefix (w : W) sessions id pattern severity component
    after before (max max' : Z) :
  (1 <= max <= max')%Z ->
  search_logs w sessions id pattern severity component after before max
  = take (Z.to_nat max)
         (search_logs w sessions id pattern severity component after before max').
Proof.
  intros Hmax.
  destruct (dict_get sessions id) as [s|] eqn:Hs.
  - destruct (os_isdir w (path_join (work_dir s) (py "parsed"))) eqn:Hd.
    + rewrite !(search_logs_known _ _ _ _ _ _ _ _ _ _ Hs Hd).
      rewrite <- (Z2Nat.id max) at 1 by lia.
      rewrite <- (Z2Nat.id max') at 1 by lia.
      rewrite !scan_files_spec by (cbn; lia). cbn [app].
      rewrite take_take. f_equal. lia.
    + unfold search_logs. rewrite Hs, Hd. cbn [negb].
      rewrite take_ge; [done|]. cbn [length]. lia.
  - unfold search_logs. rewrite Hs. by rewrite take_nil.
Qed.
End search_cap.

Lemma search_hits_sound_witness :
  exists f out l,
    f ∈ os_glob sim_parsed
          (path_join (path_join (work_dir (sim_session [])) (py "parsed")) (py "*.parsed"))
    /\ run_grep sim_parsed (py "link") f = Some out
    /\ l ∈ split NL (strip out)
    /\ Hit (Some (py "b.parsed")) (py "1:t0|disk|E|link to disk lost")
       = Hit (Some (basename f)) (take 300 l)
    /\ l <> []
    /\ (sev_token (py "e") <> [] -> contains (sev_token (py "e")) l = true)
    /\ (py "DISK" <> [] -> contains (lower (py "DISK")) (lower l) = true).
Proof.
  apply (search_hits_sound sim_parsed (sim_sessions []) (py "0123456789ab")
           (sim_session []) (py "link") (py "e") (py "DISK") [] [] 50).
  - reflexivity.
  - reflexivity.
  - apply list_elem_of_In. vm_compute. left. reflexivity.
Defined.

Lemma search_hits_bounded_witness :
  (length (py "3:t1|net|E|link down") <= 300)%nat.
Proof.
  apply (search_hits_bounded sim_parsed (sim_sessions []) (py "0123456789ab")
           (py "link") [] [] [] [] 0
           (Hit (Some (py "a.parsed")) (py "3:t1|net|E|link down"))).
  apply list_elem_of_In. vm_compute. left. reflexivity.
Defined.

Lemma search_logs_cap_prefix_witness :
  search_logs sim_parsed (sim_sessions []) (py "0123456789ab") (py "link") [] [] [] [] 2
  = take 2 (search_logs sim_parsed (sim_sessions []) (py "0123456789ab") (py "link")
                        [] [] [] [] 50).
Proof.
  apply (search_logs_cap_prefix sim_parsed (sim_sessions []) (py "0123456789ab")
           (py "link") [] [] [] [] 2 50). lia.
Defined.

(** ** Session store *)

Lemma str_eqb_eq a b : str_eqb a b = true <-> a = b.
Proof. unfold str_eqb. apply bool_decide_eq_true. Qed.

Lemma dict_get_set_ne {V} (d : dict V) k k' v :
  k <> k' -> dict_get (dict_set d k v) k' = dict_get d k'.
Proof.
  intros Hne. induction d as [|[k0 v0] d IH]; cbn [dict_set dict_get].
  - destruct (str_eqb k k') eqn:E; [|done]. by apply str_eqb_eq in E.
  - destruct (str_eqb k0 k) eqn:E; cbn [dict_get].
    + apply str_eqb_eq in E as ->.
      destruct (str_eqb k k') eqn:E'; [|done]. by apply str_eqb_eq in E'.
    + by rewrite IH.
Qed.

Lemma dict_set_length {V} (d : dict V) k v :
  length (dict_set d k v)
  = match dict_get d k with Some _ => length d | None => S (length d) end.
Proof.
  induction d as [|[k0 v0] d IH]; cbn [dict_set dict_get]; [done|].
  destruct (str_eqb k0 k); cbn [length]; [done|].
  rewrite IH. by destruct (dict_get d k).
Qed.

Section store.
Context {W : Type} `{!Host W} (cfg : config).

(** X9.  [new_session] files the new session under the identifier it
    returns: it is found there in state [loaded], with the given input
    path and nothing captured yet; every other session is as before; the
    store grows by one unless the identifier was taken, in which case the
    old session is replaced; and the store stays well filed. *)
Theorem new_session_lookup (w w' : W) sessions sessions' input k :
  new_session cfg w sessions input = (k, sessions', w') ->
  (exists s, dict_get sessions' k = Some s
     /\ session_ok cfg k s /\ input_path s = input
     /\ state s = py "loaded" /\ stdout s = [] /\ stderr s = []
     /\ device_id s = [])
  /\ (forall k', k' <> k -> dict_get sessions' k' = dict_get sessions k')
  /\ length sessions'
     = match dict_get sessions k with
       | Some _ => length sessions
       | None => S (length sessions)
       end
  /\ (store_ok cfg sessions -> store_ok cfg sessions').
Proof.
  unfold new_session. destruct (uuid4_hex w) as [hex w1]. intros [= <- <- <-].
  split; [|split; [|split]].
  - eexists. split; [apply dict_get_set|]. by repeat split.
  - intros k' Hne. by apply dict_get_set_ne.
  - apply dict_set_length.
  - intros Hok k' s Hs.
    destruct (decide (take 12 hex = k')) as [<-|Hne].
    + rewrite dict_get_set in Hs. injection Hs as <-. by repeat split.
    + rewrite dict_get_set_ne in Hs by done. by apply Hok.
Qed.
End store.

Lemma new_session_lookup_witness :
  exists s, dict_get (new_session sim_cfg (sim_empty TimeoutExpired) []
                        (py "/tmp/bundle.tgz")).1.2 (py "0123456789ab") = Some s
    /\ session_ok sim_cfg (py "0123456789ab") s
    /\ input_path s = py "/tmp/bundle.tgz"
    /\ state s = py "loaded" /\ stdout s = [] /\ stderr s = [] /\ device_id s = [].
Proof.
  exact (proj1 (new_session_lookup sim_cfg (sim_empty TimeoutExpired) _ [] _
                  (py "/tmp/bundle.tgz") (py "0123456789ab") eq_refl)).
Defined.

(** ** The analyze route *)

Section analyze.
Context {W : Type} `{!Host W} (cfg : config).

Lemma lookup_session_inv sessions id r :
  lookup_session sessions id = Ok (Some r) ->
  id = JStr r.1 /\ dict_get sessions r.1 = Some r.2.
Proof.
  destruct id; cbn [lookup_session]; try discriminate.
  destruct (dict_get sessions s) eqn:E; [|discriminate].
  intros [= <-]. by split.
Qed.

(** Either the request ends before the analyzer is run, and nothing
    changes, or one known session is rewritten in place. *)
Lemma post_analyze_cases (rq : post_request) n sessions (w : W) res st' :
  post_analyze cfg rq n (sessions, w) = (res, st') ->
  (st' = (sessions, w) /\ forall data, res <> Ok (JsonResponse 200 data))
  \/ (exists k s s' w' rc out err data,
        dict_get sessions k = Some s
        /\ st' = (dict_set sessions k s', w')
        /\ res = Ok (JsonResponse 200 data)
        /\ (exists ok reps,
              data = JDict [ (py "ok", JBool ok); (py "exit_code", JNum rc);
                             (py "output", JStr (strip_ansi out));
                             (py "errors", JStr (strip_ansi err));
                             (py "reports", JList reps);
                             (py "session_id", JStr k) ])
        /\ same_files s s'
        /\ stdout s' = strip_ansi out /\ stderr s' = strip_ansi err
        /\ device_id s' = default (device_id s) (extract_device (strip_ansi out))
        /\ (state s' = py "done" \/ state s' = py "error")
        /\ (exists args, run_analyzer cfg w args 180 = ((rc, out, err), w'))).
Proof.
  unfold post_analyze.
  destruct (json_loads _) as [body|e]; [|intros [= <- <-]; by left].
  destruct body as [| | | | |kv]; cbn [json_get];
    try (intros [= <- <-]; by left).
  destruct (lookup_session sessions _) as [[[k s]|]|e] eqn:El;
    [|intros [= <- <-]; by left..].
  apply lookup_session_inv in El as [-> Hs]. cbn [fst snd] in Hs.
  match goal with
  | |- context [run_analyzer cfg w ?a 180] =>
      destruct (run_analyzer cfg w a 180) as [[[rc out] err] w'] eqn:Hrun
  end.
  intros [= <- <-]. right.
  eexists k, s, _, w', rc, out, err, _.
  split; [exact Hs|]. split; [reflexivity|]. split; [reflexivity|].
  split; [by eexists _, _|].
  unfold extract_device, same_files.
  destruct (re_search device_re (strip_ansi out)) as [m|];
    destruct (0 <? length _)%nat; destruct (rc =? 0)%Z;
    cbn [sid input_path work_dir reports_dir stdout stderr device_id state default
         from_option id
         set_state set_device_id set_stderr set_stdout set_analysis_mode];
    repeat split; auto; by eexists.
Qed.

(** X10.  Whatever the request and however the analyzer ends, the analyze
    route creates no session and removes none, and leaves the identifier,
    the input path and the two directories of every session as they were;
    a well-filed store stays well filed; and unless it answers with the
    200 response, it has not run the analyzer: store and world are
    untouched. *)
Theorem post_analyze_preserves (rq : post_request) n sessions (w : W) res
    sessions' w' :
  post_analyze cfg rq n (sessions, w) = (res, (sessions', w')) ->
  (forall k s, dict_get sessions k = Some s ->
     exists s', dict_get sessions' k = Some s' /\ same_files s s')
  /\ (forall k, dict_get sessions k = None -> dict_get sessions' k = None)
  /\ (store_ok cfg sessions -> store_ok cfg sessions')
  /\ ((forall data, res <> Ok (JsonResponse 200 data)) ->
      sessions' = sessions /\ w' = w).
Proof.
  intros [[[= -> ->] Hres]|(k0 & s0 & s1 & w1 & rc & out & err & data & Hs0 & [= -> ->]
                            & -> & _ & Hsame & _)]%post_analyze_cases.
  - split; [|split; [|split]]; try done.
    intros k s Hs. exists s. by repeat split.
  - assert (forall k s', dict_get (dict_set sessions k0 s1) k = Some s' ->
              exists s, dict_get sessions k = Some s /\ same_files s s') as Hback.
    { intros k s'. destruct (decide (k0 = k)) as [<-|Hne].
      - rewrite dict_get_set. intros [= <-]. by exists s0.
      - rewrite dict_get_set_ne by done. intros Hs. exists s'. by repeat split. }
    split; [|split; [|split]].
    + intros k s Hs. destruct (decide (k0 = k)) as [<-|Hne].
      * rewrite dict_get_set. exists s1. split; [done|]. congruence.
      * rewrite dict_get_set_ne by done. exists s. by repeat split.
    + intros k Hk. destruct (decide (k0 = k)) as [<-|Hne]; [congruence|].
      by rewrite dict_get_set_ne.
    + intros Hok k s' Hs'. destruct (Hback _ _ Hs') as (s & Hs & H1 & H2 & H3 & H4).
      destruct (Hok _ _ Hs) as (Ha & Hb & Hc). unfold session_ok. repeat split; congruence.
    + intros Hres. by destruct (Hres data).
Qed.

(** X11.  When the analyze route answers with its 200 response, the
    output text in that response is the stored output of the session the
    response names, and it is already normalised.  A later results request
    for that session returns a result dictionary whenever the sizes of the
    listed reports can be read and [int] accepts the health score of this
    text; and every result dictionary it returns is extracted from exactly
    this text: its issues and its device information are those of the
    returned output, and a device identifier shown in the results is the
    one stored in the session. *)
Theorem analyze_then_results (rq : post_request) n sessions (w w' : W) data sessions' :
  post_analyze cfg rq n (sessions, w) = (Ok (JsonResponse 200 data), (sessions', w')) ->
  exists k out s,
    json_get data (py "session_id") JNull = Ok (JStr k)
    /\ json_get data (py "output") JNull = Ok (JStr out)
    /\ dict_get sessions' k = Some s
    /\ stdout s = out
    /\ strip_ansi out = out
    /\ (forall (w2 : W) reps h,
          list_reports w2 (sorted (os_glob w2 (path_join (reports_dir s) (py "*")))) []
          = Ok reps ->
          extract_health out = Ok h ->
          exists r, parse_session_results w2 sessions' k = Ok (Some r))
    /\ (forall (w2 : W) r,
          parse_session_results w2 sessions' k = Ok (Some r) ->
          issues r = extract_issues out
          /\ device_info r = extract_device out
          /\ (forall d, device_info r = Some d -> device_id s = d)).
Proof.
  intros [[_ Hres]|(k & s0 & s1 & w1 & rc & out & err & data' & Hs0 & [= -> ->]
                    & [= ->] & (ok & reps & ->) & _ & Hout & _ & Hdev & _)]
    %post_analyze_cases; [by destruct (Hres data)|].
  exists k, (strip_ansi out), s1.
  split; [reflexivity|]. split; [reflexivity|].
  split; [apply dict_get_set|]. split; [exact Hout|].
  split; [|split].
  - rewrite (strip_ansi_filter (strip_ansi out)), (strip_ansi_filter out).
    rewrite ansi_sub_no_esc by apply filter_kept_no_esc. apply filter_idem.
  - intros w2 reps' h Hreps Hh. rewrite <- Hout in Hh.
    rewrite (parse_session_results_returns w2 _ _ _ _ _ (dict_get_set _ _ _) Hreps Hh).
    by eexists.
  - intros w2 r Hr.
    apply parse_session_results_inv in Hr as (s' & Hs' & Hi & _ & Hd & _).
    rewrite dict_get_set in Hs'. injection Hs' as <-.
    rewrite Hi, Hd, Hout. repeat split.
    intros d Hd'. rewrite Hdev, Hd'. reflexivity.
Qed.
End analyze.

Lemma post_analyze_preserves_witness :
  (forall k s, dict_get (sim_sessions []) k = Some s ->
     exists s', dict_get (post_analyze sim_cfg sim_analyze_request 30
                            (sim_sessions [], sim_failed_run)).2.1 k = Some s'
                /\ same_files s s')
  /\ store_ok sim_cfg (post_analyze sim_cfg sim_analyze_request 30
                         (sim_sessions [], sim_failed_run)).2.1.
Proof.
  destruct (post_analyze sim_cfg sim_analyze_request 30 (sim_sessions [], sim_failed_run))
    as [res [sessions' w']] eqn:E.
  destruct (post_analyze_preserves sim_cfg _ _ _ _ _ _ _ E) as (Hkeep & _ & Hok & _).
  split; [exact Hkeep|]. apply Hok.
  intros k s Hs. cbn in Hs. destruct (str_eqb _ k) eqn:Ek; [|discriminate].
  apply str_eqb_eq in Ek as <-. injection Hs as <-. by repeat split.
Defined.

Lemma analyze_then_results_witness :
  exists k out s,
    json_get (JDict [ (py "ok", JBool true); (py "exit_code", JNum 2);
                      (py "output", JStr (py "Device ID: EVSE-7" ++ [NL]));
                      (py "errors", JStr (py "parse error"));
                      (py "reports", JList [JStr (py "analysis.md")]);
                      (py "session_id", JStr (py "0123456789ab")) ])
             (py "session_id") JNull = Ok (JStr k)
    /\ out = py "Device ID: EVSE-7" ++ [NL]
    /\ stdout s = out /\ device_id s = py "EVSE-7".
Proof.
  destruct (post_analyze sim_cfg sim_analyze_request 30 (sim_sessions [], sim_failed_run))
    as [res [sessions' w']] eqn:E.
  pose proof E as E0. vm_compute in E0. injection E0 as <- <- <-.
  destruct (analyze_then_results sim_cfg _ _ _ _ _ _ _ E)
    as (k & out & s & Hk & Hout & Hs & Hstd & _ & Hret & Hres).
  pose proof Hk as Hk'. vm_compute in Hk'. injection Hk' as <-.
  vm_compute in Hs. injection Hs as <-.
  eexists _, out, _. split; [exact Hk|].
  injection Hout as <-. split; [reflexivity|]. split; [exact Hstd|].
  destruct (Hret sim_failed_run [] None) as [r Hr]; [vm_compute; reflexivity..|].
  destruct (Hres sim_failed_run r Hr) as (_ & Hd & Hdev).
  apply Hdev. rewrite Hd. vm_compute. reflexivity.
Defined.

(** ** The GET routes *)

Lemma split_no_sep sep s : sep ∉ s -> split sep s = [s].
Proof.
  induction s as [|c s IH]; intros Hn; [done|].
  apply not_elem_of_cons in Hn as [Hc Hs]. cbn [split].
  destruct (ascii_eqb c sep) eqn:E.
  - apply ascii_eqb_eq in E. congruence.
  - by rewrite IH.
Qed.

(** No component of a split text holds the separator. *)
Lemma split_parts_no_sep sep s : Forall (fun p => sep ∉ p) (split sep s).
Proof.
  induction s as [|c s IH]; cbn [split].
  - repeat constructor. apply not_elem_of_nil.
  - destruct (ascii_eqb c sep) eqn:E.
    + constructor; [apply not_elem_of_nil|done].
    + destruct (split sep s) as [|p ps]; [repeat constructor|].
      * intros [->|H]%elem_of_cons; [by rewrite ascii_eqb_refl in E|by apply elem_of_nil in H].
      * apply Forall_cons in IH as [Hp Hps]. constructor; [|done].
        intros [->|H]%elem_of_cons; [by rewrite ascii_eqb_refl in E|done].
Qed.

Lemma last_Forall {A} (P : A -> Prop) (l : list A) d :
  P d -> Forall P l -> P (List.last l d).
Proof.
  intros Hd. induction 1 as [|x l Hx Hl IH]; [done|].
  cbn [List.last]. destruct l; [done|exact IH].
Qed.

Lemma split_single sep s p : split sep s = [p] -> s = p.
Proof.
  revert p. induction s as [|c s IH]; intros p; cbn [split].
  - by intros [= <-].
  - destruct (ascii_eqb c sep).
    + intros [= _ H]. by destruct (split_nonempty sep s).
    + destruct (split sep s) as [|q qs] eqn:E; [by destruct (split_nonempty sep s)|].
      intros [= <- ->]. f_equal. by apply IH.
Qed.

(** The last part of a split text is the end of the text. *)
Lemma split_last_suffix sep s : exists pre, s = pre ++ List.last (split sep s) [].
Proof.
  induction s as [|c s [pre IH]]; [by exists []|]. cbn [split].
  destruct (ascii_eqb c sep).
  - exists (c :: pre). cbn [List.last app].
    destruct (split sep s) eqn:E; [by destruct (split_nonempty sep s)|].
    by f_equal.
  - destruct (split sep s) as [|q qs] eqn:E; [by destruct (split_nonempty sep s)|].
    destruct qs as [|q' qs].
    + exists []. cbn [List.last app]. f_equal. by apply (split_single sep).
    + exists (c :: pre). cbn [app]. f_equal. exact IH.
Qed.

Lemma basename_no_sep p : "/"%char ∉ basename p.
Proof.
  unfold basename. apply (last_Forall (fun p => "/"%char ∉ p)).
  - apply not_elem_of_nil.
  - apply split_parts_no_sep.
Qed.

(** The parts of a session path: the identifier is the fourth. *)
Lemma session_path_parts id tail :
  "/"%char ∉ id -> (tail = [] \/ exists t, tail = "/"%char :: t) ->
  exists ps, split "/"%char (py "/api/session/" ++ id ++ tail)
             = [] :: py "api" :: py "session" :: id :: ps
             /\ (tail = [] -> ps = [])
             /\ (forall t, tail = "/"%char :: t -> ps = split "/"%char t).
Proof.
  intros Hid Htail.
  assert (exists ps, split "/"%char (id ++ tail) = id :: ps
            /\ (tail = [] -> ps = [])
            /\ (forall t, tail = "/"%char :: t -> ps = split "/"%char t)) as (ps & E & H1 & H2).
  { destruct Htail as [->|[t ->]].
    - exists []. rewrite app_nil_r, split_no_sep by done. by repeat split.
    - exists (split "/"%char t). rewrite split_app_sep by done.
      repeat split; [done|]. by intros t' [= ->]. }
  exists ps. split; [|by split].
  change (py "/api/session/" ++ id ++ tail)
    with ([] ++ "/"%char :: (py "api" ++ "/"%char ::
            (py "session" ++ "/"%char :: (id ++ tail)))).
  rewrite (split_app_sep _ []) by apply not_elem_of_nil.
  rewrite (split_app_sep _ (py "api"))
    by (intros H%list_elem_of_In; vm_compute in H; intuition discriminate).
  rewrite (split_app_sep _ (py "session"))
    by (intros H%list_elem_of_In; vm_compute in H; intuition discriminate).
  by rewrite E.
Qed.

Section get_routes.
Context {W : Type} `{!Host W} (cfg : config).

Lemma do_GET_session_path (rq : get_request) (st : sessions_t * W) id tail :
  get_path rq = py "/api/session/" ++ id ++ tail ->
  do_GET cfg rq st = get_session rq st.
Proof.
  intros Hpath. unfold do_GET. destruct st as [sessions w]. rewrite Hpath.
  unfold str_eqb.
  rewrite !bool_decide_false by (vm_compute; discriminate).
  cbn [orb].
  by replace (startswith (py "/api/session/" ++ id ++ tail) (py "/api/session/"))
    with true by reflexivity.
Qed.

(** X12.  A request under [/api/session/<id>] for an identifier that is
    not in the store is answered with 404 and [Session not found],
    whatever the action and the parameters, and changes nothing. *)
Theorem do_GET_unknown_session (rq : get_request) sessions (w : W) id tail :
  get_path rq = py "/api/session/" ++ id ++ tail ->
  "/"%char ∉ id -> (tail = [] \/ exists t, tail = "/"%char :: t) ->
  dict_get sessions id = None ->
  do_GET cfg rq (sessions, w)
  = (Ok (JsonResponse 404 (error_json (py "Session not found"))), (sessions, w)).
Proof.
  intros Hpath Hid Htail Hs.
  rewrite (do_GET_session_path rq (sessions, w) id tail Hpath).
  unfold get_session. rewrite Hpath.
  destruct (session_path_parts id tail Hid Htail) as (ps & -> & _).
  cbn [length Nat.ltb Nat.leb item nth]. by rewrite Hs.
Qed.

(** X13.  A report is only ever read from inside the reports directory of
    the session: for every [file] parameter that is not empty, the file
    sent is the one named by the last path component of the parameter,
    which holds no slash, joined to the reports directory. *)
Theorem do_GET_report_confined (rq : get_request) sessions (w : W) id s fname :
  get_path rq = py "/api/session/" ++ id ++ py "/report" ->
  "/"%char ∉ id ->
  dict_get sessions id = Some s ->
  get_params rq !! py "file" = Some fname ->
  fname <> [] ->
  exists b,
    ("/"%char ∉ b)
    /\ (exists pre, fname = pre ++ b)
    /\ do_GET cfg rq (sessions, w)
       = (send_file w (path_join (reports_dir s) b) None, (sessions, w))
    /\ (path_join (reports_dir s) b = reports_dir s ++ b
        \/ path_join (reports_dir s) b = reports_dir s ++ py "/" ++ b).
Proof.
  intros Hpath Hid Hs Hfile Hne. exists (basename fname).
  split; [apply basename_no_sep|]. split; [|split].
  - apply split_last_suffix.
  - rewrite (do_GET_session_path rq (sessions, w) id (py "/report") Hpath).
    unfold get_session. rewrite Hpath.
    destruct (session_path_parts id (py "/report") Hid ltac:(right; by eexists))
      as (ps & -> & _ & Hps).
    rewrite (Hps (py "report") eq_refl).
    cbn [length Nat.ltb Nat.leb item nth split]. rewrite Hs.
    unfold str_eqb. rewrite !bool_decide_false by (vm_compute; discriminate).
    rewrite bool_decide_true by reflexivity.
    rewrite Hfile. change (default [] (Some fname)) with fname.
    by destruct fname.
  - unfold path_join.
    replace (startswith (basename fname) (py "/")) with false.
    2:{ pose proof (basename_no_sep fname) as Hb. destruct (basename fname) as [|c b]; [done|].
        cbn. destruct (ascii_eqb "/"%char c) eqn:E; [|done].
        apply ascii_eqb_eq in E as <-. exfalso. apply Hb. by left. }
    destruct (List.last (map Some (reports_dir s)) None) as [c|] eqn:E.
    + destruct (ascii_eqb c "/"%char); auto.
    + left. destruct (reports_dir s) as [|x l]; [done|].
      exfalso. revert E. clear. revert x. induction l as [|y l IH]; intros x; [done|].
      cbn [map List.last]. apply IH.
Qed.

(** X14.  No GET request changes the session store, and only the check
    route, which runs the analyzer, can change the world: every other GET
    request leaves store and world exactly as they were, whether it
    answers or raises. *)
Theorem do_GET_read_only (rq : get_request) (st : sessions_t * W) :
  (do_GET cfg rq st).2.1 = st.1
  /\ (get_path rq <> py "/api/check" -> (do_GET cfg rq st).2 = st).
Proof.
  destruct st as [sessions w]. unfold do_GET, get_session.
  destruct (str_eqb (get_path rq) (py "/api/check")) eqn:Echeck.
  - apply str_eqb_eq in Echeck. rewrite Echeck. unfold str_eqb.
    rewrite !bool_decide_false by (vm_compute; discriminate). cbn [orb].
    destruct (run_analyzer cfg w [JStr (py "--check")] 15) as [[[rc out] err] w'].
    split; [done|]. intros Hne. by destruct Hne.
  - split; [|intros _]; repeat (case_match; try done).
Qed.

(** X15.  The check route reports [ok] exactly when the analyzer ran to
    its end with exit code 0: a timeout or a failed launch is never
    reported as success; and the output it returns is normalised text
    without any ESC. *)
Theorem do_GET_check_ok (rq : get_request) sessions (w : W) :
  get_path rq = py "/api/check" ->
  exists ok output w',
    do_GET cfg rq (sessions, w)
    = (Ok (JsonResponse 200 (JDict [ (py "ok", JBool ok); (py "output", JStr output) ])),
       (sessions, w'))
    /\ (ok = true <->
        exists out err,
          (run_bash w [JStr (py "bash"); JStr (ANALYZER cfg); JStr (py "--check")] 15).1
          = Completed 0 out err)
    /\ (ESC ∉ output).
Proof.
  intros Hpath. unfold do_GET. rewrite Hpath. unfold str_eqb.
  rewrite !bool_decide_false by (vm_compute; discriminate).
  rewrite bool_decide_true by reflexivity. cbn [orb].
  unfold run_analyzer. cbn [app].
  destruct (run_bash w _ 15) as [p w'] eqn:Erun. cbn [fst].
  destruct p as [rc out err| |msg].
  - eexists _, _, w'. split; [reflexivity|]. split.
    + rewrite Z.eqb_eq. split; [intros ->; by eexists _, _|by intros (? & ? & [= ->])].
    + rewrite strip_ansi_filter. apply filter_kept_no_esc.
  - eexists _, _, w'. split; [reflexivity|]. split.
    + split; [done|by intros (? & ? & [=])].
    + rewrite strip_ansi_filter. apply filter_kept_no_esc.
  - eexists _, _, w'. split; [reflexivity|]. split.
    + split; [done|by intros (? & ? & [=])].
    + rewrite strip_ansi_filter. apply filter_kept_no_esc.
Qed.
End get_routes.

Lemma do_GET_unknown_session_witness :
  do_GET sim_cfg (GetRequest (py "/api/session/ffffffffffff/results") ∅)
         (sim_sessions [], sim_parsed)
  = (Ok (JsonResponse 404 (error_json (py "Session not found"))),
     (sim_sessions [], sim_parsed)).
Proof.
  apply (do_GET_unknown_session sim_cfg _ _ _ (py "ffffffffffff") (py "/results")).
  - reflexivity.
  - intros H%list_elem_of_In. vm_compute in H. intuition discriminate.
  - right. by eexists.
  - reflexivity.
Defined.

Lemma do_GET_report_confined_witness :
  exists b,
    ("/"%char ∉ b)
    /\ (exists pre, py "../../etc/passwd" = pre ++ b)
    /\ do_GET sim_cfg
         (GetRequest (py "/api/session/0123456789ab/report")
                     (<[py "file" := py "../../etc/passwd"]> ∅))
         (sim_sessions [], sim_parsed)
       = (send_file sim_parsed (path_join (reports_dir (sim_session [])) b) None,
          (sim_sessions [], sim_parsed))
    /\ (path_join (reports_dir (sim_session [])) b = reports_dir (sim_session []) ++ b
        \/ path_join (reports_dir (sim_session [])) b
           = reports_dir (sim_session []) ++ py "/" ++ b).
Proof.
  apply (do_GET_report_confined sim_cfg _ (sim_sessions []) sim_parsed
           (py "0123456789ab") (sim_session []) (py "../../etc/passwd")).
  - reflexivity.
  - intros H%list_elem_of_In. vm_compute in H. intuition discriminate.
  - reflexivity.
  - vm_compute. reflexivity.
  - discriminate.
Defined.

Lemma do_GET_read_only_witness :
  (do_GET sim_cfg sim_search_request (sim_sessions [], sim_parsed)).2
  = (sim_sessions [], sim_parsed).
Proof.
  apply (proj2 (do_GET_read_only sim_cfg sim_search_request (sim_sessions [], sim_parsed))).
  vm_compute. discriminate.
Defined.

Lemma do_GET_check_ok_witness :
  exists ok output w',
    do_GET sim_cfg (GetRequest (py "/api/check") ∅) (sim_sessions [], sim_empty TimeoutExpired)
    = (Ok (JsonResponse 200 (JDict [ (py "ok", JBool ok); (py "output", JStr output) ])),
       (sim_sessions [], w'))
    /\ (ok = true <->
        exists out err,
          (run_bash (sim_empty TimeoutExpired)
             [JStr (py "bash"); JStr (ANALYZER sim_cfg); JStr (py "--check")] 15).1
          = Completed 0 out err)
    /\ (ESC ∉ output).
Proof.
  apply (do_GET_check_ok sim_cfg (GetRequest (py "/api/check") ∅)). reflexivity.
Defined.

(** ** Component counters *)

Lemma dict_set_keys {V} (d : dict V) k v k' :
  k' ∈ map fst (dict_set d k v) -> k' = k \/ k' ∈ map fst d.
Proof.
  induction d as [|[k0 v0] d IH]; cbn [dict_set map fst].
  - intros [->|H]%elem_of_cons; [by left|by apply elem_of_nil in H].
  - destruct (str_eqb k0 k); cbn [map fst].
    + intros H. by right.
    + intros [->|H]%elem_of_cons; [right; by left|].
      destruct (IH H) as [->|H']; [by left|right; by right].
Qed.

Lemma dict_set_NoDup {V} (d : dict V) k v :
  NoDup (map fst d) -> NoDup (map fst (dict_set d k v)).
Proof.
  induction d as [|[k0 v0] d IH]; cbn [dict_set map fst].
  - intros _. repeat constructor. apply not_elem_of_nil.
  - intros [Hk0 Hd]%NoDup_cons. destruct (str_eqb k0 k) eqn:E; cbn [map fst].
    + by apply NoDup_cons.
    + apply NoDup_cons. split; [|by apply IH].
      intros [->|H]%dict_set_keys; [|done].
      unfold str_eqb in E. by rewrite bool_decide_true in E.
Qed.

Lemma dict_set_elem {V} (d : dict V) k v kv :
  kv ∈ dict_set d k v -> kv = (k, v) \/ kv ∈ d.
Proof.
  induction d as [|[k0 v0] d IH]; cbn [dict_set].
  - intros [->|H]%elem_of_cons; [by left|by apply elem_of_nil in H].
  - destruct (str_eqb k0 k) eqn:E.
    + apply str_eqb_eq in E as ->.
      intros [->|H]%elem_of_cons; [by left|right; by right].
    + intros [->|H]%elem_of_cons; [right; by left|].
      destruct (IH H) as [->|H']; [by left|right; by right].
Qed.

Lemma count_bounds p lines : (0 <= count p lines <= Z.of_nat (length lines))%Z.
Proof. unfold count. pose proof (List.filter_length_le p lines). lia. Qed.

Section components.
Context {W : Type} `{!Host W}.

(** X16.  [list_components] gives each component name once, each name
    being the base name of a listed [.parsed] file with [.parsed] taken
    out, and for each the counters satisfy 0 <= errors <= total and
    0 <= warnings <= total. *)
Theorem list_components_counts (w : W) sessions id :
  NoDup (map fst (list_components w sessions id))
  /\ forall name st, (name, st) ∈ list_components w sessions id ->
       stats_ok st
       /\ exists s f,
            dict_get sessions id = Some s
            /\ f ∈ os_glob w (path_join (path_join (work_dir s) (py "parsed"))
                                        (py "*.parsed"))
            /\ name = remove_all (py ".parsed") (basename f).
Proof.
  unfold list_components.
  destruct (dict_get sessions id) as [s|]; [|split; [constructor|by intros ?? ?%elem_of_nil]].
  destruct (os_isdir w _); [|split; [constructor|by intros ?? ?%elem_of_nil]].
  set (files := os_glob w _).
  set (step := fun comps f => _).
  assert (forall l comps,
            NoDup (map fst comps) ->
            (forall name st, (name, st) ∈ comps ->
               stats_ok st /\ exists f, f ∈ files /\ name = remove_all (py ".parsed") (basename f)) ->
            (forall f, f ∈ l -> f ∈ files) ->
            NoDup (map fst (foldl step comps l))
            /\ forall name st, (name, st) ∈ foldl step comps l ->
                 stats_ok st /\ exists f, f ∈ files /\ name = remove_all (py ".parsed") (basename f))
    as Hfold.
  { induction l as [|f l IH]; intros comps Hnd Hall Hl; [done|].
    cbn [foldl]. apply IH.
    - unfold step. destruct (read_lines w f); by apply dict_set_NoDup.
    - intros name st. unfold step.
      assert (f ∈ files) as Hf by (apply Hl; by left).
      destruct (read_lines w f) as [lines|e];
        intros [[= -> ->]|Hin]%dict_set_elem; try (by apply Hall).
      + split; [|by exists f]. split; cbn [errors warnings total]; apply count_bounds.
      + split; [|by exists f]. by split.
    - intros f' Hf'. apply Hl. by right. }
  destruct (Hfold files [] ltac:(constructor) ltac:(by intros ?? ?%elem_of_nil)
              ltac:(done)) as [Hnd Hall].
  split; [exact Hnd|]. intros name st Hin.
  destruct (Hall _ _ Hin) as (Hst & f & Hf & Hname).
  split; [exact Hst|]. exists s, f. by repeat split.
Qed.
End components.

Lemma list_components_counts_witness :
  stats_ok (CompStats 3 1 2)
  /\ exists s f,
       dict_get (sim_sessions []) (py "0123456789ab") = Some s
       /\ f ∈ os_glob sim_components
               (path_join (path_join (work_dir s) (py "parsed")) (py "*.parsed"))
       /\ py "net" = remove_all (py ".parsed") (basename f).
Proof.
  apply (proj2 (list_components_counts sim_components (sim_sessions [])
                  (py "0123456789ab")) (py "net") (CompStats 3 1 2)).
  apply list_elem_of_In. vm_compute. left. reflexivity.
Defined.

Example list_components_unreadable :
  list_components sim_components (sim_sessions []) (py "0123456789ab")
  = [(py "net", CompStats 3 1 2); (py "disk", CompStats 0 0 0)].
Proof. vm_compute. reflexivity. Qed.

(** ** The catalog as a whole *)

Lemma signature_fold_app sigs lines :
  foldl signature_step sigs lines = sigs ++ foldl signature_step [] lines.
Proof.
  revert sigs. induction lines as [|l lines IH]; intros sigs; cbn [foldl].
  - by rewrite app_nil_r.
  - rewrite (IH (signature_step sigs l)), (IH (signature_step [] l)).
    unfold signature_step. destruct (is_skipped (strip l)); [done|].
    destruct (6 <=? _)%nat; [|done]. by rewrite <- app_assoc.
Qed.

Lemma registry_fold_app cm sigs lines :
  foldl registry_step (cm, sigs) lines
  = ((foldl registry_step (cm, []) lines).1,
     sigs ++ (foldl registry_step (cm, []) lines).2).
Proof.
  revert cm sigs. induction lines as [|l lines IH]; intros cm sigs; cbn [foldl].
  - by rewrite app_nil_r.
  - unfold registry_step at 2 4 6.
    destruct (is_skipped (strip l)); [apply IH|].
    destruct (decide (cm = ∅)); [apply IH|].
    destruct (4 <=? _)%nat; [|apply IH].
    rewrite (IH cm (sigs ++ _)), (IH cm ([] ++ _)). cbn [fst snd app].
    by rewrite <- app_assoc.
Qed.

Lemma signature_entries_tagged lines :
  Forall (fun e => dict_get e (py "source") = Some (py "signatures")
                   /\ has_common_keys e)
         (foldl signature_step [] lines).
Proof.
  induction lines as [|l lines IH] using rev_ind; [constructor|].
  rewrite foldl_app. cbn [foldl]. unfold signature_step at 1.
  destruct (is_skipped (strip l)); [done|].
  destruct (6 <=? _)%nat; [|done].
  apply Forall_app. split; [done|]. constructor; [|constructor].
  split; [reflexivity|].
  intros k Hk. unfold common_keys in Hk.
  repeat (apply elem_of_cons in Hk as [->|Hk]; [by eexists|]).
  by apply elem_of_nil in Hk.
Qed.

Lemma registry_entries_tagged cm lines :
  Forall (fun e => dict_get e (py "source") = Some (py "registry")
                   /\ has_common_keys e)
         (foldl registry_step (cm, []) lines).2.
Proof.
  induction lines as [|l lines IH] using rev_ind; [constructor|].
  rewrite foldl_app. cbn [foldl].
  destruct (foldl registry_step (cm, []) lines) as [cm' sg]. cbn [snd] in IH.
  unfold registry_step.
  destruct (is_skipped (strip l)); [done|].
  destruct (decide (cm' = ∅)); [done|].
  destruct (4 <=? _)%nat; [|done]. cbn [snd].
  apply Forall_app. split; [done|]. constructor; [|constructor].
  split; [reflexivity|].
  intros k Hk. unfold common_keys in Hk.
  repeat (apply elem_of_cons in Hk as [->|Hk]; [by eexists|]).
  by apply elem_of_nil in Hk.
Qed.

Section catalog_whole.
Context {W : Type} `{!Host W} (cfg : config).

(** X17.  The catalog [load_signatures] returns is the entries of the
    signatures file followed by the entries of the registry file, nothing
    merged or dropped: the first are tagged [signatures], the second
    [registry], every entry carries the eight common keys, and a file that
    does not exist contributes nothing. *)
Theorem catalog_two_sources (w : W) sigs :
  load_signatures cfg w = Ok sigs ->
  exists a b,
    sigs = a ++ b
    /\ Forall (fun e => dict_get e (py "source") = Some (py "signatures")
                        /\ has_common_keys e) a
    /\ Forall (fun e => dict_get e (py "source") = Some (py "registry")
                        /\ has_common_keys e) b
    /\ (os_isfile w (SIGNATURES_FILE cfg) = false -> a = [])
    /\ (os_isfile w (REGISTRY_FILE cfg) = false -> b = [])
    /\ (forall lines, os_isfile w (SIGNATURES_FILE cfg) = true ->
          read_lines w (SIGNATURES_FILE cfg) = Ok lines ->
          a = foldl signature_step [] lines)
    /\ (forall lines, os_isfile w (REGISTRY_FILE cfg) = true ->
          read_lines w (REGISTRY_FILE cfg) = Ok lines ->
          b = load_registry [] lines).
Proof.
  unfold load_signatures. intros H.
  set (a := if os_isfile w (SIGNATURES_FILE cfg)
            then match read_lines w (SIGNATURES_FILE cfg) with
                 | Ok lines => foldl signature_step [] lines
                 | Raise _ => []
                 end
            else []).
  set (b := if os_isfile w (REGISTRY_FILE cfg)
            then match read_lines w (REGISTRY_FILE cfg) with
                 | Ok lines => load_registry [] lines
                 | Raise _ => []
                 end
            else []).
  exists a, b. subst a b.
  destruct (os_isfile w (SIGNATURES_FILE cfg)) eqn:E1;
    [destruct (read_lines w (SIGNATURES_FILE cfg)) as [l1|e1] eqn:R1; [|discriminate]|];
    (destruct (os_isfile w (REGISTRY_FILE cfg)) eqn:E2;
     [destruct (read_lines w (REGISTRY_FILE cfg)) as [l2|e2] eqn:R2; [|discriminate]|]);
    injection H as <-;
    repeat split; try done; try (by intros ? _ [= <-]); try (by intros ? [=]);
    try apply signature_entries_tagged; try (by rewrite app_nil_r);
    try (unfold load_registry; apply registry_entries_tagged);
    unfold load_registry; by rewrite registry_fold_app.
Qed.

(** X18.  A line that is blank or starts with [#] once the surrounding
    white space is taken off contributes nothing in either file, wherever
    it stands, before the header of the registry included: the catalog is
    the same with and without it. *)
Theorem catalog_skips_comments (sigs : list entry) lines1 c lines2 :
  is_skipped (strip c) = true ->
  foldl signature_step sigs (lines1 ++ c :: lines2)
  = foldl signature_step sigs (lines1 ++ lines2)
  /\ load_registry sigs (lines1 ++ c :: lines2)
     = load_registry sigs (lines1 ++ lines2).
Proof.
  intros Hc. unfold load_registry. rewrite !foldl_app. cbn [foldl].
  split.
  - unfold signature_step at 2. by rewrite Hc.
  - destruct (foldl registry_step (∅, sigs) lines1) as [cm sg].
    unfold registry_step at 2. by rewrite Hc.
Qed.
End catalog_whole.

Lemma catalog_two_sources_witness :
  exists sigs a b,
    load_signatures sim_cfg sim_catalog = Ok sigs
    /\ sigs = a ++ b /\ length a = 1%nat /\ length b = 2%nat
    /\ Forall (fun e => dict_get e (py "source") = Some (py "signatures")
                        /\ has_common_keys e) a
    /\ Forall (fun e => dict_get e (py "source") = Some (py "registry")
                        /\ has_common_keys e) b.
Proof.
  destruct (load_signatures sim_cfg sim_catalog) as [sigs|e] eqn:E;
    [|vm_compute in E; discriminate].
  destruct (catalog_two_sources sim_cfg sim_catalog sigs E)
    as (a & b & Hab & Ha & Hb & _ & _ & Hal & Hbl).
  exists sigs, a, b. split; [reflexivity|]. split; [exact Hab|].
  rewrite (Hal sim_signatures eq_refl eq_refl), (Hbl sim_registry eq_refl eq_refl) in *.
  split; [vm_compute; reflexivity|]. split; [vm_compute; reflexivity|]. by split.
Defined.

Lemma catalog_skips_comments_witness :
  load_registry [] ((py "   # a comment first" ++ [NL]) :: sim_registry)
  = load_registry [] sim_registry.
Proof.
  apply (proj2 (catalog_skips_comments [] [] (py "   # a comment first" ++ [NL])
                  sim_registry eq_refl)).
Defined.

(** ** The compare and fleet routes *)

Section batch_routes.
Context {W : Type} `{!Host W} `{!Runtime W} (cfg : config).

(** X19.  The compare route never touches the session store.  Unless it
    answers 200 it has created nothing and run nothing.  When it answers
    200 it ran the analyzer once, with [--compare] and, for each of the
    two values, the input path of the session of that identifier when
    there is one and the value as given otherwise, writing into a fresh
    directory [compare_<8 hex digits>] under the sessions directory; and
    its [ok] flag is true exactly when the exit code is 0, whatever
    reports were written. *)
Theorem post_compare_spec (rq : post_request) n sessions (w : W) res sessions' w' :
  post_compare cfg rq n (sessions, w) = (res, (sessions', w')) ->
  sessions' = sessions
  /\ ((forall data, res <> Ok (JsonResponse 200 data)) -> w' = w)
  /\ (forall data, res = Ok (JsonResponse 200 data) ->
      exists body base target base_path target_path hex w1 rc out err,
        json_loads (read_body n (post_body rq)) = Ok body
        /\ json_get body (py "baseline") (JStr []) = Ok base
        /\ json_get body (py "target") (JStr []) = Ok target
        /\ truthy base = true /\ truthy target = true
        /\ resolve_input sessions base = Ok base_path
        /\ resolve_input sessions target = Ok target_path
        /\ uuid4_hex w = (hex, w1)
        /\ run_analyzer cfg
             (os_makedirs w1 (path_join (SESSION_DIR cfg) (py "compare_" ++ take 8 hex)))
             [ JStr (py "-q"); JStr (py "--no-color"); JStr (py "-o");
               JStr (path_join (SESSION_DIR cfg) (py "compare_" ++ take 8 hex));
               JStr (py "--compare"); base_path; target_path ] 180
           = ((rc, out, err), w')
        /\ json_get data (py "ok") JNull = Ok (JBool (rc =? 0)%Z)
        /\ json_get data (py "output") JNull = Ok (JStr (strip_ansi out))
        /\ json_get data (py "reports_dir") JNull
           = Ok (JStr (path_join (SESSION_DIR cfg) (py "compare_" ++ take 8 hex)))).
Proof.
  unfold post_compare.
  destruct (json_loads _) as [body|e] eqn:Eb;
    [|intros [= <- <- <-]; repeat split; try done; by intros ? [=]].
  destruct (json_get body (py "baseline") _) as [base|e] eqn:E1;
    [|intros [= <- <- <-]; repeat split; try done; by intros ? [=]].
  destruct (json_get body (py "target") _) as [target|e] eqn:E2;
    [|intros [= <- <- <-]; repeat split; try done; by intros ? [=]].
  destruct (truthy base) eqn:Tb; cbn [negb orb];
    [|intros [= <- <- <-]; repeat split; try done; by intros ? [=]].
  destruct (truthy target) eqn:Tt; cbn [negb orb];
    [|intros [= <- <- <-]; repeat split; try done; by intros ? [=]].
  destruct (resolve_input sessions base) as [bp|e] eqn:R1;
    [|intros [= <- <- <-]; repeat split; try done; by intros ? [=]].
  destruct (resolve_input sessions target) as [tp|e] eqn:R2;
    [|intros [= <- <- <-]; repeat split; try done; by intros ? [=]].
  destruct (uuid4_hex w) as [hex w1] eqn:Eu.
  destruct (run_analyzer cfg _ _ 180) as [[[rc out] err] w2] eqn:Er.
  intros [= <- <- <-]. split; [done|]. split.
  - intros Hres. exfalso. eapply Hres. reflexivity.
  - intros data [= <-].
    exists body, base, target, bp, tp, hex, w1, rc, out, err.
    by repeat split.
Qed.

(** X20.  The fleet route never touches the session store.  A request
    whose [directory] is missing, empty, or a text that names no
    directory is answered 400 with [Directory not found: <text>], and
    nothing is created or run.  When it answers 200 it ran the analyzer
    once with [--fleet] and the directory, under the timeout of 300
    seconds, and its [ok] flag is true exactly when the exit code is 0. *)
Theorem post_fleet_spec (rq : post_request) n sessions (w : W) res sessions' w' :
  post_fleet cfg rq n (sessions, w) = (res, (sessions', w')) ->
  sessions' = sessions
  /\ ((forall data, res <> Ok (JsonResponse 200 data)) -> w' = w)
  /\ (forall kv d,
        json_loads (read_body n (post_body rq)) = Ok (JDict kv) ->
        default (JStr []) (dict_get kv (py "directory")) = JStr d ->
        d = [] \/ os_isdir w d = false ->
        res = Ok (JsonResponse 400 (error_json (py "Directory not found: " ++ d))))
  /\ (forall data, res = Ok (JsonResponse 200 data) ->
      exists body directory hex w1 rc out err,
        json_loads (read_body n (post_body rq)) = Ok body
        /\ json_get body (py "directory") (JStr []) = Ok directory
        /\ isdir_value w directory = Ok true
        /\ uuid4_hex w = (hex, w1)
        /\ run_analyzer cfg
             (os_makedirs w1 (path_join (SESSION_DIR cfg) (py "fleet_" ++ take 8 hex)))
             [ JStr (py "-q"); JStr (py "--no-color"); JStr (py "-o");
               JStr (path_join (SESSION_DIR cfg) (py "fleet_" ++ take 8 hex));
               JStr (py "--fleet"); directory ] 300
           = ((rc, out, err), w')
        /\ json_get data (py "ok") JNull = Ok (JBool (rc =? 0)%Z)).
Proof.
  unfold post_fleet.
  destruct (json_loads _) as [body|e] eqn:Eb.
  2:{ intros [= <- <- <-]. split; [done|]. split; [done|].
      split; [|by intros ? [=]]. by intros kv d [=]. }
  destruct (json_get body (py "directory") _) as [directory|e] eqn:E1.
  2:{ intros [= <- <- <-]. split; [done|]. split; [done|].
      split; [|by intros ? [=]].
      intros kv d [= ->]. cbn in E1. discriminate. }
  assert (forall kv d, Ok body = Ok (JDict kv) ->
            default (JStr []) (dict_get kv (py "directory")) = JStr d ->
            directory = JStr d) as Hdir.
  { intros kv d [= ->] Hd. cbn [json_get] in E1. injection E1 as <-. exact Hd. }
  destruct (truthy directory) eqn:Td; cbn [negb].
  2:{ intros [= <- <- <-]. split; [done|]. split; [done|].
      split; [|by intros ? [=]].
      intros kv d Hb Hd _. by rewrite (Hdir kv d Hb Hd). }
  destruct (isdir_value w directory) as [[|]|e] eqn:Ei.
  - destruct (uuid4_hex w) as [hex w1] eqn:Eu.
    destruct (run_analyzer cfg _ _ 300) as [[[rc out] err] w2] eqn:Er.
    intros [= <- <- <-]. split; [done|]. split; [|split].
    + intros Hres. exfalso. eapply Hres. reflexivity.
    + intros kv d Hb Hd Hno. rewrite (Hdir kv d Hb Hd) in Td, Ei.
      cbn in Td, Ei. destruct Hno as [->|Hno]; [discriminate|]. congruence.
    + intros data [= <-]. exists body, directory, hex, w1, rc, out, err.
      by repeat split.
  - intros [= <- <- <-]. split; [done|]. split; [done|].
    split; [|by intros ? [=]].
    intros kv d Hb Hd _. by rewrite (Hdir kv d Hb Hd).
  - intros [= <- <- <-]. split; [done|]. split; [done|].
    split; [|by intros ? [=]].
    intros kv d Hb Hd _. rewrite (Hdir kv d Hb Hd) in Ei. discriminate.
Qed.
End batch_routes.

Lemma post_compare_spec_witness :
  exists data w',
    @post_compare sim (sim_with_body sim_compare_text sim_compare_body) sim_cfg
      sim_compare_request 56 (sim_sessions [], sim_failed_run)
    = (Ok (JsonResponse 200 data), (sim_sessions [], w'))
    /\ resolve_input (sim_sessions []) (JStr (py "0123456789ab"))
       = Ok (JStr (py "/tmp/bundle.tgz"))
    /\ resolve_input (sim_sessions []) (JStr (py "/tmp/other.tgz"))
       = Ok (JStr (py "/tmp/other.tgz"))
    /\ json_get data (py "ok") JNull = Ok (JBool false).
Proof.
  destruct (@post_compare sim (sim_with_body sim_compare_text sim_compare_body) sim_cfg
              sim_compare_request 56 (sim_sessions [], sim_failed_run))
    as [res [sessions' w']] eqn:E.
  destruct (@post_compare_spec sim (sim_with_body sim_compare_text sim_compare_body)
              sim_cfg _ _ _ _ _ _ _ E) as (-> & _ & H200).
  pose proof E as E0. vm_compute in E0. injection E0 as <- <-.
  eexists _, _. split; [reflexivity|].
  destruct (H200 _ eq_refl)
    as (body & base & target & bp & tp & hex & w1 & rc & out & err
        & Hb & Hbase & Htarget & _ & _ & Hbp & Htp & Hu & Hrun & Hok & _).
  vm_compute in Hb. injection Hb as <-.
  vm_compute in Hbase. injection Hbase as <-.
  vm_compute in Htarget. injection Htarget as <-.
  split; [reflexivity|]. split; [reflexivity|]. reflexivity.
Defined.

Lemma post_fleet_spec_witness :
  exists data w',
    @post_fleet sim (sim_with_body sim_fleet_text sim_fleet_body) sim_runtime sim_cfg
      sim_fleet_request 28 (sim_sessions [], sim_fleet)
    = (Ok (JsonResponse 200 data), (sim_sessions [], w'))
    /\ json_get data (py "ok") JNull = Ok (JBool false).
Proof.
  destruct (@post_fleet sim (sim_with_body sim_fleet_text sim_fleet_body) sim_runtime sim_cfg
              sim_fleet_request 28 (sim_sessions [], sim_fleet))
    as [res [sessions' w']] eqn:E.
  destruct (@post_fleet_spec sim (sim_with_body sim_fleet_text sim_fleet_body) sim_runtime
              sim_cfg _ _ _ _ _ _ _ E) as (-> & _ & _ & H200).
  pose proof E as E0. vm_compute in E0. injection E0 as <- <-.
  eexists _, _. split; [reflexivity|]. reflexivity.
Defined.


(** ** The store under POST requests *)

Section post_store.
Context {W : Type} `{!Host W} `{!Runtime W} (cfg : config).

Lemma new_session_set (w w' : W) sessions sessions' input k :
  new_session cfg w sessions input = (k, sessions', w') ->
  exists s, sessions' = dict_set sessions k s
            /\ session_ok cfg k s /\ input_path s = input /\ state s = py "loaded".
Proof.
  unfold new_session. destruct (uuid4_hex w) as [hex w1]. intros [= <- <- <-].
  eexists. split; [reflexivity|]. by repeat split.
Qed.

Lemma post_compare_sessions (rq : post_request) n sessions (w : W) res sessions' w' :
  post_compare cfg rq n (sessions, w) = (res, (sessions', w')) -> sessions' = sessions.
Proof.
  unfold post_compare.
  repeat match goal with
         | |- context [match ?x with _ => _ end] => destruct x
         | |- context [if ?x then _ else _] => destruct x
         end; by intros [= <- <- <-].
Qed.

Lemma post_fleet_sessions (rq : post_request) n sessions (w : W) res sessions' w' :
  post_fleet cfg rq n (sessions, w) = (res, (sessions', w')) -> sessions' = sessions.
Proof.
  unfold post_fleet.
  repeat match goal with
         | |- context [match ?x with _ => _ end] => destruct x
         | |- context [if ?x then _ else _] => destruct x
         end; by intros [= <- <- <-].
Qed.

(** The upload route either leaves the store alone, and does not answer
    200, or files one new session and answers 200 with its identifier. *)
Lemma post_upload_cases (rq : post_request) n sessions (w : W) res sessions' w' :
  post_upload cfg rq n (sessions, w) = (res, (sessions', w')) ->
  (sessions' = sessions /\ forall data, res <> Ok (JsonResponse 200 data))
  \/ (exists input w0 k name,
        new_session cfg w0 sessions input = (k, sessions', w')
        /\ res = Ok (JsonResponse 200
                       (JDict [ (py "ok", JBool true); (py "session_id", JStr k);
                                (py "file", JStr name) ]))).
Proof.
  unfold post_upload.
  destruct (contains _ _).
  - destruct (parse_multipart _ _ _) as [fields|e]; [|intros [= <- <- <-]; by left].
    destruct (dict_get fields _) as [[[fname|] fdata]|];
      [|intros [= <- <- <-]; by left..].
    destruct (nonempty fname); [|intros [= <- <- <-]; by left].
    destruct (uuid4_hex w) as [hex w1].
    destruct (write_bytes w1 _ fdata) as [w2|e]; [|intros [= <- <- <-]; by left].
    destruct (new_session cfg w2 sessions _) as [[k s1] w3] eqn:En.
    intros [= <- <- <-]. right. by eexists _, _, _, _.
  - destruct (json_loads _) as [body|e]; [|intros [= <- <- <-]; by left].
    destruct (json_get body _ _) as [p|e]; [|intros [= <- <- <-]; by left].
    destruct (truthy p); cbn [negb]; [|intros [= <- <- <-]; by left].
    destruct (exists_value w p) as [[|]|e]; [|intros [= <- <- <-]; by left..].
    destruct p as [| | |p| |]; try (intros [= <- <- <-]; by left).
    destruct (new_session cfg w sessions _) as [[k s1] w3] eqn:En.
    intros [= <- <- <-]. right. by eexists _, _, _, _.
Qed.

(** X21.  Whatever the POST request, no session disappears from the
    store and at most one is added; a well-filed store stays well filed;
    a request that is not answered 200 leaves the store as it was; and
    only the upload route can add a session. *)
Theorem do_POST_store (rq : post_request) sessions (w : W) res sessions' w' :
  do_POST_all cfg rq (sessions, w) = (res, (sessions', w')) ->
  (forall k, is_Some (dict_get sessions k) -> is_Some (dict_get sessions' k))
  /\ (length sessions <= length sessions' <= S (length sessions))%nat
  /\ (store_ok cfg sessions -> store_ok cfg sessions')
  /\ ((forall data, res <> Ok (JsonResponse 200 data)) -> sessions' = sessions)
  /\ (post_path rq <> py "/api/upload" -> length sessions' = length sessions).
Proof.
  assert (sessions' = sessions ->
          (forall k, is_Some (dict_get sessions k) -> is_Some (dict_get sessions' k))
          /\ (length sessions <= length sessions' <= S (length sessions))%nat
          /\ (store_ok cfg sessions -> store_ok cfg sessions')
          /\ ((forall data, res <> Ok (JsonResponse 200 data)) -> sessions' = sessions)
          /\ (post_path rq <> py "/api/upload" -> length sessions' = length sessions))
    as Hsame.
  { intros ->. split; [done|]. split; [lia|]. split; [done|]. split; [done|]. done. }
  assert (forall k s, sessions' = dict_set sessions k s -> session_ok cfg k s ->
          (forall k, is_Some (dict_get sessions k) -> is_Some (dict_get sessions' k))
          /\ (length sessions <= length sessions' <= S (length sessions))%nat
          /\ (store_ok cfg sessions -> store_ok cfg sessions'))
    as Hset.
  { intros k s -> Hs. split; [|split].
    - intros k' Hk'. destruct (decide (k = k')) as [<-|Hne].
      + rewrite dict_get_set. by eexists.
      + by rewrite dict_get_set_ne.
    - rewrite dict_set_length. destruct (dict_get sessions k); lia.
    - intros Hok k' s'. destruct (decide (k = k')) as [<-|Hne].
      + rewrite dict_get_set. by intros [= <-].
      + rewrite dict_get_set_ne by done. apply Hok. }
  unfold do_POST_all, do_POST.
  destruct (match content_length rq with Some v => py_int v | None => Some 0%Z end)
    as [n|]; [|intros [= <- <- <-]; by apply Hsame].
  destruct (str_eqb (post_path rq) (py "/api/upload")) eqn:E1.
  { intros [[-> Hres]|(input & w0 & k & name & Hn & ->)]%post_upload_cases;
      [by apply Hsame|].
    apply new_session_set in Hn as (s & -> & Hs & _).
    destruct (Hset k s eq_refl Hs) as (Ha & Hb & Hc).
    split; [done|]. split; [done|]. split; [done|]. split.
    - intros Hres. exfalso. eapply Hres. reflexivity.
    - intros Hne. apply str_eqb_eq in E1. done. }
  destruct (str_eqb (post_path rq) (py "/api/analyze")) eqn:E2.
  { intros [[[= -> ->] Hres]|(k & s & s' & w1 & rc & out & err & data & Hs & [= -> ->]
                              & -> & _ & Hsf & _)]%post_analyze_cases;
      [by apply Hsame|].
    assert (length (dict_set sessions k s') = length sessions) as Hlen.
    { rewrite dict_set_length. by rewrite Hs. }
    split; [|split; [|split; [|split]]].
    - intros k' Hk'. destruct (decide (k = k')) as [<-|Hne].
      + rewrite dict_get_set. by eexists.
      + by rewrite dict_get_set_ne.
    - lia.
    - intros Hok k' s1. destruct (decide (k = k')) as [<-|Hne].
      + rewrite dict_get_set. intros [= <-].
        destruct (Hok _ _ Hs) as (Ha & Hb & Hc).
        destruct Hsf as (H1 & H2 & H3 & H4).
        unfold session_ok. repeat split; congruence.
      + rewrite dict_get_set_ne by done. apply Hok.
    - intros Hres. exfalso. eapply Hres. reflexivity.
    - done. }
  destruct (str_eqb (post_path rq) (py "/api/compare")) eqn:E3.
  { intros ->%post_compare_sessions. by apply Hsame. }
  destruct (str_eqb (post_path rq) (py "/api/fleet")) eqn:E4.
  { intros ->%post_fleet_sessions. by apply Hsame. }
  intros [= <- <- <-]. by apply Hsame.
Qed.
End post_store.

Lemma do_POST_store_witness :
  exists res sessions' w',
    do_POST_all sim_cfg sim_upload_request (sim_sessions [], sim_parsed)
    = (res, (sessions', w'))
    /\ is_Some (dict_get sessions' (py "0123456789ab"))
    /\ (length (sim_sessions []) <= length sessions' <= S (length (sim_sessions [])))%nat
    /\ store_ok sim_cfg sessions'.
Proof.
  destruct (do_POST_all sim_cfg sim_upload_request (sim_sessions [], sim_parsed))
    as [res [sessions' w']] eqn:E.
  destruct (do_POST_store sim_cfg _ _ _ _ _ _ E) as (Hkeep & Hlen & Hok & _).
  exists res, sessions', w'. split; [reflexivity|]. split; [|split; [exact Hlen|]].
  - apply Hkeep. by eexists.
  - apply Hok. intros k s Hs. cbn in Hs. destruct (str_eqb _ k) eqn:Ek; [|discriminate].
    apply str_eqb_eq in Ek as <-. injection Hs as <-. by repeat split.
Defined.


(** ** The multipart decoder *)

Lemma not_dq c : atom_ok (NotClass [(34%N, 34%N)]) c = true <-> c <> DQ.
Proof.
  cbn [atom_ok in_ranges existsb fst snd]. unfold in_range.
  rewrite orb_false_r, negb_true_iff. split.
  - intros H ->. vm_compute in H. discriminate.
  - intros Hne. apply andb_false_iff.
    destruct (34 <=? code c)%N eqn:E1; [|by left]. right.
    apply N.leb_gt. apply N.leb_le in E1.
    destruct (decide (code c = 34%N)) as [E|E]; [|lia].
    destruct Hne. by apply code_inj in E.
Qed.

Lemma not_dq_Forall v : Forall (fun c => atom_ok (NotClass [(34%N, 34%N)]) c = true) v <-> DQ ∉ v.
Proof.
  rewrite Forall_forall. split.
  - intros H Hin. by apply (proj1 (not_dq _) (H _ Hin)).
  - intros H c Hc. apply not_dq. by intros ->.
Qed.

Section matcher_group_star.
Context {R : Type}.
Implicit Types (k : str -> groups -> option R).

Lemma rmatch_group_star_inv n a s g k x :
  rmatch (Group n (Star (Atom a))) s g k = Some x ->
  exists run rest, s = run ++ rest /\ Forall (fun c => atom_ok a c = true) run
                   /\ k rest ((n, run) :: g) = Some x.
Proof.
  rewrite rmatch_group. intros (run & rest & -> & Hrun & H)%rmatch_star_inv.
  rewrite take_consumed in H. by exists run, rest.
Qed.
End matcher_group_star.

(** A match of the [name] pattern: the text between the two quotes. *)
Lemma name_re_inv s m :
  match_here name_re s = Some m ->
  exists v rest, s = py "name=" ++ DQ :: v ++ DQ :: rest
                 /\ m_groups m = [(1%nat, v)] /\ v <> [] /\ (DQ ∉ v).
Proof.
  unfold match_here, name_re. cbn [Seq]. intros H.
  rewrite rmatch_cat in H. apply rmatch_str_inv in H as (s1 & -> & H).
  rewrite rmatch_cat in H.
  apply rmatch_group_plus_inv in H as (c & run & s2 & -> & Hc & Hrun & H).
  apply rmatch_lit_inv in H as (s3 & -> & H). injection H as <-.
  exists (c :: run), s3. split; [reflexivity|]. split; [reflexivity|]. split; [done|].
  apply not_dq_Forall. by constructor.
Qed.

Lemma filename_re_inv s m :
  match_here filename_re s = Some m ->
  exists v, m_groups m = [(1%nat, v)] /\ (DQ ∉ v).
Proof.
  unfold match_here, filename_re. cbn [Seq]. intros H.
  rewrite rmatch_cat in H. apply rmatch_str_inv in H as (s1 & -> & H).
  rewrite rmatch_cat in H.
  apply rmatch_group_star_inv in H as (run & s2 & -> & Hrun & H).
  apply rmatch_lit_inv in H as (s3 & -> & H). injection H as <-.
  exists run. split; [reflexivity|]. by apply not_dq_Forall.
Qed.

(** The first [name=] followed by a quote is the one the pattern takes,
    when no quote comes before it. *)
Lemma name_search pre v post :
  DQ ∉ pre -> v <> [] -> DQ ∉ v ->
  exists m, re_search name_re (pre ++ py "name=" ++ DQ :: v ++ DQ :: post) = Some m
            /\ m_group m 1 = v.
Proof.
  intros Hpre Hv Hdq. induction pre as [|c pre IH].
  - destruct v as [|c run]; [done|].
    apply not_dq_Forall in Hdq. apply Forall_cons in Hdq as [Hc Hrun].
    eexists. split.
    + apply re_search_here. unfold match_here, name_re. cbn [Seq app].
      rewrite rmatch_cat.
      erewrite (rmatch_str_eq (py "name=" ++ [DQ])) by reflexivity.
      rewrite rmatch_cat.
      change (c :: run ++ DQ :: post) with (c :: run ++ (DQ :: post)).
      apply rmatch_group_plus_run; [done|done| |].
      * rewrite rmatch_atom_ok by apply ascii_eqb_refl. reflexivity.
      * reflexivity.
    + reflexivity.
  - apply not_elem_of_cons in Hpre as [Hc Hpre].
    destruct (IH Hpre) as (m & Hm & Hg). exists m. split; [|done].
    cbn [app re_search].
    destruct (match_here name_re (c :: pre ++ _)) as [m'|] eqn:E; [|exact Hm].
    exfalso. clear IH Hm. apply name_re_inv in E as (v' & rest & E & _).
    destruct pre as [|c1 [|c2 [|c3 [|c4 [|c5 pre]]]]];
      cbn in E; injection E; intros; subst; try discriminate.
    apply Hpre. set_solver.
Qed.

(** X22.  Every field the multipart decoder returns has a name that is
    not empty and holds no double quote, and a file name, when it has
    one, without a double quote. *)
Theorem multipart_fields_well_formed {W : Type} `{!Runtime W}
    (body content_type : str) (n : Z) fields name f :
  parse_multipart (W:=W) body content_type n = Ok fields ->
  dict_get fields name = Some f ->
  name <> [] /\ (DQ ∉ name) /\ (forall fn, filename f = Some fn -> DQ ∉ fn).
Proof.
  set (good := fun kf : str * field =>
         kf.1 <> [] /\ (DQ ∉ kf.1) /\ (forall fn, filename kf.2 = Some fn -> DQ ∉ fn)).
  assert (forall parts d d', Forall good d -> walk_parts d parts = Ok d' -> Forall good d')
    as Hwalk.
  { induction parts as [|part parts IH]; intros d d' Hd; cbn [walk_parts].
    { by intros [= <-]. }
    destruct (multipart_step d part) as [d1|e] eqn:Estep; [|discriminate].
    apply IH. unfold multipart_step in Estep.
    destruct part.1 as [[cd|]|]; [|discriminate|by injection Estep as <-].
    destruct (nonempty cd); cbn [negb] in Estep; [|by injection Estep as <-].
    destruct (re_search name_re cd) as [nm|] eqn:En; [|by injection Estep as <-].
    injection Estep as <-.
    apply re_search_inv in En as [i (v & rest & _ & Hg & Hv & Hdq)%name_re_inv].
    unfold m_group. rewrite Hg. cbn [group Nat.eqb default from_option id].
    apply Forall_forall. intros kf [->|Hin]%dict_set_elem.
    - split; [done|]. split; [done|]. cbn [snd filename]. intros fn.
      destruct (re_search filename_re _) as [fm|] eqn:Ef; [|discriminate].
      apply re_search_inv in Ef as [j (v' & Hg' & Hdq')%filename_re_inv].
      rewrite Hg'. cbn [group Nat.eqb default]. by intros [= <-].
    - by apply (proj1 (Forall_forall _ _) Hd). }
  assert (forall (d : dict field) k v, dict_get d k = Some v -> (k, v) ∈ d) as Hget.
  { induction d as [|[k0 v0] d IH]; intros k v; cbn [dict_get]; [discriminate|].
    destruct (str_eqb k0 k) eqn:E.
    - apply str_eqb_eq in E as ->. intros [= <-]. by left.
    - intros H. right. by apply IH. }
  intros Hp Hf. apply Hget in Hf.
  unfold parse_multipart in Hp.
  destruct (re_search boundary_re content_type).
  - exact (proj1 (Forall_forall _ _) (Hwalk _ [] _ (Forall_nil_2 _) Hp) _ Hf).
  - injection Hp as <-. by apply elem_of_nil in Hf.
Qed.

Lemma multipart_fields_well_formed_witness :
  py "file" <> [] /\ (DQ ∉ py "file")
  /\ (forall fn, Some (py "logs/bundle.tgz") = Some fn -> DQ ∉ fn).
Proof.
  exact (multipart_fields_well_formed (W:=sim) (py "BUNDLE")
           (py "multipart/form-data; boundary=----x") 6
           [(py "file", Field (Some (py "logs/bundle.tgz")) (py "BUNDLE"))] (py "file")
           (Field (Some (py "logs/bundle.tgz")) (py "BUNDLE")) eq_refl eq_refl).
Defined.

(** X23.  A part is filed under the text between the first [name=]
    followed by a double quote and the next double quote, wherever that
    stands in the disposition: also inside [filename=].  It replaces the
    field of that name, when there is one, and leaves the others. *)
Theorem multipart_first_name (res : dict field) pre v post payload :
  DQ ∉ pre -> v <> [] -> DQ ∉ v ->
  exists fn res',
    multipart_step res
      (Some (HText (pre ++ py "name=" ++ DQ :: v ++ DQ :: post)), payload)
    = Ok res'
    /\ res' = dict_set res v (Field fn (default [] payload))
    /\ dict_get res' v = Some (Field fn (default [] payload))
    /\ (forall k, k <> v -> dict_get res' k = dict_get res k).
Proof.
  intros Hpre Hv Hdq.
  destruct (name_search pre v post Hpre Hv Hdq) as (m & Hm & Hg).
  unfold multipart_step. cbn [fst snd].
  replace (nonempty (pre ++ py "name=" ++ DQ :: v ++ DQ :: post)) with true
    by (by destruct pre).
  cbn [negb]. rewrite Hm, Hg.
  eexists _, _. split; [reflexivity|]. split; [reflexivity|]. split.
  - by rewrite dict_get_set.
  - intros k Hk. by rewrite dict_get_set_ne.
Qed.

Lemma multipart_first_name_witness :
  exists fn,
    multipart_step [] (Some (HText (py "form-data; filename=" ++ quoted "a.txt")),
                       Some (py "BUNDLE"))
    = Ok [(py "a.txt", Field fn (py "BUNDLE"))].
Proof.
  destruct (multipart_first_name [] (py "form-data; file") (py "a.txt") [] (Some (py "BUNDLE")))
    as (fn & res' & H & -> & _).
  - apply not_dq_Forall. repeat constructor.
  - done.
  - apply not_dq_Forall. repeat constructor.
  - exists fn. exact H.
Defined.


(** ** The upload route *)

Lemma startswith_app p r : startswith (p ++ r) p = true.
Proof.
  induction p as [|c p IH]; [reflexivity|]. cbn [app startswith].
  by rewrite ascii_eqb_refl, IH.
Qed.

Lemma contains_false_drop sub s i :
  contains sub s = false -> startswith (drop i s) sub = false.
Proof.
  revert i. induction s as [|c s IH]; intros i; cbn [contains].
  - intros [H _]%orb_false_iff. by destruct i.
  - intros [H Hs]%orb_false_iff. destruct i as [|i]; [exact H|]. cbn [drop]. by apply IH.
Qed.

Lemma boundary_needs_marker ct :
  contains (py "boundary=") ct = false -> re_search boundary_re ct = None.
Proof.
  intros Hc. destruct (re_search boundary_re ct) as [m|] eqn:E; [|done].
  apply re_search_inv in E as [i E]. unfold match_here, boundary_re in E. cbn [Seq] in E.
  rewrite rmatch_cat in E. apply rmatch_str_inv in E as (rest & Hd & _).
  pose proof (contains_false_drop _ _ i Hc) as Hs.
  rewrite Hd, startswith_app in Hs. discriminate.
Qed.

Lemma last_map_Some_None (a : str) : List.last (map Some a) None = None -> a = [].
Proof.
  induction a as [|c a IH]; [done|]. cbn [map List.last].
  destruct (map Some a) eqn:E; [discriminate|]. intros H.
  rewrite (IH H) in E. discriminate.
Qed.

(** Joining a name without a slash puts it directly inside the directory. *)
Lemma path_join_flat a b :
  "/"%char ∉ b ->
  exists sep, (sep = [] \/ sep = py "/") /\ path_join a b = a ++ sep ++ b.
Proof.
  intros Hb. unfold path_join.
  replace (startswith b (py "/")) with false.
  2:{ destruct b as [|c b]; [reflexivity|]. cbn [py startswith]. cbn.
      destruct (ascii_eqb "/" c) eqn:E; [|reflexivity].
      apply ascii_eqb_eq in E as <-. destruct Hb. by left. }
  destruct (List.last (map Some a) None) as [c|] eqn:E.
  - destruct (ascii_eqb c "/"); [exists []|exists (py "/")]; split; auto.
  - apply last_map_Some_None in E as ->. exists []. by split; [left|].
Qed.

Section upload.
Context {W : Type} `{!Host W} `{!Runtime W} (cfg : config).

(** X24.  A multipart upload whose content type holds no [boundary=]
    decodes to no field at all, whatever the body, and is answered 400
    with [No file]; no session is created and nothing is written. *)
Theorem upload_without_boundary (rq : post_request) n (st : dict session * W) :
  contains (py "multipart") (default [] (content_type_hdr rq)) = true ->
  contains (py "boundary=") (default [] (content_type_hdr rq)) = false ->
  parse_multipart (W:=W) (post_body rq) (default [] (content_type_hdr rq)) n = Ok []
  /\ post_upload cfg rq n st = (Ok (JsonResponse 400 (error_json (py "No file"))), st).
Proof.
  intros Hm Hb.
  assert (parse_multipart (W:=W) (post_body rq) (default [] (content_type_hdr rq)) n
          = Ok []) as Hp.
  { unfold parse_multipart. by rewrite boundary_needs_marker. }
  split; [exact Hp|].
  unfold post_upload. destruct st as [sessions w]. by rewrite Hm, Hp.
Qed.

(** X25.  When a multipart upload is answered 200, the bytes of the field
    [file] were written to a file directly inside the upload directory:
    its name is eight characters of a fresh identifier, an underscore and
    the last component of the client's file name, and holds no slash, so
    the client's directories are dropped.  The new session has that file
    as its input and is in state [loaded]; the answer gives the session
    identifier and the bare file name. *)
Theorem upload_confined (rq : post_request) n sessions (w : W) data sessions' w' :
  contains (py "multipart") (default [] (content_type_hdr rq)) = true ->
  ("/"%char ∉ (uuid4_hex w).1) ->
  post_upload cfg rq n (sessions, w) = (Ok (JsonResponse 200 data), (sessions', w')) ->
  exists fields fname fdata name sep w2 k s,
    parse_multipart (W:=W) (post_body rq) (default [] (content_type_hdr rq)) n = Ok fields
    /\ dict_get fields (py "file") = Some (Field (Some fname) fdata)
    /\ fname <> []
    /\ name = take 8 (uuid4_hex w).1 ++ py "_" ++ basename fname
    /\ ("/"%char ∉ name)
    /\ (sep = [] \/ sep = py "/")
    /\ write_bytes (uuid4_hex w).2 (UPLOAD_DIR cfg ++ sep ++ name) fdata = Ok w2
    /\ dict_get sessions' k = Some s
    /\ input_path s = UPLOAD_DIR cfg ++ sep ++ name
    /\ state s = py "loaded"
    /\ data = JDict [ (py "ok", JBool true); (py "session_id", JStr k);
                      (py "file", JStr (basename fname)) ].
Proof.
  intros Hm Hhex. unfold post_upload. rewrite Hm.
  destruct (parse_multipart _ _ _) as [fields|e] eqn:Ep; [|discriminate].
  destruct (dict_get fields (py "file")) as [[[fname|] fdata]|] eqn:Ef; [|discriminate..].
  destruct (nonempty fname) eqn:Hne; [|discriminate].
  destruct (uuid4_hex w) as [hex w1] eqn:Eu. cbn [fst snd] in *.
  assert ("/"%char ∉ take 8 hex ++ py "_" ++ basename fname) as Hflat.
  { intros [H|[H|H]%elem_of_app]%elem_of_app.
    - apply Hhex. rewrite <- (take_drop 8 hex). apply elem_of_app. by left.
    - cbn in H. apply elem_of_cons in H as [H|H]; [discriminate|by apply elem_of_nil in H].
    - by apply basename_no_sep in H. }
  destruct (path_join_flat (UPLOAD_DIR cfg) _ Hflat) as (sep & Hsep & Hjoin).
  rewrite Hjoin.
  destruct (write_bytes w1 _ fdata) as [w2|e] eqn:Ew; [|discriminate].
  destruct (new_session cfg w2 sessions _) as [[k s1] w3] eqn:En.
  intros [= <- <- <-].
  apply new_session_set in En as (s & -> & _ & Hin & Hst).
  exists fields, fname, fdata, (take 8 hex ++ py "_" ++ basename fname), sep, w2, k, s.
  split; [done|]. split; [done|]. split; [by destruct fname|]. split; [reflexivity|].
  split; [done|]. split; [done|]. split; [done|].
  split; [apply dict_get_set|]. by repeat split.
Qed.

(** X26.  A session an upload has just created can be analyzed: the
    analyze request naming the identifier the upload answered is never
    answered 404; it runs the analyzer, in the standard mode, on the input
    the upload stored, with the session's reports directory as output, and
    is answered 200. *)
Theorem upload_then_analyze (rq rq2 : post_request) n n2 sessions (w : W)
    data k sessions1 w1 :
  post_upload cfg rq n (sessions, w) = (Ok (JsonResponse 200 data), (sessions1, w1)) ->
  json_get data (py "session_id") JNull = Ok (JStr k) ->
  json_loads (read_body n2 (post_body rq2)) = Ok (JDict [(py "session_id", JStr k)]) ->
  exists s rc out err data2 sessions2 w2,
    dict_get sessions1 k = Some s
    /\ state s = py "loaded"
    /\ run_analyzer cfg w1
         [ JStr (py "-q"); JStr (py "--no-color"); JStr (py "--mode");
           JStr (py "standard"); JStr (py "-o");
           JStr (path_join (path_join (SESSION_DIR cfg) k) (py "reports"));
           JStr (input_path s) ] 180
       = ((rc, out, err), w2)
    /\ post_analyze cfg rq2 n2 (sessions1, w1)
       = (Ok (JsonResponse 200 data2), (sessions2, w2))
    /\ json_get data2 (py "session_id") JNull = Ok (JStr k).
Proof.
  intros [[_ Hres]|(input & w0 & k0 & name & Hn & Hres)]%post_upload_cases Hk Hbody.
  { exfalso. eapply Hres. reflexivity. }
  injection Hres as ->. vm_compute in Hk. injection Hk as ->.
  apply new_session_set in Hn as (s & -> & (Hsid & Hwd & Hrd) & Hin & Hst).
  assert (exists rc out err data2 sessions2 w2,
            run_analyzer cfg w1
              [ JStr (py "-q"); JStr (py "--no-color"); JStr (py "--mode");
                JStr (py "standard"); JStr (py "-o");
                JStr (path_join (path_join (SESSION_DIR cfg) k) (py "reports"));
                JStr (input_path s) ] 180
            = ((rc, out, err), w2)
            /\ post_analyze cfg rq2 n2 (dict_set sessions k s, w1)
               = (Ok (JsonResponse 200 data2), (sessions2, w2))
            /\ json_get data2 (py "session_id") JNull = Ok (JStr k)) as Hrun.
  { unfold post_analyze. rewrite Hbody. cbn [json_get dict_get].
    repeat match goal with
           | |- context [str_eqb (py ?a) (py ?b)] =>
               let v := eval vm_compute in (str_eqb (py a) (py b)) in
               change (str_eqb (py a) (py b)) with v
           end.
    cbn [default from_option id truthy lookup_session]. rewrite dict_get_set.
    cbn [app]. rewrite Hrd, Hwd.
    destruct (run_analyzer cfg w1 _ 180) as [[[rc out] err] w2] eqn:Er.
    destruct (re_search device_re (strip_ansi out)) as [m|];
      (eexists rc, out, err, _, _, w2; split; [reflexivity|]; split; reflexivity). }
  destruct Hrun as (rc & out & err & data2 & sessions2 & w2 & Hr & Hp & Hd).
  exists s, rc, out, err, data2, sessions2, w2.
  split; [apply dict_get_set|]. by repeat split.
Qed.
End upload.

Lemma upload_without_boundary_witness :
  parse_multipart (W:=sim) (py "BUNDLE") (py "multipart/form-data") 6 = Ok []
  /\ post_upload sim_cfg
       (PostRequest (py "/api/upload") (Some (py "6")) (Some (py "multipart/form-data"))
                    (py "BUNDLE"))
       6 (sim_sessions [], sim_parsed)
     = (Ok (JsonResponse 400 (error_json (py "No file"))), (sim_sessions [], sim_parsed)).
Proof.
  exact (upload_without_boundary sim_cfg
           (PostRequest (py "/api/upload") (Some (py "6")) (Some (py "multipart/form-data"))
                        (py "BUNDLE"))
           6 (sim_sessions [], sim_parsed) eq_refl eq_refl).
Defined.

Lemma upload_confined_witness :
  exists name sep k s,
    name = py "01234567_bundle.tgz"
    /\ ("/"%char ∉ name)
    /\ (sep = [] \/ sep = py "/")
    /\ dict_get (post_upload sim_cfg sim_upload_request 6 (sim_sessions [], sim_parsed)).2.1 k
       = Some s
    /\ input_path s = UPLOAD_DIR sim_cfg ++ sep ++ name.
Proof.
  destruct (post_upload sim_cfg sim_upload_request 6 (sim_sessions [], sim_parsed))
    as [res [sessions' w']] eqn:E.
  pose proof E as E0. vm_compute in E0. injection E0 as <- <- <-.
  assert ("/"%char ∉ (uuid4_hex sim_parsed).1) as Hhex.
  { cbn. intros H. repeat (apply elem_of_cons in H as [H|H]; [discriminate|]).
    by apply elem_of_nil in H. }
  destruct (upload_confined sim_cfg sim_upload_request 6 (sim_sessions []) sim_parsed
              _ _ _ eq_refl Hhex E)
    as (fields & fname & fdata & name & sep & w2 & k & s & Hp & Hf & _ & Hname & Hflat
        & Hsep & _ & Hs & Hin & _).
  vm_compute in Hp. injection Hp as <-.
  vm_compute in Hf. injection Hf as <- <-.
  exists name, sep, k, s. split; [exact Hname|]. by repeat split.
Defined.

Lemma upload_then_analyze_witness :
  exists data2 sessions2 w2,
    post_analyze sim_cfg sim_analyze_request 30
      (post_upload sim_cfg sim_upload_request 6 (sim_sessions [], sim_failed_run)).2
    = (Ok (JsonResponse 200 data2), (sessions2, w2))
    /\ json_get data2 (py "session_id") JNull = Ok (JStr (py "0123456789ab")).
Proof.
  destruct (post_upload sim_cfg sim_upload_request 6 (sim_sessions [], sim_failed_run))
    as [res [sessions' w']] eqn:E.
  pose proof E as E0. vm_compute in E0. injection E0 as <- <- <-.
  destruct (upload_then_analyze sim_cfg sim_upload_request sim_analyze_request 6 30
              (sim_sessions []) sim_failed_run _ (py "0123456789ab") _ _ E eq_refl eq_refl)
    as (s & rc & out & err & data2 & sessions2 & w2 & _ & _ & _ & Hp & Hd).
  exists data2, sessions2, w2. by split.
Defined.


(** ** Files sent to the client *)

Section files.
Context {W : Type} `{!Host W}.

(** X27.  [_file] answers 404 with [Not found] when the path is no
    regular file.  Otherwise it sends the bytes of the file under a
    content type that is never empty: the one given when that is not
    empty.  The answer is an attachment exactly when the type is
    [application/octet-stream], and the attachment is then named by the
    last component of the path, which holds no slash. *)
Theorem send_file_spec (w : W) p ctype r :
  send_file w p ctype = Ok r ->
  (os_isfile w p = false /\ r = JsonResponse 404 (error_json (py "Not found")))
  \/ (os_isfile w p = true
      /\ exists ct body att,
           r = FileResponse ct body att
           /\ read_bytes w p = Ok body
           /\ ct <> []
           /\ (forall c, ctype = Some c -> c <> [] -> ct = c)
           /\ (att = None <-> ct <> py "application/octet-stream")
           /\ (forall name, att = Some name -> name = basename p /\ ("/"%char ∉ name))).
Proof.
  unfold send_file. destruct (os_isfile w p); cbn [negb].
  2:{ intros [= <-]. by left. }
  cbv zeta.
  set (given := match ctype with Some c => if nonempty c then Some c else None
                               | None => None end).
  set (guessed := match guess_type p with Some c => if nonempty c then Some c else None
                                        | None => None end).
  set (ct := default (default (py "application/octet-stream") guessed) given).
  destruct (read_bytes w p) as [body|e]; [|discriminate].
  intros [= <-]. right. split; [done|].
  exists ct, body, (if str_eqb ct (py "application/octet-stream")
                    then Some (basename p) else None).
  split; [reflexivity|]. split; [done|].
  split; [|split; [|split]].
  - subst ct given guessed.
    destruct ctype as [[|c0 c]|]; cbn [nonempty default from_option id];
      try done;
      destruct (guess_type p) as [[|g0 g]|];
      cbn [nonempty default from_option id]; done.
  - intros c -> Hc. subst ct given. destruct c; [done|]. reflexivity.
  - destruct (str_eqb ct _) eqn:E.
    + apply str_eqb_eq in E. split; [discriminate|]. intros Hne. by destruct Hne.
    + split; [|done]. intros _ Heq. apply str_eqb_eq in Heq. congruence.
  - intros name. destruct (str_eqb ct _); [|discriminate].
    intros [= <-]. split; [done|]. apply basename_no_sep.
Qed.
End files.

Lemma send_file_spec_witness :
  exists body,
    send_file sim_report_file
      (py "/srv/loggy/lib/sessions/0123456789ab/reports/analysis.md") None
    = Ok (FileResponse (py "application/octet-stream") body (Some (py "analysis.md"))).
Proof.
  destruct (send_file sim_report_file
              (py "/srv/loggy/lib/sessions/0123456789ab/reports/analysis.md") None)
    as [r|e] eqn:E; [|vm_compute in E; discriminate].
  destruct (send_file_spec _ _ _ _ E)
    as [[H _]|(_ & ct & body & att & -> & _)]; [vm_compute in H; discriminate|].
  exists body. vm_compute in E. injection E as <- <- <-. reflexivity.
Defined.


(** ** An upload, then the session page *)

Section upload_info.
Context {W : Type} `{!Host W} `{!Runtime W} (cfg : config).

(** X28.  A session an upload has just created can be looked up: the GET
    request for [/api/session/<id>], with the identifier the upload
    answered, is answered 200 with that identifier, the state [loaded]
    and no device identifier yet; nothing changes. *)
Theorem upload_then_info (rq : post_request) (rq2 : get_request) n sessions (w : W)
    data k sessions1 w1 :
  post_upload cfg rq n (sessions, w) = (Ok (JsonResponse 200 data), (sessions1, w1)) ->
  json_get data (py "session_id") JNull = Ok (JStr k) ->
  ("/"%char ∉ k) ->
  get_path rq2 = py "/api/session/" ++ k ->
  exists info,
    do_GET cfg rq2 (sessions1, w1)
    = (Ok (JsonResponse 200 (JDict [(py "session", info)])), (sessions1, w1))
    /\ json_get info (py "id") JNull = Ok (JStr k)
    /\ json_get info (py "state") JNull = Ok (JStr (py "loaded"))
    /\ json_get info (py "device_id") JNull = Ok (JStr []).
Proof.
  intros [[_ Hres]|(input & w0 & k0 & name & Hn & Hres)]%post_upload_cases Hk Hid Hpath.
  { exfalso. eapply Hres. reflexivity. }
  injection Hres as ->. vm_compute in Hk. injection Hk as ->.
  unfold new_session in Hn. destruct (uuid4_hex w0) as [hex w2].
  injection Hn as Hk <- <-.
  assert (get_path rq2 = py "/api/session/" ++ k ++ []) as Hpath'
    by (by rewrite app_nil_r).
  rewrite (do_GET_session_path cfg rq2 _ k [] Hpath').
  unfold get_session. rewrite Hpath'.
  destruct (session_path_parts k [] Hid (or_introl eq_refl)) as (ps & -> & Hps & _).
  rewrite (Hps eq_refl). cbn [length Nat.ltb Nat.leb item nth].
  rewrite Hk, dict_get_set.
  unfold str_eqb at 1. rewrite bool_decide_true by reflexivity.
  eexists. split; [reflexivity|]. by repeat split.
Qed.
End upload_info.

Lemma upload_then_info_witness :
  exists info,
    do_GET sim_cfg (GetRequest (py "/api/session/0123456789ab") ∅)
      (post_upload sim_cfg sim_upload_request 6 ([], sim_parsed)).2
    = (Ok (JsonResponse 200 (JDict [(py "session", info)])),
       (post_upload sim_cfg sim_upload_request 6 ([], sim_parsed)).2)
    /\ json_get info (py "state") JNull = Ok (JStr (py "loaded")).
Proof.
  destruct (post_upload sim_cfg sim_upload_request 6 ([], sim_parsed))
    as [res [sessions' w']] eqn:E.
  pose proof E as E0. vm_compute in E0. injection E0 as <- <- <-.
  destruct (upload_then_info sim_cfg sim_upload_request
              (GetRequest (py "/api/session/0123456789ab") ∅) 6 [] sim_parsed _
              (py "0123456789ab") _ _ E eq_refl)
    as (info & Hget & _ & Hstate & _).
  - intros H. repeat (apply elem_of_cons in H as [H|H]; [discriminate|]).
    by apply elem_of_nil in H.
  - reflexivity.
  - exists info. split; [exact Hget|exact Hstate].
Defined.
